(** * taskmgmt: authentication, role guard and task queries

    A shallow embedding of the Express handlers of the task-management
    backend (auth.js, profile.js, tasks.js and their sibling revisions)
    over an explicit model of the Prisma store, and the properties of the
    authorization and query-construction layer proved about them. *)

From Stdlib Require Import ZArith String Ascii List Bool Lia.
From stdpp Require Import base option list strings gmap.

Local Open Scope string_scope.
Local Open Scope list_scope.
Local Open Scope Z_scope.

(** ** JavaScript values *)

Module JS.

(** Numbers are IEEE 754 binary64 values.  A finite number is an integer
    ([Num z]) or a dyadic fraction that is no integer ([Frac m k], the
    number [m / 2^k] with [m] odd); [Num z] is a number of JavaScript when
    [z] fits 53 bits up to a power of two.  The sign of zero is not
    represented: nothing the handlers do tells the two zeros apart except
    the sign of an infinity got by dividing by one, and either infinity is
    written [null] in a response. *)
Inductive jsnum :=
| NaN
| Inf (negative : bool)
| Num (z : Z)
| Frac (m : Z) (k : positive).

#[global] Instance jsnum_eq_dec : EqDecision jsnum.
Proof. solve_decision. Defined.

(** *** Rounding to binary64 *)

(** The binary exponent of [a / d] for positive [a] and [d]: the [e] with
    [2^e <= a / d < 2^(e+1)]. *)
Definition exponent (a d : Z) : Z :=
  let e0 := Z.log2 a - Z.log2 d in
  if (if 0 <=? e0 then d * 2 ^ e0 <=? a else d <=? a * 2 ^ (- e0))
  then e0 else e0 - 1.

(** [m / 2^k] in lowest terms. *)
Fixpoint reduce (m : positive) (k : nat) : positive * nat :=
  match m, k with
  | xO m', S k' => reduce m' k'
  | _, _ => (m, k)
  end.

Definition signed (negative : bool) (z : Z) : Z := if negative then - z else z.

(** The number [± m / 2^k], for [0 <= m] and [0 <= k]. *)
Definition dyadic (negative : bool) (m : Z) (k : Z) : jsnum :=
  match m with
  | Zpos p =>
      let (p', k') := reduce p (Z.to_nat k) in
      match k' with
      | O => Num (signed negative (Zpos p'))
      | S _ => Frac (signed negative (Zpos p')) (Pos.of_nat k')
      end
  | _ => Num 0
  end.

(** The binary64 number nearest to [± a / d], for [0 <= a] and [0 < d]:
    53 bits of precision, ties to the even significand, no exponent below
    that of the subnormal numbers ([2^-1074]), and infinity from [2^1024]
    on. *)
Definition round_rat (negative : bool) (a d : Z) : jsnum :=
  if a <=? 0 then Num 0 else
  let q := Z.max (exponent a d - 52) (-1074) in
  let num := if 0 <=? q then a else a * 2 ^ (- q) in
  let den := if 0 <=? q then d * 2 ^ q else d in
  let m := num / den in
  let r := num mod den in
  let m' := if (2 * r <? den) || ((2 * r =? den) && Z.even m) then m else m + 1 in
  if 0 <=? q
  then if 2 ^ 1024 <=? m' * 2 ^ q then Inf negative
       else Num (signed negative (m' * 2 ^ q))
  else dyadic negative m' (- q).

(** Sign, numerator and binary scale of a finite number: [± a / 2^k]. *)
Definition parts (n : jsnum) : option (bool * Z * Z) :=
  match n with
  | Num z => Some (z <? 0, Z.abs z, 0)
  | Frac m k => Some (m <? 0, Z.abs m, Zpos k)
  | NaN | Inf _ => None
  end.

Definition is_zero (n : jsnum) : bool :=
  match n with Num 0 => true | _ => false end.

Definition negative (n : jsnum) : bool :=
  match n with
  | Num z => z <? 0
  | Frac m _ => m <? 0
  | Inf s => s
  | NaN => false
  end.

(** *** Values *)

(** The values that travel through request bodies, token payloads and
    store rows: JSON values, [undefined], and [Date] objects ([JDate None]
    is the Invalid Date). *)
#[warnings="-register-all"]
Inductive jsval :=
| JUndef
| JNull
| JBool (b : bool)
| JNumber (n : jsnum)
| JStr (s : string)
| JDate (t : option Z)
| JArr (items : list jsval)
| JObj (fields : list (string * jsval)).

#[global] Instance jsval_eq_dec : EqDecision jsval.
Proof.
  refine (fix go (x y : jsval) {struct x} : Decision (x = y) :=
    match x, y with
    | JUndef, JUndef => left eq_refl
    | JNull, JNull => left eq_refl
    | JBool a, JBool b => cast_if (decide (a = b))
    | JNumber a, JNumber b => cast_if (decide (a = b))
    | JStr a, JStr b => cast_if (decide (a = b))
    | JDate a, JDate b => cast_if (decide (a = b))
    | JArr a, JArr b =>
        cast_if ((fix items (l k : list jsval) : Decision (l = k) :=
                    match l, k with
                    | [], [] => left eq_refl
                    | v :: l', u :: k' => cast_if_and (go v u) (items l' k')
                    | _, _ => right _
                    end) a b)
    | JObj a, JObj b =>
        cast_if ((fix fields (l k : list (string * jsval)) : Decision (l = k) :=
                    match l, k with
                    | [], [] => left eq_refl
                    | (n, v) :: l', (m, u) :: k' =>
                        cast_if_and3 (decide (n = m)) (go v u) (fields l' k')
                    | _, _ => right _
                    end) a b)
    | _, _ => right _
    end); abstract congruence.
Defined.

(** A plain object: own properties only. *)
Abbreviation obj := (gmap string jsval).

(** [o.k]: a missing property reads as [undefined]. *)
Definition get (o : obj) (k : string) : jsval := default JUndef (o !! k).

(** ToBoolean. *)
Definition truthy (v : jsval) : bool :=
  match v with
  | JUndef | JNull => false
  | JBool b => b
  | JNumber NaN => false
  | JNumber (Num z) => negb (z =? 0)
  | JNumber (Inf _) | JNumber (Frac _ _) => true
  | JStr s => negb (String.eqb s "")
  | JDate _ | JArr _ | JObj _ => true
  end.

(** [a || b]. *)
Definition or_else (a b : jsval) : jsval := if truthy a then a else b.

(** [v === 'lit'] for a string literal. *)
Definition is_str (v : jsval) (lit : string) : bool :=
  match v with
  | JStr s => String.eqb s lit
  | _ => false
  end.

(** [isNaN] on a number. *)
Definition isNaN (n : jsnum) : bool :=
  match n with NaN => true | _ => false end.

(** [n - 1]. *)
Definition pred_num (n : jsnum) : jsnum :=
  match parts n with
  | Some (s, a, k) =>
      let x := signed s a - 2 ^ k in
      round_rat (x <? 0) (Z.abs x) (2 ^ k)
  | None => n
  end.

(** [a * b]. *)
Definition mul_num (a b : jsnum) : jsnum :=
  match a, b with
  | NaN, _ | _, NaN => NaN
  | Inf s, Inf t => Inf (xorb s t)
  | Inf s, y | y, Inf s => if is_zero y then NaN else Inf (xorb s (negative y))
  | _, _ =>
      match parts a, parts b with
      | Some (s, x, j), Some (t, y, k) => round_rat (xorb s t) (x * y) (2 ^ (j + k))
      | _, _ => NaN
      end
  end.

(** [a / b]. *)
Definition div_num (a b : jsnum) : jsnum :=
  match a, b with
  | NaN, _ | _, NaN => NaN
  | Inf _, Inf _ => NaN
  | Inf s, y => Inf (xorb s (negative y))
  | _, Inf _ => Num 0
  | _, _ =>
      if is_zero b then (if is_zero a then NaN else Inf (negative a)) else
      match parts a, parts b with
      | Some (s, x, j), Some (t, y, k) => round_rat (xorb s t) (x * 2 ^ k) (y * 2 ^ j)
      | _, _ => NaN
      end
  end.

(** [Math.ceil(n)]. *)
Definition ceil_num (n : jsnum) : jsnum :=
  match n with
  | Frac m k => Num (- ((- m) / 2 ^ Zpos k))
  | _ => n
  end.

(** [Math.ceil(t / l)] for a count [t]. *)
Definition ceil_div (t : Z) (l : jsnum) : jsnum := ceil_num (div_num (Num t) l).

(** A number as [JSON.stringify] writes it into a response: [null] for
    [NaN] and the infinities. *)
Definition on_wire (n : jsnum) : jsval :=
  match n with
  | NaN | Inf _ => JNull
  | _ => JNumber n
  end.

(** A value that is no array and no object. *)
Definition scalar (v : jsval) : bool :=
  match v with
  | JArr _ | JObj _ => false
  | _ => true
  end.

(** [s.split(' ')]: the pieces between single spaces, empty pieces kept. *)
Fixpoint split_space (s : string) : list string :=
  match s with
  | EmptyString => [EmptyString]
  | String c rest =>
      if Ascii.eqb c (ascii_of_nat 32)
      then EmptyString :: split_space rest
      else match split_space rest with
           | piece :: pieces => String c piece :: pieces
           | [] => [String c EmptyString]
           end
  end.

(** A string without a space in it. *)
Fixpoint no_space (s : string) : bool :=
  match s with
  | EmptyString => true
  | String c rest => negb (Ascii.eqb c (ascii_of_nat 32)) && no_space rest
  end.

(** Property lookup [o[k]] on an object literal.  The literal's own
    properties come first; a key that is not an own property is looked up
    on [Object.prototype], whose members are all functions or objects. *)
Definition Object_prototype_members : list string :=
  ["constructor"; "__defineGetter__"; "__defineSetter__"; "hasOwnProperty";
   "__lookupGetter__"; "__lookupSetter__"; "isPrototypeOf";
   "propertyIsEnumerable"; "toString"; "valueOf"; "__proto__";
   "toLocaleString"].

Inductive property :=
| Own (v : string)
| Inherited (member : string)
| Absent.

Fixpoint assoc (own : list (string * string)) (k : string) : option string :=
  match own with
  | [] => None
  | (k', v) :: rest => if String.eqb k k' then Some v else assoc rest k
  end.

Definition lookup_literal (own : list (string * string)) (k : string) : property :=
  match assoc own k with
  | Some v => Own v
  | None =>
      if existsb (String.eqb k) Object_prototype_members
      then Inherited k
      else Absent
  end.

End JS.

Import JS.


(** ** The store

    The Prisma client over the two tables of schema.prisma.  Rows are
    objects keyed by their [id]; a write stamps [updatedAt] as the schema
    declares it.  The calls that the handlers below make are recorded in
    a log, so that "no store access" is a statement about the log.  What
    the engine does inside (evaluating a filter, ordering and paging,
    validating data against the schema, resolving a nested write on a
    relation) and the clocks it reads are the interface [Engine]. *)

Module Store.

(** One entry of an [OR] list. *)
Inductive clause :=
| Contains (column : string) (needle : string)     (* mode: 'insensitive' *)
| EqualsNum (column : string) (n : jsnum)
| EqualsDate (column : string) (t : Z).

(** The [where] object built by the task handlers: an optional [status]
    property and an optional [OR] property. *)
Record where_ := mkWhere {
  w_status : option string;
  w_OR : option (list clause)
}.

(** The property name of an [orderBy] object.  A computed key that is an
    inherited member of [Object.prototype] is that member's string form,
    not a column name. *)
Inductive order_key :=
| Column (name : string)
| MemberText (member : string).

Record find_args := mkFind {
  fa_where : where_;
  fa_orderBy : order_key * string;
  fa_skip : jsnum;
  fa_take : jsnum
}.

Inductive op :=
| UserFindUnique (id : jsval)
| UserCreate (data : obj)
| UserUpdate (id : jsval) (data : obj)
| TaskFindUnique (id : jsnum)
| TaskFindMany (q : find_args)
| TaskCount (w : where_)
| TaskUpdate (id : jsnum) (data : obj)
| TaskDelete (id : jsnum)
| TaskFindByUser (userId : jsnum).

Record db := mkDb {
  users : gmap Z obj;
  tasks : gmap Z obj;
  user_seq : Z
}.

Record world := mkWorld {
  store : db;
  log : list op
}.

Class Engine := {
  (** the predicate a filter denotes; [None] when the engine rejects it *)
  filter_sem : where_ -> option (obj -> bool);
  (** ordering, skip and take over the matching rows; [None] when rejected *)
  page_sem : order_key * string -> jsnum -> jsnum -> list obj -> option (list obj);
  (** schema validation of the data of a user create or update *)
  valid_user_data : obj -> bool;
  (** schema validation of the data of a task update *)
  valid_task_data : obj -> bool;
  (** the clock of the client, which it reads for [@updatedAt]; nothing is
      assumed of a reading but that it is taken in some world *)
  stamp : world -> Z;
  (** the clock of the database, read for [@default(now())] *)
  db_now : world -> Z;
  (** a nested write on the relation [user] of a task ([connect] and the
      like): the store as it leaves it and the [userId] it resolves to;
      [None] when the engine rejects it *)
  relation_write : jsval -> db -> option (db * jsval)
}.

(** Promise outcomes: a value, or a rejection caught by [try]/[catch]. *)
Inductive outcome (A : Type) :=
| Ok (a : A)
| Throw (e : string).
Arguments Ok {A} a.
Arguments Throw {A} e.

Definition M (A : Type) : Type := world -> outcome A * world.

#[global] Instance M_ret : MRet M := fun A a w => (Ok a, w).

#[global] Instance M_bind : MBind M := fun A B f m w =>
  match m w with
  | (Ok a, w') => f a w'
  | (Throw e, w') => (Throw e, w')
  end.

Definition throw {A} (e : string) : M A := fun w => (Throw e, w).

(** [try { m } catch (error) { h }]. *)
Definition try_catch {A} (m : M A) (h : M A) : M A := fun w =>
  match m w with
  | (Ok a, w') => (Ok a, w')
  | (Throw _, w') => h w'
  end.

Definition emit (o : op) : M unit := fun w =>
  (Ok tt, mkWorld (store w) (log w ++ [o])).

Definition peek {A} (f : db -> A) : M A := fun w => (Ok (f (store w)), w).

Definition modify (f : db -> db) : M unit := fun w =>
  (Ok tt, mkWorld (f (store w)) (log w)).

(** Writing [data] over [row]: the properties of [data] that are not
    [undefined] are set. *)
Definition merge (data row : obj) : obj :=
  filter (fun kv => kv.2 <> JUndef) data ∪ row.

(** The value that update data gives a scalar column: the value itself,
    or the [v] of the form [{ set: v }]. *)
Definition set_value (v : jsval) : jsval :=
  match v with
  | JObj [("set", s)] => s
  | _ => v
  end.

(** What an update at time [t] makes of a row: [updatedAt] is stamped,
    and the columns that [data] names are set. *)
Definition updated (t : Z) (data row : obj) : obj :=
  merge (set_value <$> data) (<["updatedAt" := JDate (Some t)]> row).

(** An [Int] argument: an integer that fits the 32-bit columns of the
    schema. *)
Definition as_id (n : jsnum) : option Z :=
  match n with
  | Num z => if (-2147483648 <=? z) && (z <=? 2147483647) then Some z else None
  | _ => None
  end.

Definition rows_of (t : gmap Z obj) : list obj := (map_to_list t).*2.

Section Operations.
Context `{Engine}.

(** A reading of the client's clock. *)
Definition clock : M Z := fun w => (Ok (stamp w), w).

(** [prisma.user.findUnique({ where: { id } })] *)
Definition user_findUnique (id : jsval) : M (option obj) :=
  emit (UserFindUnique id) ;;
  match id with
  | JNumber (Num z) => peek (fun d => users d !! z)
  | _ => throw "PrismaClientValidationError"
  end.

Definition email_taken (email : jsval) (d : db) : bool :=
  existsb (fun r => bool_decide (get r "email" = email)) (rows_of (users d)).

(** The columns of a new user that the data may leave out: the two time
    stamps of the schema and the column default ['USER'] of the role. *)
Definition user_defaults (w : world) : obj :=
  <["createdAt" := JDate (Some (db_now w))]>
  (<["updatedAt" := JDate (Some (stamp w))]> {["role" := JStr "USER"]}).

(** [prisma.user.create({ data })]: the new row gets the next id, and the
    defaults of the columns that are not given. *)
Definition user_create (data : obj) : M obj :=
  defaults ← (fun w => (Ok (user_defaults w), w)) ;
  emit (UserCreate data) ;;
  if negb (valid_user_data data) then throw "PrismaClientValidationError" else
  taken ← peek (email_taken (get data "email")) ;
  if (taken : bool) then throw "P2002" else
  id ← peek user_seq ;
  let row := <["id" := JNumber (Num id)]> (merge data defaults) in
  modify (fun d => mkDb (<[id := row]> (users d)) (tasks d) (id + 1)) ;;
  mret row.

(** [prisma.user.update({ where: { id }, data })] *)
Definition user_update (id : jsval) (data : obj) : M obj :=
  t ← clock ;
  emit (UserUpdate id data) ;;
  match id with
  | JNumber (Num z) =>
      found ← peek (fun d => users d !! z) ;
      match found with
      | None => throw "P2025"
      | Some row =>
          if negb (valid_user_data data) then throw "PrismaClientValidationError" else
          let row' := updated t data row in
          modify (fun d => mkDb (<[z := row']> (users d)) (tasks d) (user_seq d)) ;;
          mret row'
      end
  | _ => throw "PrismaClientValidationError"
  end.

(** [prisma.task.findUnique({ where: { id } })] *)
Definition task_findUnique (id : jsnum) : M (option obj) :=
  emit (TaskFindUnique id) ;;
  match as_id id with
  | Some z => peek (fun d => tasks d !! z)
  | None => throw "PrismaClientValidationError"
  end.

(** [prisma.task.findMany(q)] *)
Definition task_findMany (q : find_args) : M (list obj) :=
  emit (TaskFindMany q) ;;
  match filter_sem (fa_where q) with
  | None => throw "PrismaClientValidationError"
  | Some p =>
      rows ← peek (fun d => List.filter p (rows_of (tasks d))) ;
      match page_sem (fa_orderBy q) (fa_skip q) (fa_take q) rows with
      | None => throw "PrismaClientValidationError"
      | Some l => mret l
      end
  end.

(** [prisma.task.count({ where })] *)
Definition task_count (w : where_) : M Z :=
  emit (TaskCount w) ;;
  match filter_sem w with
  | None => throw "PrismaClientValidationError"
  | Some p => peek (fun d => Z.of_nat (length (List.filter p (rows_of (tasks d)))))
  end.

(** The part of update data that addresses the relation [user]: nothing
    when [data] has no such property, and otherwise what the engine makes
    of the nested write, the store it leaves and the [userId] to set. *)
Definition link_user (data : obj) : M obj :=
  match get data "user" with
  | JUndef => mret data
  | nested =>
      linked ← peek (relation_write nested) ;
      match linked with
      | None => throw "PrismaClientValidationError"
      | Some (d', userId) =>
          modify (fun _ => d') ;;
          mret (<["userId" := userId]> (delete "user" data))
      end
  end.

(** [prisma.task.update({ where: { id }, data })].  When [data] carries an
    [id] the row moves to it, unless another row has that id. *)
Definition task_update (id : jsnum) (data : obj) : M obj :=
  t ← clock ;
  emit (TaskUpdate id data) ;;
  match as_id id with
  | Some z =>
      found ← peek (fun d => tasks d !! z) ;
      match found with
      | None => throw "P2025"
      | Some row =>
          if negb (valid_task_data data) then throw "PrismaClientValidationError" else
          columns ← link_user data ;
          let row' := updated t columns row in
          match get (set_value <$> columns) "id" with
          | JUndef =>
              modify (fun d => mkDb (users d) (<[z := row']> (tasks d)) (user_seq d)) ;;
              mret row'
          | JNumber n =>
              match as_id n with
              | Some z' =>
                  clash ← peek (fun d => bool_decide (z' <> z /\ is_Some (tasks d !! z'))) ;
                  if (clash : bool) then throw "P2002" else
                  modify (fun d => mkDb (users d) (<[z' := row']> (delete z (tasks d)))
                                        (user_seq d)) ;;
                  mret row'
              | None => throw "PrismaClientValidationError"
              end
          | _ => throw "PrismaClientValidationError"
          end
      end
  | None => throw "PrismaClientValidationError"
  end.

(** [prisma.task.delete({ where: { id } })] *)
Definition task_delete (id : jsnum) : M unit :=
  emit (TaskDelete id) ;;
  match as_id id with
  | Some z =>
      found ← peek (fun d => tasks d !! z) ;
      match found with
      | None => throw "P2025"
      | Some _ => modify (fun d => mkDb (users d) (delete z (tasks d)) (user_seq d))
      end
  | None => throw "PrismaClientValidationError"
  end.

End Operations.

End Store.

Import Store.

(** ** Express: requests, responses, middleware *)

Module Express.

(** A request as the handlers read it.  Header names are lower-case;
    route and query parameters are strings (repeated or bracketed query
    parameters, which would arrive as arrays or objects, are not
    represented); the body is the JSON object that [express.json()] has
    parsed, its values scalars, arrays or objects. *)
Record request := mkReq {
  headers : gmap string string;
  params : gmap string string;
  query : gmap string string;
  body : obj;
  user : option obj           (* req.user, [None] while undefined *)
}.

Inductive payload :=
| NoBody                                        (* res.sendStatus *)
| Error (msg : string)                          (* { error } *)
| Message (msg : string)                        (* { message } *)
| Json (o : obj)
| TaskPage (tasks : list obj) (page totalPages : jsval) (totalTasks : Z)
| Token (token : string).

Record response := mkRes {
  status : Z;
  content : payload
}.

(** What a middleware does with a request: answer it, or call [next()]
    with the request as it has left it. *)
Inductive step :=
| Respond (r : response)
| Next (req : request).

Definition middleware := request -> M step.
Definition handler := request -> M response.

(** [router.METHOD(path, mw, h)] *)
Definition route (mw : middleware) (h : handler) : handler := fun req =>
  s ← mw req ;
  match s with
  | Respond r => mret r
  | Next req' => h req'
  end.

Definition set_user (req : request) (u : obj) : request :=
  mkReq (headers req) (params req) (query req) (body req) (Some u).

End Express.

Import Express.

(** ** The platform: runtime coercions and the two libraries *)

Class Platform := {
  (** [Number(s)] on a string *)
  Number_ : string -> jsnum;
  (** [new Date(v).getTime()], [None] for the Invalid Date *)
  Date_new : jsval -> option Z;
  (** [bcrypt.hash(s, 10)] *)
  bcrypt_hash : string -> string;
  (** [jwt.verify(token, secret)]: the decoded payload, [None] when it throws *)
  jwt_verify : string -> option obj;
  (** [jwt.sign(payload, secret, { expiresIn: '1h' })] *)
  jwt_sign : obj -> string
}.

(** [Number(x)] for a route or query parameter that may be missing. *)
Definition Number_opt `{Platform} (x : option string) : jsnum :=
  match x with
  | Some s => Number_ s
  | None => NaN
  end.

(** Truthiness of a parameter: present and not the empty string. *)
Definition nonempty (x : option string) : bool :=
  match x with
  | Some s => negb (String.eqb s "")
  | None => false
  end.

(** The computed property name [[orderOptions[sortBy] || 'createdAt']] of
    the [orderBy] object, for a table [orderOptions] of strings: an own
    entry gives its (non-empty) value, an inherited member is truthy and
    is turned into its string form, anything else falls back. *)
Definition sort_key (orderOptions : list (string * string)) (sortBy : string)
  : order_key :=
  match lookup_literal orderOptions sortBy with
  | Own v => if String.eqb v "" then Column "createdAt" else Column v
  | Inherited m => MemberText m
  | Absent => Column "createdAt"
  end.

(** ** tasks router, revision with the six-key sort table (part_006) *)

Module Part006.
Section Handlers.
Context `{Engine} `{Platform}.

Definition checkAdmin : middleware := fun req =>
  match user req with
  | None => throw "TypeError"
  | Some u =>
      if negb (is_str (get u "role") "ADMIN")
      then mret (Respond (mkRes 403 (Error "Unauthorized")))
      else mret (Next req)
  end.

Definition orderOptions : list (string * string) :=
  [("dueDate", "dueDate"); ("createdAt", "createdAt"); ("status", "status");
   ("userId", "userId"); ("recurring", "recurring"); ("priority", "priority")].

Definition search_clauses (search : string) : list clause :=
  [Contains "title" search;
   Contains "description" search;
   EqualsNum "userId" (Number_ search);
   Contains "recurring" search;
   Contains "priority" search]
  ++ match Date_new (JStr search) with
     | Some t => [EqualsDate "dueDate" t; EqualsDate "createdAt" t]
     | None => []
     end.

(** The [where] object, which the source writes out twice, once for
    [findMany] and once for [count]. *)
Definition where_of (q : gmap string string) : where_ :=
  mkWhere (if nonempty (q !! "status") then q !! "status" else None)
          (if nonempty (q !! "search")
           then search_clauses <$> (q !! "search") else None).

Definition getAllTasks : handler := fun req =>
  let q := query req in
  let sortBy := default "createdAt" (q !! "sortBy") in
  let order := default "asc" (q !! "order") in
  let page := from_option Number_ (Num 1) (q !! "page") in
  let limit := from_option Number_ (Num 10) (q !! "limit") in
  let skip := mul_num (pred_num page) limit in
  try_catch
    (tasks ← task_findMany
               (mkFind (where_of q) (sort_key orderOptions sortBy, order) skip limit) ;
     totalTasks ← task_count (where_of q) ;
     mret (mkRes 200 (TaskPage tasks (on_wire page)
                                (on_wire (ceil_div totalTasks limit)) totalTasks)))
    (mret (mkRes 500 (Error "Failed to fetch tasks"))).

Definition getTaskById : handler := fun req =>
  let id := params req !! "id" in
  if negb (nonempty id) || isNaN (Number_opt id)
  then mret (mkRes 400 (Error "Invalid task ID"))
  else
    try_catch
      (task ← task_findUnique (Number_opt id) ;
       match task with
       | Some t => mret (mkRes 200 (Json t))
       | None => mret (mkRes 404 (Error "Task not found"))
       end)
      (mret (mkRes 500 (Error "Failed to fetch task"))).

(** [dueDate ? new Date(dueDate) : existingTask.dueDate] *)
Definition dueDate_or (dueDate existing : jsval) : jsval :=
  if truthy dueDate then JDate (Date_new dueDate) else existing.

Definition updateTask : handler := fun req =>
  let id := params req !! "id" in
  let b := body req in
  try_catch
    (existingTask ← task_findUnique (Number_opt id) ;
     match existingTask with
     | None => mret (mkRes 404 (Error "Task not found"))
     | Some e =>
         updatedTask ← task_update (Number_opt id)
           (<["title" := or_else (get b "title") (get e "title")]>
            (<["description" := or_else (get b "description") (get e "description")]>
            (<["dueDate" := dueDate_or (get b "dueDate") (get e "dueDate")]>
            (<["status" := or_else (get b "status") (get e "status")]>
            (<["recurring" := or_else (get b "recurring") (get e "recurring")]>
            (<["priority" := or_else (get b "priority") (get e "priority")]> ∅)))))) ;
         mret (mkRes 200 (Json updatedTask))
     end)
    (mret (mkRes 500 (Error "Failed to update task"))).

Definition deleteTask : handler := fun req =>
  let id := params req !! "id" in
  try_catch
    (task ← task_findUnique (Number_opt id) ;
     match task with
     | None => mret (mkRes 404 (Error "Task not found"))
     | Some _ =>
         task_delete (Number_opt id) ;;
         mret (mkRes 200 (Message "Task deleted successfully"))
     end)
    (mret (mkRes 500 (Error "Failed to delete task"))).

(** [router.delete('/:id', checkAdmin, deleteTask)] *)
Definition delete_route : handler := route checkAdmin deleteTask.

End Handlers.
End Part006.

(** ** tasks router, revision with [buildFilterConditions] (part_005) *)

Module Part005.
Section Handlers.
Context `{Engine} `{Platform}.

Definition buildFilterConditions (q : gmap string string) : where_ :=
  let status := if nonempty (q !! "status") then q !! "status" else None in
  let OR :=
    if nonempty (q !! "search") then
      (fun search =>
         ([Contains "title" search;
           Contains "description" search;
           EqualsNum "userId" (Number_ search);
           Contains "recurring" search;
           Contains "priority" search]
          ++ match Date_new (JStr search) with
             | Some t => [EqualsDate "dueDate" t; EqualsDate "createdAt" t]
             | None => []
             end)%list) <$> (q !! "search")
    else None in
  mkWhere status OR.

Definition getAllTasks : handler := fun req =>
  let q := query req in
  let sortBy := default "createdAt" (q !! "sortBy") in
  let order := default "asc" (q !! "order") in
  let page := from_option Number_ (Num 1) (q !! "page") in
  let limit := from_option Number_ (Num 10) (q !! "limit") in
  let skip := mul_num (pred_num page) limit in
  try_catch
    (tasks ← task_findMany
               (mkFind (buildFilterConditions q) (Column sortBy, order) skip limit) ;
     totalTasks ← task_count (buildFilterConditions q) ;
     mret (mkRes 200 (TaskPage tasks (on_wire page)
                                (on_wire (ceil_div totalTasks limit)) totalTasks)))
    (mret (mkRes 500 (Error "Failed to fetch tasks"))).

(** [data: { ...req.body }] *)
Definition updateTask : handler := fun req =>
  let id := params req !! "id" in
  try_catch
    (existingTask ← task_findUnique (Number_opt id) ;
     match existingTask with
     | None => mret (mkRes 404 (Error "Task not found"))
     | Some _ =>
         updatedTask ← task_update (Number_opt id) (body req) ;
         mret (mkRes 200 (Json updatedTask))
     end)
    (mret (mkRes 500 (Error "Failed to update task"))).

End Handlers.
End Part005.

(** ** tasks router, backend/src/api/tasks.js *)

Module TasksJs.
Section Handlers.
Context `{Engine} `{Platform}.

Definition orderOptions : list (string * string) :=
  [("dueDate", "dueDate"); ("createdAt", "createdAt"); ("status", "status")].

Definition getAllTasks : handler := fun req =>
  let q := query req in
  let status := q !! "status" in
  (* no default: an absent sortBy indexes the table with undefined *)
  let sortBy := default "undefined" (q !! "sortBy") in
  let order := default "asc" (q !! "order") in
  let page := from_option Number_ (Num 1) (q !! "page") in
  let limit := from_option Number_ (Num 10) (q !! "limit") in
  let skip := mul_num (pred_num page) limit in
  try_catch
    (tasks ← task_findMany
               (mkFind (mkWhere (if nonempty status then status else None) None)
                       (sort_key orderOptions sortBy, order) skip limit) ;
     totalTasks ← task_count (mkWhere None None) ;
     mret (mkRes 200 (TaskPage tasks (on_wire page)
                                (on_wire (ceil_div totalTasks limit)) totalTasks)))
    (mret (mkRes 500 (Error "Failed to fetch tasks"))).

Definition getTaskById : handler := fun req =>
  let id := params req !! "id" in
  if negb (nonempty id) || isNaN (Number_opt id)
  then mret (mkRes 400 (Error "Invalid task ID"))
  else
    try_catch
      (task ← task_findUnique (Number_opt id) ;
       match task with
       | Some t => mret (mkRes 200 (Json t))
       | None => mret (mkRes 404 (Error "Task not found"))
       end)
      (mret (mkRes 500 (Error "Failed to fetch task"))).

End Handlers.
End TasksJs.

(** ** auth router, backend/src/api/auth.js *)

Module AuthJs.
Section Handlers.
Context `{Engine} `{Platform}.

(** [authHeader && authHeader.split(' ')[1]], [None] when falsy *)
Definition bearer_token (req : request) : option string :=
  match headers req !! "authorization" with
  | None => None
  | Some authHeader =>
      match split_space authHeader !! 1%nat with
      | Some t => if String.eqb t "" then None else Some t
      | None => None
      end
  end.

Definition authToken : middleware := fun req =>
  match bearer_token req with
  | None => mret (Respond (mkRes 401 NoBody))
  | Some token =>
      try_catch
        (match jwt_verify token with
         | None => throw "JsonWebTokenError"
         | Some decoded =>
             found ← user_findUnique (get decoded "userId") ;
             match found with
             | None => mret (Respond (mkRes 403 NoBody))
             | Some u =>
                 mret (Next (set_user req
                   (<["id" := get u "id"]>
                    (<["name" := get u "name"]>
                    (<["email" := get u "email"]>
                    (<["role" := get decoded "role"]> ∅))))))
             end
         end)
        (mret (Respond (mkRes 403 NoBody)))
  end.

(** [bcrypt.hash(password, 10)] rejects a password that is not a string. *)
Definition hash_password (password : jsval) : M jsval :=
  match password with
  | JStr s => mret (JStr (bcrypt_hash s))
  | _ => throw "data must be a string or Buffer"
  end.

Definition register : handler := fun req =>
  let b := body req in
  if negb (truthy (get b "email")) || negb (truthy (get b "password"))
     || negb (truthy (get b "name"))
  then mret (mkRes 400 (Error "Missing required fields"))
  else
    try_catch
      (hashedPassword ← hash_password (get b "password") ;
       u ← user_create
             (<["email" := get b "email"]>
              (<["password" := hashedPassword]>
              (<["name" := get b "name"]>
              (<["role" := or_else (get b "role") (JStr "USER")]> ∅)))) ;
       let token := jwt_sign (<["userId" := get u "id"]>
                              (<["role" := get u "role"]> ∅)) in
       mret (mkRes 201 (Token token)))
      (mret (mkRes 500 (Error "Registration Failed"))).

End Handlers.
End AuthJs.

(** ** profile router, backend/src/api/profile.js *)

Module ProfileJs.
Section Handlers.
Context `{Engine} `{Platform}.

Definition authToken : middleware := fun req =>
  match AuthJs.bearer_token req with
  | None => mret (Respond (mkRes 401 NoBody))
  | Some token =>
      try_catch
        (match jwt_verify token with
         | None => throw "JsonWebTokenError"
         | Some decoded =>
             found ← user_findUnique (get decoded "userId") ;
             match found with
             | None => mret (Respond (mkRes 403 NoBody))
             | Some u => mret (Next (set_user req u))
             end
         end)
        (mret (Respond (mkRes 403 NoBody)))
  end.

End Handlers.
End ProfileJs.

(** ** user router (part_003) *)

Module Part003.
Section Handlers.
Context `{Engine} `{Platform}.

Definition authToken : middleware := fun req =>
  match AuthJs.bearer_token req with
  | None => mret (Respond (mkRes 401 NoBody))
  | Some token =>
      try_catch
        (match jwt_verify token with
         | None => throw "JsonWebTokenError"
         | Some decoded =>
             found ← user_findUnique (get decoded "userId") ;
             match found with
             | None => mret (Respond (mkRes 403 NoBody))
             | Some u =>
                 mret (Next (set_user req (<["role" := get decoded "role"]> u)))
             end
         end)
        (mret (Respond (mkRes 403 NoBody)))
  end.

(** [catch (error) { res.status(500).json({ error: error.message }) }] *)
Definition try_report (m : M response) : M response := fun w =>
  match m w with
  | (Ok a, w') => (Ok a, w')
  | (Throw e, w') => (Ok (mkRes 500 (Error e)), w')
  end.

Definition updateUserRole : handler := fun req =>
  match user req with
  | None => throw "TypeError"
  | Some u =>
      if negb (is_str (get u "role") "ADMIN")
      then mret (mkRes 403 (Error "Only admins can update roles"))
      else
        try_report
          (updatedUser ← user_update (get u "id")
                           {["role" := get (body req) "role"]} ;
           mret (mkRes 200 (Json updatedUser)))
  end.

End Handlers.
End Part003.

(** ** Token codec *)

Module TokenCodec.

Record claims := mkClaims {
  userId : jsval;
  role : jsval
}.

Record payload := mkPayload {
  subject : claims;
  issuedAt : Z;       (* seconds *)
  expiresAt : Z
}.

(** A bearer string either decodes to a signed payload or does not. *)
Inductive token :=
| Undecodable (s : string)
| Signed (p : payload) (signature : string).

Inductive verify_error :=
| Malformed
| InvalidSignature
| Expired.

Section Codec.
(** the process secret and the keyed signature function *)
Variable secret : string.
Variable sign_with : string -> payload -> string.

(** ['1h'] *)
Definition expiresIn : Z := 3600.

(** Modelled from the spec: the jsonwebtoken library behind [jwt.sign]
    and [jwt.verify] is not part of the sources; only its callers
    ([register], [login], [authToken]) are.  [issue] encodes the two
    claims with the issuance time and the fixed one-hour expiry offset
    and signs with the process secret. *)
Definition issue (now : Z) (u r : jsval) : token :=
  let p := mkPayload (mkClaims u r) now (now + expiresIn) in
  Signed p (sign_with secret p).

(** Modelled from the spec: the jsonwebtoken library is not part of the
    sources.  [verify] fails with [Malformed] when the token cannot be
    decoded, with [InvalidSignature] when the signature does not match
    the secret, with [Expired] when the current time has reached
    [expiresAt], and otherwise returns exactly the two claims. *)
Definition verify (now : Z) (t : token) : claims + verify_error :=
  match t with
  | Undecodable _ => inr Malformed
  | Signed p sg =>
      if negb (String.eqb sg (sign_with secret p)) then inr InvalidSignature
      else if expiresAt p <=? now then inr Expired
      else inl (subject p)
  end.

End Codec.
End TokenCodec.

(** ** A reference platform and engine for running the handlers *)

Module Reference.

Definition code (c : ascii) : Z := Z.of_nat (nat_of_ascii c).

(** Tab, line feed, vertical tab, form feed, carriage return, space. *)
Definition is_space (c : ascii) : bool :=
  let n := code c in ((9 <=? n) && (n <=? 13)) || (n =? 32).

Fixpoint trim_left (l : list ascii) : list ascii :=
  match l with
  | c :: rest => if is_space c then trim_left rest else l
  | [] => []
  end.

Definition trim (l : list ascii) : list ascii :=
  List.rev (trim_left (List.rev (trim_left l))).

Definition digit_value (c : ascii) : option Z :=
  let n := code c in
  if (48 <=? n) && (n <=? 57) then Some (n - 48)
  else if (97 <=? n) && (n <=? 102) then Some (n - 87)
  else if (65 <=? n) && (n <=? 70) then Some (n - 55)
  else None.

(** The longest run of digits of [base] at the head of [l]: its value on
    top of [acc], its length on top of [count], and what follows it. *)
Fixpoint take_digits (base acc count : Z) (l : list ascii) : Z * Z * list ascii :=
  match l with
  | c :: rest =>
      match digit_value c with
      | Some d =>
          if d <? base then take_digits base (base * acc + d) (count + 1) rest
          else (acc, count, l)
      | None => (acc, count, l)
      end
  | [] => (acc, count, [])
  end.

(** [0x], [0o] and [0b] literals. *)
Definition radix_literal (base : Z) (l : list ascii) : jsnum :=
  match take_digits base 0 0 l with
  | (v, n, []) => if 0 <? n then round_rat false v 1 else NaN
  | _ => NaN
  end.

Definition exponent_part (l : list ascii) : option Z :=
  let (neg, l') :=
    match l with
    | c :: rest =>
        if code c =? 43 then (false, rest)
        else if code c =? 45 then (true, rest) else (false, l)
    | [] => (false, l)
    end in
  match take_digits 10 0 0 l' with
  | (v, n, []) => if 0 <? n then Some (signed neg v) else None
  | _ => None
  end.

(** [± m * 10^e] for a significand of [n] digits.  Exponents far outside
    the range of binary64 are cut short. *)
Definition scale (neg : bool) (m e n : Z) : jsnum :=
  if m =? 0 then Num 0
  else if 400 <? e then Inf neg
  else if e + n <? -400 then Num 0
  else if 0 <=? e then round_rat neg (m * 10 ^ e) 1
  else round_rat neg m (10 ^ (- e)).

Definition decimal_literal (neg : bool) (l : list ascii) : jsnum :=
  let '(i, ni, l1) := take_digits 10 0 0 l in
  let '(m, nf, l2) :=
    match l1 with
    | c :: rest => if code c =? 46 then take_digits 10 i 0 rest else (i, 0, l1)
    | [] => (i, 0, l1)
    end in
  if ni + nf =? 0 then NaN else
  match l2 with
  | [] => scale neg m (- nf) (ni + nf)
  | c :: rest =>
      if (code c =? 101) || (code c =? 69) then
        match exponent_part rest with
        | Some e => scale neg m (e - nf) (ni + nf)
        | None => NaN
        end
      else NaN
  end.

Definition signed_literal (neg : bool) (l : list ascii) : jsnum :=
  if String.eqb (string_of_list_ascii l) "Infinity" then Inf neg
  else decimal_literal neg l.

(** [Number(s)]: white space is trimmed, the empty string is zero, and
    the rest is a numeric literal or [NaN]. *)
Definition decimal (s : string) : jsnum :=
  match trim (list_ascii_of_string s) with
  | [] => Num 0
  | c :: rest =>
      if code c =? 43 then signed_literal false rest
      else if code c =? 45 then signed_literal true rest
      else if code c =? 48 then
        match rest with
        | x :: digits =>
            if (code x =? 120) || (code x =? 88) then radix_literal 16 digits
            else if (code x =? 111) || (code x =? 79) then radix_literal 8 digits
            else if (code x =? 98) || (code x =? 66) then radix_literal 2 digits
            else signed_literal false (c :: rest)
        | [] => Num 0
        end
      else signed_literal false (c :: rest)
  end.

(** A day of the proleptic Gregorian calendar as days since the epoch. *)
Definition days_from_civil (y m d : Z) : Z :=
  let y' := if m <=? 2 then y - 1 else y in
  let era := y' / 400 in
  let yoe := y' - era * 400 in
  let doy := (153 * (if 2 <? m then m - 3 else m + 9) + 2) / 5 + d - 1 in
  let doe := yoe * 365 + yoe / 4 - yoe / 100 + doy in
  era * 146097 + doe - 719468.

Definition days_in_month (y m : Z) : Z :=
  if m =? 2 then
    if ((y mod 4 =? 0) && negb (y mod 100 =? 0)) || (y mod 400 =? 0) then 29 else 28
  else if (m =? 4) || (m =? 6) || (m =? 9) || (m =? 11) then 30 else 31.

(** Exactly [n] decimal digits at the head of [l]. *)
Definition fixed_digits (n : Z) (l : list ascii) : option (Z * list ascii) :=
  match take_digits 10 0 0 (firstn (Z.to_nat n) l) with
  | (v, count, []) => if count =? n then Some (v, skipn (Z.to_nat n) l) else None
  | _ => None
  end.

Definition expect (c : Z) (l : list ascii) : option (list ascii) :=
  match l with
  | x :: rest => if code x =? c then Some rest else None
  | [] => None
  end.

(** The time of day [THH:mm:ss.sssZ], seconds and milliseconds optional,
    in milliseconds. *)
Definition iso_time (l : list ascii) : option Z :=
  l ← expect 84 l ;
  '(h, l) ← fixed_digits 2 l ;
  l ← expect 58 l ;
  '(mi, l) ← fixed_digits 2 l ;
  '(sec, l) ← match expect 58 l with
              | Some l' => fixed_digits 2 l'
              | None => Some (0, l)
              end ;
  '(ms, l) ← match expect 46 l with
             | Some l' => fixed_digits 3 l'
             | None => Some (0, l)
             end ;
  l ← expect 90 l ;
  match l with
  | [] =>
      if (h <? 24) && (mi <? 60) && (sec <? 60)
      then Some (((h * 60 + mi) * 60 + sec) * 1000 + ms) else None
  | _ => None
  end.

(** The date-time strings of the ECMAScript format that need no time
    zone: [YYYY-MM-DD], alone or followed by a time ending in [Z]. *)
Definition iso_date (s : string) : option Z :=
  '(y, l) ← fixed_digits 4 (list_ascii_of_string s) ;
  l ← expect 45 l ;
  '(m, l) ← fixed_digits 2 l ;
  l ← expect 45 l ;
  '(d, l) ← fixed_digits 2 l ;
  if (1 <=? m) && (m <=? 12) && (1 <=? d) && (d <=? days_in_month y m) then
    let day := days_from_civil y m d * 86400000 in
    match l with
    | [] => Some day
    | _ => (fun t => day + t) <$> iso_time l
    end
  else None.

(** A time value within the range of [Date], truncated to whole
    milliseconds. *)
Definition time_clip (z : Z) : option Z :=
  if Z.abs z <=? 8640000000000000 then Some z else None.

(** [new Date(v).getTime()].  Numbers, booleans and [null] are epoch
    milliseconds; of the strings only the two forms of [iso_date] are
    read, every other string (and every array and object) is taken for
    an Invalid Date. *)
Definition date_of (v : jsval) : option Z :=
  match v with
  | JNumber (Num z) => time_clip z
  | JNumber (Frac m k) => time_clip (Z.quot m (2 ^ Zpos k))
  | JBool b => Some (if b then 1 else 0)
  | JNull => Some 0
  | JDate t => t
  | JStr s => iso_date s
  | _ => None
  end.

(** Two fixed bearer strings verify; nothing else does. *)
Definition verify_fixture (token : string) : option obj :=
  if String.eqb token "admin-token"
  then Some (<["userId" := JNumber (Num 1)]> (<["role" := JStr "ADMIN"]> ∅))
  else if String.eqb token "user-token"
  then Some (<["userId" := JNumber (Num 2)]> (<["role" := JStr "USER"]> ∅))
  else None.

#[global] Instance platform : Platform := {
  Number_ := decimal;
  Date_new := date_of;
  bcrypt_hash := fun s => String.append "$2b$10$" s;
  jwt_verify := verify_fixture;
  jwt_sign := fun _ => "signed"
}.

Definition lower (c : ascii) : ascii :=
  let n := nat_of_ascii c in
  if Nat.leb 65 n && Nat.leb n 90 then ascii_of_nat (n + 32) else c.

Fixpoint lower_string (s : string) : string :=
  match s with
  | EmptyString => EmptyString
  | String c rest => String (lower c) (lower_string rest)
  end.

Fixpoint contains (needle hay : string) : bool :=
  String.prefix needle hay
  || match hay with
     | EmptyString => false
     | String _ rest => contains needle rest
     end.

Definition eval_clause (c : clause) (row : obj) : bool :=
  match c with
  | Contains col s =>
      match get row col with
      | JStr v => contains (lower_string s) (lower_string v)
      | _ => false
      end
  | EqualsNum col n =>
      match n with
      | Num _ => bool_decide (get row col = JNumber n)
      | _ => false
      end
  | EqualsDate col t => bool_decide (get row col = JDate (Some t))
  end.

Definition eval_where (w : where_) (row : obj) : bool :=
  match w_status w with
  | Some s => bool_decide (get row "status" = JStr s)
  | None => true
  end
  && match w_OR w with
     | Some cs => existsb (fun c => eval_clause c row) cs
     | None => true
     end.

Definition task_columns : list string :=
  ["id"; "title"; "description"; "dueDate"; "status"; "priority";
   "recurring"; "userId"; "createdAt"; "updatedAt"].

Definition user_columns : list string :=
  ["email"; "password"; "name"; "role"].

(** Data is accepted when it names columns only and gives each a scalar,
    plain or in the form [{ set: v }]. *)
Definition known (cols : list string) (data : obj) : bool :=
  forallb (fun kv => existsb (String.eqb kv.1) cols && scalar (set_value kv.2))
          (map_to_list data).

(** Task data may address the relation [user] besides. *)
Definition known_task (data : obj) : bool := known task_columns (delete "user" data).

(** Of the nested writes on the relation only [{ connect: { id } }] is
    carried out: the task goes to the user with that id, who must exist. *)
Definition connect (nested : jsval) (d : db) : option (db * jsval) :=
  match nested with
  | JObj [("connect", JObj [("id", JNumber (Num z))])] =>
      if bool_decide (is_Some (users d !! z)) then Some (d, JNumber (Num z)) else None
  | _ => None
  end.

(** The clocks advance with the log. *)
Definition time_of (w : world) : Z := 1700000000000 + Z.of_nat (length (log w)).

(** Rows stay in id order; a page is cut when [skip] and [take] are
    natural numbers and the ordering names a column. *)
Definition page (key : order_key * string) (skip take : jsnum) (rows : list obj)
  : option (list obj) :=
  match key.1, skip, take with
  | Column c, Num s, Num t =>
      if existsb (String.eqb c) task_columns && (0 <=? s) && (0 <=? t)
      then Some (firstn (Z.to_nat t) (skipn (Z.to_nat s) rows))
      else None
  | _, _, _ => None
  end.

#[global] Instance engine : Engine := {
  filter_sem := fun w => Some (eval_where w);
  page_sem := page;
  valid_user_data := known user_columns;
  valid_task_data := known_task;
  stamp := time_of;
  db_now := time_of;
  relation_write := connect
}.

Definition task_row (id : Z) (title status : string) (owner : Z) : obj :=
  <["id" := JNumber (Num id)]>
  (<["title" := JStr title]>
  (<["description" := JStr "write it down"]>
  (<["status" := JStr status]>
  (<["priority" := JStr "low"]>
  (<["recurring" := JStr "none"]>
  (<["createdAt" := JDate (Some 1690000000000)]>
  (<["updatedAt" := JDate (Some 1690000000000)]>
  (<["userId" := JNumber (Num owner)]> ∅)))))))).

Definition user_row (id : Z) (name email role : string) : obj :=
  <["id" := JNumber (Num id)]>
  (<["name" := JStr name]>
  (<["email" := JStr email]>
  (<["password" := JStr "$2b$10$x"]>
  (<["createdAt" := JDate (Some 1690000000000)]>
  (<["updatedAt" := JDate (Some 1690000000000)]>
  (<["role" := JStr role]> ∅)))))).

Definition some_users : gmap Z obj :=
  <[1 := user_row 1 "Ann" "ann@x.com" "ADMIN"]>
  (<[2 := user_row 2 "Bob" "bob@x.com" "USER"]> ∅).

Definition some_tasks : gmap Z obj :=
  <[1 := task_row 1 "T1" "pending" 2]>
  (<[2 := task_row 2 "T2" "pending" 2]> ∅).

Definition w0 : world := mkWorld (mkDb some_users some_tasks 3) [].

(** Twelve pending tasks and one that is done. *)
Definition many_tasks : gmap Z obj :=
  <[13 := task_row 13 "T13" "done" 1]>
  (list_to_map ((fun i => (i, task_row i "T" "pending" 2)) <$> seqZ 1 12)).

Definition w12 : world := mkWorld (mkDb some_users many_tasks 3) [].

Definition request_of (hs ps qs : list (string * string)) (b : obj) (u : option obj)
  : request :=
  mkReq (list_to_map hs) (list_to_map ps) (list_to_map qs) b u.

End Reference.

(** ** What a run of a handler shows from outside *)

Definition outcome_of {A} (x : outcome A * world) : outcome A := x.1.
Definition world_after {A} (x : outcome A * world) : world := x.2.

(** The status code a middleware answered with, [None] when it called
    [next()] or threw. *)
Definition answered (x : outcome step * world) : option Z :=
  match x.1 with
  | Ok (Respond r) => Some (status r)
  | _ => None
  end.

(** The request a middleware handed on to the next handler. *)
Definition passed_on (x : outcome step * world) : option request :=
  match x.1 with
  | Ok (Next req) => Some req
  | _ => None
  end.

(** The [orderBy] keys and the [skip]/[take] pairs of the list queries in
    a log. *)
Definition sort_fields (l : list op) : list order_key :=
  omap (fun o => match o with TaskFindMany q => Some (fa_orderBy q).1 | _ => None end) l.

Definition pages (l : list op) : list (jsnum * jsnum) :=
  omap (fun o => match o with TaskFindMany q => Some (fa_skip q, fa_take q) | _ => None end) l.

(** The [where] objects of the list and count queries in a log. *)
Definition filters (l : list op) : list where_ :=
  omap (fun o => match o with
                 | TaskFindMany q => Some (fa_where q)
                 | TaskCount w => Some w
                 | _ => None
                 end) l.

(** The rows a list query returns, when the engine accepts it. *)
Definition selected `{Engine} (q : find_args) (w : world) : option (list obj) :=
  p ← filter_sem (fa_where q) ;
  page_sem (fa_orderBy q) (fa_skip q) (fa_take q)
           (List.filter p (rows_of (tasks (store w)))).

(** The number of rows a filter matches, when the engine accepts it. *)
Definition counted `{Engine} (wc : where_) (w : world) : option Z :=
  (fun p => Z.of_nat (length (List.filter p (rows_of (tasks (store w))))))
    <$> filter_sem wc.

(** Column [k] holds scalar values throughout a table, as the columns
    of a table do. *)
Definition scalar_column (k : string) (t : gmap Z obj) : Prop :=
  forall z row, t !! z = Some row -> scalar (get row k) = true.

(** What an update request may do to the store as far as column [k] is
    concerned: nothing at all, or replace the task found under the id of
    the route, say [e], by a row that agrees with [e] on [k], answering
    200 with that row.  The row stays under its id unless the body
    carries an [id]. *)
Definition keeps_column (k : string) (h : handler) (id : jsnum)
    (req : request) (w : world) : Prop :=
  store (world_after (h req w)) = store w \/
  exists z z' e row',
    id = Num z /\
    tasks (store w) !! z = Some e /\
    tasks (store (world_after (h req w))) = <[z' := row']> (delete z (tasks (store w))) /\
    users (store (world_after (h req w))) = users (store w) /\
    outcome_of (h req w) = Ok (mkRes 200 (Json row')) /\
    (body req !! "id" = None -> z' = z) /\
    row' !! k = e !! k.

(** The user row a decoded token payload points at, if there is one. *)
Definition user_of (decoded : obj) (w : world) : option obj :=
  match get decoded "userId" with
  | JNumber (Num z) => users (store w) !! z
  | _ => None
  end.

(** The store as it would be had the role column of user [z] been set to
    [r] behind the token's back. *)
Definition with_role (z : Z) (r : jsval) (w : world) : world :=
  mkWorld (mkDb (alter (insert "role" r) z (users (store w)))
                (tasks (store w)) (user_seq (store w)))
          (log w).

(** * The rest of the routers

    The handlers of the same files that stand beside the ones above, with
    the three client calls and the two library functions they need in
    addition.  Of the three calls the list by user is recorded in the
    log; the lookup by email and the task create are not, and leave the
    log as it is. *)

Class Host := {
  (** [bcrypt.compare(data, hash)] *)
  bcrypt_compare : string -> string -> bool;
  (** [new Date().getTime()] in a handler; as with the clocks of the
      engine, nothing is assumed of a reading *)
  Date_now : world -> Z
}.

Class TaskTable := {
  (** schema validation of the data of a task create *)
  valid_new_task : obj -> bool;
  (** the value the id sequence hands out next *)
  next_task_id : gmap Z obj -> Z;
  (** the values that the table and the client fill into the columns a
      create leaves out (schema.prisma gives [status] its default and
      [createdAt] and [updatedAt] their stamps; the migrations under src
      show a default for [priority] and none of the other columns) *)
  task_defaults : world -> obj;
  (** the predicate the filter [{ userId: n }] denotes; [None] when the
      engine rejects it *)
  owned_by : jsnum -> option (obj -> bool)
}.

(** [Number(v)] on a body value.  An array is turned into the string of
    its elements joined by commas first: the empty array reads as the
    empty string, an array of one element as that element does, except
    that [null] and [undefined] are the empty string there and a boolean
    is its name; an object is never a number. *)
Fixpoint to_number `{Platform} (v : jsval) : jsnum :=
  match v with
  | JUndef => NaN
  | JNull => Num 0
  | JBool b => Num (if b then 1 else 0)
  | JNumber n => n
  | JStr s => Number_ s
  | JDate (Some t) => Num t
  | JDate None => NaN
  | JArr [] => Num 0
  | JArr [JNull] | JArr [JUndef] => Num 0
  | JArr [JBool _] | JArr [JDate _] => NaN
  | JArr [item] => to_number item
  | JArr _ | JObj _ => NaN
  end.

(** Every row is stored under the id it carries. *)
Definition well_keyed (t : gmap Z obj) : Prop :=
  forall z row, t !! z = Some row -> get row "id" = JNumber (Num z).

(** The answer of a handler that sends an array of rows. *)
Inductive listing :=
| Rows (rows : list obj)
| Failed (r : response).

Module StoreMore.
Section Operations.
Context `{Engine} `{Platform} `{Host} `{TaskTable}.

(** [prisma.user.findUnique({ where: { email } })] *)
Definition user_findByEmail (email : jsval) : M (option obj) :=
  match email with
  | JStr _ =>
      peek (fun d =>
        List.find (fun r => bool_decide (get r "email" = email)) (rows_of (users d)))
  | _ => throw "PrismaClientValidationError"
  end.

(** [new Date()] *)
Definition today : M jsval := fun w => (Ok (JDate (Some (Date_now w))), w).

(** [prisma.task.create({ data })]: the row goes under the id given in
    [data], or under the next id of the sequence when [data] gives none;
    an id already in use is refused. *)
Definition task_create (data : obj) : M obj :=
  if negb (valid_new_task data) then throw "PrismaClientValidationError" else
  defaults ← (fun w => (Ok (task_defaults w), w)) ;
  match get data "id" with
  | JUndef | JNumber (Num _) =>
      id ← peek (fun d =>
        match get data "id" with
        | JNumber (Num z) => z
        | _ => next_task_id (tasks d)
        end) ;
      taken ← peek (fun d => bool_decide (is_Some (tasks d !! id))) ;
      if (taken : bool) then throw "P2002" else
      let row := <["id" := JNumber (Num id)]> (merge data defaults) in
      modify (fun d => mkDb (users d) (<[id := row]> (tasks d)) (user_seq d)) ;;
      mret row
  | _ => throw "PrismaClientValidationError"
  end.

(** [prisma.task.findMany({ where: { userId } })] *)
Definition task_findByUser (userId : jsnum) : M (list obj) :=
  emit (TaskFindByUser userId) ;;
  match owned_by userId with
  | Some p => peek (fun d => List.filter p (rows_of (tasks d)))
  | None => throw "PrismaClientValidationError"
  end.

End Operations.
End StoreMore.

Import StoreMore.

(** [dueDate ? new Date(dueDate) : null] *)
Definition parse_dueDate `{Platform} (dueDate : jsval) : jsval :=
  if truthy dueDate then JDate (Date_new dueDate) else JNull.

(** [dueDate && isNaN(parsedDueDate.getTime())] *)
Definition bad_dueDate `{Platform} (dueDate : jsval) : bool :=
  truthy dueDate && bool_decide (Date_new dueDate = None).

(** ** tasks router (part_006), the other handlers *)

Module Part006Rest.
Section Handlers.
Context `{Engine} `{Platform} `{Host} `{TaskTable}.

Definition createTask : handler := fun req =>
  let b := body req in
  if negb (truthy (get b "title")) || negb (truthy (get b "userId"))
  then mret (mkRes 400 (Error "Title and User ID are required"))
  else if bad_dueDate (get b "dueDate")
  then mret (mkRes 400 (Error "Valid due date is required"))
  else
    try_catch
      (createdAt ← today ;
       newTask ← task_create
         (<["title" := get b "title"]>
          (<["description" := get b "description"]>
          (<["dueDate" := parse_dueDate (get b "dueDate")]>
          (<["status" := or_else (get b "status") (JStr "pending")]>
          (<["userId" := JNumber (to_number (get b "userId"))]>
          (<["createdAt" := createdAt]>
          (<["recurring" := or_else (get b "recurring") (JStr "none")]>
          (<["priority" := or_else (get b "priority") (JStr "low")]> ∅)))))))) ;
       mret (mkRes 201 (Json newTask)))
      (mret (mkRes 500 (Error "Failed to create task"))).

Definition markTaskAsCompleted : handler := fun req =>
  let id := params req !! "id" in
  try_catch
    (task ← task_findUnique (Number_opt id) ;
     match task with
     | None => mret (mkRes 404 (Error "Task not found"))
     | Some _ =>
         updatedTask ← task_update (Number_opt id) {["status" := JStr "completed"]} ;
         mret (mkRes 200 (Json updatedTask))
     end)
    (mret (mkRes 500 (Error "Failed to mark task as completed"))).

Definition getUserTask (req : request) : M listing :=
  let userId := params req !! "userId" in
  try_catch
    (tasks ← task_findByUser (Number_opt userId) ;
     mret (Rows tasks))
    (mret (Failed (mkRes 500 (Error "Failed to fetch tasks for user")))).

End Handlers.
End Part006Rest.

(** ** tasks router (part_005), the other handlers and the router *)

Module Part005Rest.
Section Handlers.
Context `{Engine} `{Platform} `{Host} `{TaskTable}.

Definition checkAdmin : middleware := fun req =>
  match user req with
  | None => throw "TypeError"
  | Some u =>
      if negb (is_str (get u "role") "ADMIN")
      then mret (Respond (mkRes 403 (Error "Unauthorized")))
      else mret (Next req)
  end.

(** [data: { ...req.body, dueDate: ..., createdAt: new Date() }] *)
Definition createTask : handler := fun req =>
  let b := body req in
  if negb (truthy (get b "title")) || negb (truthy (get b "userId"))
  then mret (mkRes 400 (Error "Title and User ID are required"))
  else
    try_catch
      (createdAt ← today ;
       newTask ← task_create
         (<["createdAt" := createdAt]>
          (<["dueDate" := parse_dueDate (get b "dueDate")]> b)) ;
       mret (mkRes 201 (Json newTask)))
      (mret (mkRes 500 (Error "Failed to create task"))).

Definition deleteTask : handler := fun req =>
  let id := params req !! "id" in
  try_catch
    (task ← task_findUnique (Number_opt id) ;
     match task with
     | None => mret (mkRes 404 (Error "Task not found"))
     | Some _ =>
         task_delete (Number_opt id) ;;
         mret (mkRes 200 (Message "Task deleted successfully"))
     end)
    (mret (mkRes 500 (Error "Failed to delete task"))).

(** [router.use(authToken)] followed by
    [router.delete('/:id', checkAdmin, deleteTask)] *)
Definition delete_route : handler :=
  route AuthJs.authToken (route checkAdmin deleteTask).

End Handlers.
End Part005Rest.

(** ** tasks router (tasks.js), the other handlers *)

Module TasksJsRest.
Section Handlers.
Context `{Engine} `{Platform} `{Host} `{TaskTable}.

Definition createTask : handler := fun req =>
  let b := body req in
  try_catch
    (if negb (truthy (get b "title")) || negb (truthy (get b "userId"))
     then mret (mkRes 400 (Error "Title and User ID are required"))
     else if bad_dueDate (get b "dueDate")
     then mret (mkRes 400 (Error "Valid due date is required"))
     else
       newTask ← task_create
         (<["title" := get b "title"]>
          (<["description" := get b "description"]>
          (<["dueDate" := parse_dueDate (get b "dueDate")]>
          (<["status" := or_else (get b "status") (JStr "pending")]>
          (<["userId" := JNumber (to_number (get b "userId"))]> ∅))))) ;
       mret (mkRes 201 (Json newTask)))
    (mret (mkRes 500 (Error "Failed to create task"))).

Definition updateTask : handler := fun req =>
  let id := params req !! "id" in
  let b := body req in
  try_catch
    (existingTask ← task_findUnique (Number_opt id) ;
     match existingTask with
     | None => mret (mkRes 404 (Error "Task not found"))
     | Some e =>
         updatedTask ← task_update (Number_opt id)
           (<["title" := or_else (get b "title") (get e "title")]>
            (<["description" := or_else (get b "description") (get e "description")]>
            (<["dueDate" := Part006.dueDate_or (get b "dueDate") (get e "dueDate")]>
            (<["status" := or_else (get b "status") (get e "status")]> ∅)))) ;
         mret (mkRes 200 (Json updatedTask))
     end)
    (mret (mkRes 500 (Error "Failed to update task"))).

End Handlers.
End TasksJsRest.

(** ** auth router (auth.js), the other handlers *)

Module AuthJsRest.
Section Handlers.
Context `{Engine} `{Platform} `{Host} `{TaskTable}.

Definition isAdmin : middleware := fun req =>
  match user req with
  | Some u =>
      if is_str (get u "role") "ADMIN"
      then mret (Next req)
      else mret (Respond (mkRes 403 (Error "Admin Access Required")))
  | None => mret (Respond (mkRes 403 (Error "Admin Access Required")))
  end.

(** [bcrypt.compare(password, user.password)] rejects arguments that are
    not strings. *)
Definition compare_password (password stored : jsval) : M bool :=
  match password, stored with
  | JStr p, JStr h => mret (bcrypt_compare p h)
  | _, _ => throw "data and hash must be strings"
  end.

Definition login : handler := fun req =>
  let b := body req in
  try_catch
    (found ← user_findByEmail (get b "email") ;
     match found with
     | None => mret (mkRes 401 (Error "Invalid email or password"))
     | Some u =>
         passwordMatch ← compare_password (get b "password") (get u "password") ;
         if (passwordMatch : bool) then
           let token := jwt_sign (<["userId" := get u "id"]>
                                  (<["role" := get u "role"]> ∅)) in
           mret (mkRes 200 (Json (<["token" := JStr token]>
                                  (<["role" := get u "role"]> ∅))))
         else mret (mkRes 401 (Error "Invalid email or password"))
     end)
    (mret (mkRes 500 (Error "Login Failed"))).

End Handlers.
End AuthJsRest.

(** ** profile router (profile.js), the handlers *)

Module ProfileJsRest.
Section Handlers.
Context `{Engine} `{Platform} `{Host} `{TaskTable}.

Definition getProfile : handler := fun req =>
  try_catch
    (match user req with
     | None => throw "TypeError"
     | Some p =>
         found ← user_findUnique (get p "id") ;
         match found with
         | None => mret (mkRes 404 NoBody)
         | Some u => mret (mkRes 200 (Json u))
         end
     end)
    (mret (mkRes 500 NoBody)).

(** The [updateData] object: [name] and [email] when truthy, and the hash
    of a truthy [password]. *)
Definition updateData_of (b : obj) : M obj :=
  let with_name :=
    if truthy (get b "name") then <["name" := get b "name"]> (∅ : obj) else ∅ in
  let with_email :=
    if truthy (get b "email") then <["email" := get b "email"]> with_name
    else with_name in
  if truthy (get b "password") then
    hashedPassword ← AuthJs.hash_password (get b "password") ;
    mret (<["password" := hashedPassword]> with_email)
  else mret with_email.

Definition updateProfile : handler := fun req =>
  match user req with
  | None => throw "TypeError"
  | Some p =>
      updateData ← updateData_of (body req) ;
      Part003.try_report
        (updatedUser ← user_update (get p "id") updateData ;
         mret (mkRes 200 (Json updatedUser)))
  end.

(** [router.get('/profile', authToken, getProfile)] *)
Definition profile_route : handler := route ProfileJs.authToken getProfile.

End Handlers.
End ProfileJsRest.

(** ** user router (part_003), the other handlers *)

Module Part003Rest.
Section Handlers.
Context `{Engine} `{Platform} `{Host} `{TaskTable}.

Definition createUser : handler := fun req =>
  let b := body req in
  if negb (truthy (get b "name")) || negb (truthy (get b "email"))
     || negb (truthy (get b "password"))
  then mret (mkRes 400 (Error "Name, email, and password are required"))
  else
    Part003.try_report
      (hashedPassword ← AuthJs.hash_password (get b "password") ;
       newUser ← user_create
         (<["name" := get b "name"]>
          (<["email" := get b "email"]>
          (<["password" := hashedPassword]>
          (<["role" := get b "role"]> ∅)))) ;
       mret (mkRes 201 (Json newUser))).

Definition updateUser : handler := fun req =>
  updateData ← ProfileJsRest.updateData_of (body req) ;
  Part003.try_report
    (match user req with
     | None => throw "TypeError"
     | Some p =>
         updatedUser ← user_update (get p "id") updateData ;
         mret (mkRes 200 (Json updatedUser))
     end).

End Handlers.
End Part003Rest.

(** ** Reference instances for the further interfaces *)

Module ReferenceMore.

#[global] Instance host : Host := {
  bcrypt_compare := fun p h => String.eqb h (String.append "$2b$10$" p);
  Date_now := Reference.time_of
}.

Fixpoint largest (keys : list Z) : Z :=
  match keys with
  | [] => 0
  | k :: rest => Z.max k (largest rest)
  end.

#[global] Instance task_table : TaskTable := {
  valid_new_task := Reference.known Reference.task_columns;
  next_task_id := fun t => 1 + largest (map_to_list t).*1;
  task_defaults := fun w =>
    <["status" := JStr "pending"]>
    (<["priority" := JStr "low"]>
    (<["createdAt" := JDate (Some (Reference.time_of w))]>
    (<["updatedAt" := JDate (Some (Reference.time_of w))]> ∅)));
  owned_by := fun n =>
    (fun z r => bool_decide (get r "userId" = JNumber (Num z))) <$> as_id n
}.

End ReferenceMore.

(** The sort directions of the list queries in a log. *)
Definition orders (l : list op) : list string :=
  omap (fun o => match o with TaskFindMany q => Some (fa_orderBy q).2 | _ => None end) l.

(** What a profile update may do to a store [d] on the way to [d']: no
    task and no sequence changes, no user appears or disappears, and in a
    user row only [name], [email], [password] and the [updatedAt] stamp
    may differ, the first three each being the old value or the one the
    body [b] gives it, the password as its hash. *)
Definition profile_update_frame `{Platform} (b : obj) (d d' : db) : Prop :=
  tasks d' = tasks d /\ user_seq d' = user_seq d /\
  forall z,
    match users d' !! z with
    | None => users d !! z = None
    | Some row' =>
        exists row, users d !! z = Some row /\
          (forall k, k <> "name" -> k <> "email" -> k <> "password" ->
             k <> "updatedAt" -> row' !! k = row !! k) /\
          (row' !! "name" = row !! "name" \/
           row' !! "name" = Some (set_value (get b "name"))) /\
          (row' !! "email" = row !! "email" \/
           row' !! "email" = Some (set_value (get b "email"))) /\
          (row' !! "password" = row !! "password" \/
           exists s, get b "password" = JStr s /\
                     row' !! "password" = Some (JStr (bcrypt_hash s))) /\
          (row' = row \/ exists t, row' !! "updatedAt" = Some (JDate (Some t)))
    end.

(** The row of an answer. *)
Definition json_of (x : outcome response) : obj :=
  match x with
  | Ok (mkRes _ (Json o)) => o
  | _ => ∅
  end.

(** The rows [o] and [o'] agree on every column but [k]. *)
Definition same_but (k : string) (o o' : obj) : Prop :=
  forall j, j <> k -> o !! j = o' !! j.

(** What an update through [h] may do to the store as far as column [k]
    is concerned: nothing at all, or replace the task found under the id
    of the route, say [e], in place by a row that agrees with [e] on [k],
    answering 200 with that row. *)
Definition column_kept (k : string) (h : handler) (id : jsnum)
    (req : request) (w : world) : Prop :=
  store (world_after (h req w)) = store w \/
  exists z e row',
    id = Num z /\
    tasks (store w) !! z = Some e /\
    store (world_after (h req w))
      = mkDb (users (store w)) (<[z := row']> (tasks (store w))) (user_seq (store w)) /\
    outcome_of (h req w) = Ok (mkRes 200 (Json row')) /\
    row' !! k = e !! k.


(** The handlers that write user rows. *)
Definition user_writers `{Engine} `{Platform} : list handler :=
  [AuthJs.register; Part003Rest.createUser; ProfileJsRest.updateProfile;
   Part003Rest.updateUser; Part003.updateUserRole].

(** * Properties *)

Ltac run :=
  repeat (unfold route, try_catch, throw, emit, peek, modify,
            mbind, M_bind, mret, M_ret in *; simpl in *).

Lemma is_str_true (v : jsval) (lit : string) :
  is_str v lit = true <-> v = JStr lit.
Proof.
  destruct v; simpl; try (split; [discriminate | intros [=]]).
  rewrite String.eqb_eq. split; [congruence | intros [=]; done].
Qed.

Lemma is_str_false (v : jsval) (lit : string) :
  is_str v lit = false <-> v <> JStr lit.
Proof.
  rewrite <- is_str_true. destruct (is_str v lit); split; congruence.
Qed.

Section RoleGuard.
Context `{Engine} `{Platform}.

(** C1.  On [DELETE /api/tasks/:id], a principal whose role is not
    [ADMIN] is answered 403 by the guard, and neither the store nor its
    log changes; a principal whose role is [ADMIN] is passed on unchanged,
    so the route does exactly what [deleteTask] does on that request. *)
Theorem C1_role_guard (req : request) (p : obj) (w : world) :
  user req = Some p ->
  (get p "role" <> JStr "ADMIN" ->
     Part006.delete_route req w = (Ok (mkRes 403 (Error "Unauthorized")), w)) /\
  (get p "role" = JStr "ADMIN" ->
     Part006.checkAdmin req w = (Ok (Next req), w) /\
     Part006.delete_route req w = Part006.deleteTask req w).
Proof.
  intros Hu. unfold Part006.delete_route, Part006.checkAdmin, route.
  rewrite Hu. split; intros Hrole.
  - apply is_str_false in Hrole. run. by rewrite Hrole.
  - apply is_str_true in Hrole. run. by rewrite Hrole.
Qed.

End RoleGuard.

(** A USER is turned away with the store untouched, an ADMIN reaches the
    delete handler. *)
Lemma C1_role_guard_witness :
  let bob := Reference.user_row 2 "Bob" "bob@x.com" "USER" in
  let ann := Reference.user_row 1 "Ann" "ann@x.com" "ADMIN" in
  let r_bob := Reference.request_of [] [("id", "1")] [] (∅ : obj) (Some bob) in
  let r_ann := Reference.request_of [] [("id", "1")] [] (∅ : obj) (Some ann) in
  Part006.delete_route r_bob Reference.w0
    = (Ok (mkRes 403 (Error "Unauthorized")), Reference.w0) /\
  Part006.delete_route r_ann Reference.w0
    = Part006.deleteTask r_ann Reference.w0.
Proof.
  intros bob ann r_bob r_ann. split.
  - apply (C1_role_guard r_bob bob Reference.w0 eq_refl).
    vm_compute. discriminate.
  - apply (C1_role_guard r_ann ann Reference.w0 eq_refl).
    vm_compute. reflexivity.
Defined.

Section TaskById.
Context `{Engine} `{Platform}.

Lemma as_id_Some (n : jsnum) (z : Z) : as_id n = Some z -> n = Num z.
Proof.
  destruct n as [|b|z'|m k]; simpl; try discriminate.
  destruct (_ && _); [|discriminate]. by intros [= ->].
Qed.

Lemma as_id_Num (z : Z) :
  -2147483648 <= z <= 2147483647 -> as_id (Num z) = Some z.
Proof.
  intros Hz. simpl.
  replace (-2147483648 <=? z) with true by (symmetry; apply Z.leb_le; lia).
  replace (z <=? 2147483647) with true by (symmetry; apply Z.leb_le; lia).
  done.
Qed.

(** C10 (as amended).  [GET /api/tasks/:id]: when the id parameter is
    missing, empty or reads as NaN the handler answers 400 and the store
    log is as before, so no store call was made; a store call happens
    only for an id that reads as a number.  When that number is an
    integer of the id column and no task is stored under it, the answer
    is 404 after the single [findUnique]; when it is a number that is no
    such integer (an infinity, a fraction, an integer beyond 32 bits) the
    store refuses the lookup and the answer is 500 after that single
    call.  The store contents are unchanged in every case.  The handler
    of tasks.js is the same function. *)
Theorem C10_getTaskById (req : request) (w : world) :
  TasksJs.getTaskById req w = Part006.getTaskById req w /\
  (nonempty (params req !! "id") = false \/ Number_opt (params req !! "id") = NaN ->
     Part006.getTaskById req w = (Ok (mkRes 400 (Error "Invalid task ID")), w)) /\
  (log (world_after (Part006.getTaskById req w)) <> log w ->
     nonempty (params req !! "id") = true /\ Number_opt (params req !! "id") <> NaN) /\
  (forall z, nonempty (params req !! "id") = true ->
     as_id (Number_opt (params req !! "id")) = Some z ->
     tasks (store w) !! z = None ->
     Part006.getTaskById req w
       = (Ok (mkRes 404 (Error "Task not found")),
          mkWorld (store w) (log w ++ [TaskFindUnique (Num z)]))) /\
  (nonempty (params req !! "id") = true ->
     Number_opt (params req !! "id") <> NaN ->
     as_id (Number_opt (params req !! "id")) = None ->
     Part006.getTaskById req w
       = (Ok (mkRes 500 (Error "Failed to fetch task")),
          mkWorld (store w)
            (log w ++ [TaskFindUnique (Number_opt (params req !! "id"))]))) /\
  store (world_after (Part006.getTaskById req w)) = store w.
Proof.
  unfold TasksJs.getTaskById, Part006.getTaskById, world_after.
  set (id := params req !! "id"). split; [reflexivity|].
  destruct (nonempty id) eqn:Hne; cbn [negb orb];
    [|split; [done|]; split; [done|]; split; [by intros z [=]|];
      split; [by intros [=]|done]].
  destruct (isNaN (Number_opt id)) eqn:Hnan.
  { assert (Hn : Number_opt id = NaN) by (by destruct (Number_opt id)).
    rewrite Hn. split; [done|]. split; [done|].
    split; [by intros z _ [=]|]. split; [done|done]. }
  assert (Hn : Number_opt id <> NaN) by (intros Hn; by rewrite Hn in Hnan).
  unfold task_findUnique. run.
  destruct (as_id (Number_opt id)) as [z|] eqn:Hid.
  - rewrite (as_id_Some _ _ Hid). run.
    destruct (tasks (store w) !! z) as [t|] eqn:Ht; cbn [fst snd store].
    + split; [intros [|]; done|]. split; [done|]. split; [|done].
      intros z' _ [= <-]. rewrite Ht. done.
    + split; [intros [|]; done|]. split; [done|]. split; [|done].
      intros z' _ [= <-] _. done.
  - run. split; [intros [|]; done|]. split; [done|].
    split; [by intros z _ [=]|]. split; [done|done].
Qed.

End TaskById.

(** ["abc"] is answered 400 with an empty log; ["7"] names no task and
    is answered 404 after one lookup; ["1.5"] reads as a number the id
    column cannot hold and is answered 500 after one refused lookup. *)
Lemma C10_getTaskById_witness :
  let bad := Reference.request_of [] [("id", "abc")] [] (∅ : obj) None in
  let missing := Reference.request_of [] [("id", "7")] [] (∅ : obj) None in
  let half := Reference.request_of [] [("id", "1.5")] [] (∅ : obj) None in
  Part006.getTaskById bad Reference.w0
    = (Ok (mkRes 400 (Error "Invalid task ID")), Reference.w0) /\
  Part006.getTaskById missing Reference.w0
    = (Ok (mkRes 404 (Error "Task not found")),
       mkWorld (store Reference.w0) [TaskFindUnique (Num 7)]) /\
  Part006.getTaskById half Reference.w0
    = (Ok (mkRes 500 (Error "Failed to fetch task")),
       mkWorld (store Reference.w0) [TaskFindUnique (Frac 3 1)]).
Proof.
  intros bad missing half. split; [|split].
  - apply (C10_getTaskById bad Reference.w0). right. vm_compute. reflexivity.
  - destruct (C10_getTaskById missing Reference.w0) as (_ & _ & _ & H404 & _).
    apply (H404 7); vm_compute; reflexivity.
  - destruct (C10_getTaskById half Reference.w0) as (_ & _ & _ & _ & H500 & _).
    apply H500; vm_compute; [reflexivity|discriminate|reflexivity].
Defined.

(** The id [Infinity] is not empty and numeric for the handler's test
    ([isNaN] is false), so the store is queried, and no task is stored
    under it; yet the answer is 500, not 404. *)
Lemma C10_getTaskById_counterexample :
  let req := Reference.request_of [] [("id", "Infinity")] [] (∅ : obj) None in
  nonempty (params req !! "id") = true /\
  isNaN (Number_opt (params req !! "id")) = false /\
  Part006.getTaskById req Reference.w0
    = (Ok (mkRes 500 (Error "Failed to fetch task")),
       mkWorld (store Reference.w0) [TaskFindUnique (Inf false)]) /\
  Part006.getTaskById req Reference.w0
    <> (Ok (mkRes 404 (Error "Task not found")),
        mkWorld (store Reference.w0) [TaskFindUnique (Inf false)]).
Proof. vm_compute. repeat split; try reflexivity. discriminate. Qed.
Section AuthMiddleware.
Context `{Engine} `{Platform}.

Lemma split_space_no_space (s : string) :
  no_space s = true -> split_space s = [s].
Proof.
  induction s as [|c s IH]; simpl; [done|].
  destruct (Ascii.eqb c _); simpl; [discriminate|].
  intros Hs. by rewrite IH.
Qed.

(** The pieces of [<scheme> <rest>] for a scheme word without a space. *)
Lemma split_space_scheme (scheme rest : string) :
  no_space scheme = true ->
  split_space (String.append scheme (String (ascii_of_nat 32) rest))
    = scheme :: split_space rest.
Proof.
  induction scheme as [|c s IH]; simpl; [done|].
  destruct (Ascii.eqb c _); simpl; [discriminate|].
  intros Hs. by rewrite IH.
Qed.

(** The token is the second space-separated piece of the header, when
    that piece is not empty. *)
Lemma bearer_token_piece (req : request) (h t : string) :
  headers req !! "authorization" = Some h ->
  split_space h !! 1%nat = Some t -> t <> "" ->
  AuthJs.bearer_token req = Some t.
Proof.
  intros Hh Hp Ht. unfold AuthJs.bearer_token. rewrite Hh, Hp.
  apply String.eqb_neq in Ht. by rewrite Ht.
Qed.

Lemma bearer_token_None (req : request) :
  AuthJs.bearer_token req = None <->
  headers req !! "authorization" = None \/
  exists h, headers req !! "authorization" = Some h /\
    (split_space h !! 1%nat = None \/ split_space h !! 1%nat = Some "").
Proof.
  unfold AuthJs.bearer_token.
  destruct (headers req !! "authorization") as [h|]; [|by split; [left|]].
  destruct (split_space h !! 1%nat) as [t|] eqn:Hp.
  - destruct (String.eqb t "") eqn:Ht.
    + apply String.eqb_eq in Ht as ->. split; [|done].
      intros _. right. exists h. by split; [|right].
    + apply String.eqb_neq in Ht. split; [done|].
      intros [|(h' & [= <-] & [|])]; congruence.
  - split; [|done]. intros _. right. exists h. by split; [|left].
Qed.

(** One run of the auth.js middleware on a request that carries a token. *)
Lemma authToken_run (req : request) (w : world) (token : string) :
  AuthJs.bearer_token req = Some token ->
  AuthJs.authToken req w =
    match jwt_verify token with
    | None => (Ok (Respond (mkRes 403 NoBody)), w)
    | Some decoded =>
        let w' := mkWorld (store w) (log w ++ [UserFindUnique (get decoded "userId")]) in
        match user_of decoded w with
        | None => (Ok (Respond (mkRes 403 NoBody)), w')
        | Some u =>
            (Ok (Next (set_user req
               (<["id" := get u "id"]>
                (<["name" := get u "name"]>
                (<["email" := get u "email"]>
                (<["role" := get decoded "role"]> ∅)))))), w')
        end
    end.
Proof.
  intros Ht. unfold AuthJs.authToken, user_of. rewrite Ht.
  destruct (jwt_verify token) as [d|]; [|reflexivity].
  unfold user_findUnique. run.
  destruct (get d "userId") as [| |b|[|s|z|m2 k2]|s|t|l|l]; try reflexivity.
  simpl. destruct (users (store w) !! z); reflexivity.
Qed.

(** C2 (as amended).  [authToken] answers 401 exactly when the
    Authorization header is absent or has no non-empty second
    space-separated piece.  The first piece, the scheme word, is never
    read: a header [<scheme> <token>] is treated by its token alone,
    whatever the scheme.  With a token that fails verification the answer
    is 403 and nothing is logged; with a verified token whose userId has
    no user row the answer is 403 as well.  Every run ends in 401, 403 or
    [next()], and the store contents are never changed. *)
Theorem C2_auth_status (req : request) (w : world) :
  (answered (AuthJs.authToken req w) = Some 401 <->
     headers req !! "authorization" = None \/
     exists h, headers req !! "authorization" = Some h /\
       (split_space h !! 1%nat = None \/ split_space h !! 1%nat = Some "")) /\
  (forall scheme t,
     headers req !! "authorization"
       = Some (String.append scheme (String (ascii_of_nat 32) t)) ->
     no_space scheme = true -> t <> "" -> no_space t = true ->
     answered (AuthJs.authToken req w)
       = match jwt_verify t with
         | None => Some 403
         | Some decoded =>
             match user_of decoded w with
             | None => Some 403
             | Some _ => None
             end
         end) /\
  (forall h token, headers req !! "authorization" = Some h ->
     split_space h !! 1%nat = Some token -> token <> "" ->
     jwt_verify token = None ->
     AuthJs.authToken req w = (Ok (Respond (mkRes 403 NoBody)), w)) /\
  (forall h token decoded, headers req !! "authorization" = Some h ->
     split_space h !! 1%nat = Some token -> token <> "" ->
     jwt_verify token = Some decoded ->
     user_of decoded w = None ->
     answered (AuthJs.authToken req w) = Some 403) /\
  (answered (AuthJs.authToken req w) = Some 401 \/
   answered (AuthJs.authToken req w) = Some 403 \/
   exists req', passed_on (AuthJs.authToken req w) = Some req') /\
  store (world_after (AuthJs.authToken req w)) = store w.
Proof.
  rewrite <- bearer_token_None.
  assert (Hscheme : forall scheme t,
    headers req !! "authorization"
      = Some (String.append scheme (String (ascii_of_nat 32) t)) ->
    no_space scheme = true -> t <> "" -> no_space t = true ->
    AuthJs.bearer_token req = Some t).
  { intros scheme t Hh Hs Ht Hts. apply (bearer_token_piece req _ t Hh); [|done].
    by rewrite (split_space_scheme scheme t Hs), (split_space_no_space t Hts). }
  assert (Hpiece := bearer_token_piece req).
  destruct (AuthJs.bearer_token req) as [token|] eqn:Ht.
  - rewrite (authToken_run req w token Ht). unfold answered, passed_on, world_after.
    destruct (jwt_verify token) as [d|] eqn:Hv; cbn [fst snd].
    + destruct (user_of d w) as [u|] eqn:Hu; cbn [fst snd store status].
      * split; [split; discriminate|].
        split; [intros s t Hh Hs Hne Hts;
                specialize (Hscheme s t Hh Hs Hne Hts) as [= <-]; by rewrite Hv, Hu|].
        split; [intros h t Hh Hp Hne; specialize (Hpiece h t Hh Hp Hne) as [= <-];
                congruence|].
        split; [intros h t d' Hh Hp Hne; specialize (Hpiece h t Hh Hp Hne) as [= <-];
                congruence|].
        split; [|done]. right. right. eauto.
      * split; [split; discriminate|].
        split; [intros s t Hh Hs Hne Hts;
                specialize (Hscheme s t Hh Hs Hne Hts) as [= <-]; by rewrite Hv, Hu|].
        split; [intros h t Hh Hp Hne; specialize (Hpiece h t Hh Hp Hne) as [= <-];
                congruence|].
        split; [done|]. split; [|done]. right. left. done.
    + split; [split; discriminate|].
      split; [intros s t Hh Hs Hne Hts;
              specialize (Hscheme s t Hh Hs Hne Hts) as [= <-]; by rewrite Hv|].
      split; [done|].
      split; [intros h t d' Hh Hp Hne; specialize (Hpiece h t Hh Hp Hne) as [= <-];
              congruence|].
      split; [|done]. right. left. done.
  - unfold AuthJs.authToken. rewrite Ht. unfold answered, world_after.
    cbn [fst snd status].
    split; [done|].
    split; [intros s t Hh Hs Hne Hts; by specialize (Hscheme s t Hh Hs Hne Hts)|].
    split; [intros h t Hh Hp Hne; by specialize (Hpiece h t Hh Hp Hne)|].
    split; [intros h t d' Hh Hp Hne; by specialize (Hpiece h t Hh Hp Hne)|].
    split; [|done]. left. done.
Qed.

End AuthMiddleware.

(** No header: 401.  A header of one word: 401.  A token that does not
    verify: 403.  A verified token for user 2 on a store without users:
    403. *)
Lemma C2_auth_status_witness :
  let bare := Reference.request_of [] [] [] (∅ : obj) None in
  let word := Reference.request_of [("authorization", "Bearer")] [] [] (∅ : obj) None in
  let garbage :=
    Reference.request_of [("authorization", "Bearer garbage")] [] [] (∅ : obj) None in
  let bob :=
    Reference.request_of [("authorization", "Bearer user-token")] [] [] (∅ : obj) None in
  let empty := mkWorld (mkDb ∅ ∅ 1) [] in
  answered (AuthJs.authToken bare Reference.w0) = Some 401 /\
  answered (AuthJs.authToken word Reference.w0) = Some 401 /\
  AuthJs.authToken garbage Reference.w0
    = (Ok (Respond (mkRes 403 NoBody)), Reference.w0) /\
  answered (AuthJs.authToken bob empty) = Some 403.
Proof.
  intros bare word garbage bob empty. split; [|split; [|split]].
  - apply (C2_auth_status bare Reference.w0). left. vm_compute. reflexivity.
  - apply (C2_auth_status word Reference.w0). right. exists "Bearer".
    split; [|left]; vm_compute; reflexivity.
  - destruct (C2_auth_status garbage Reference.w0) as (_ & _ & Hbad & _).
    apply (Hbad "Bearer garbage" "garbage"); vm_compute; try reflexivity.
    discriminate.
  - destruct (C2_auth_status bob empty) as (_ & _ & _ & Hgone & _).
    apply (Hgone "Bearer user-token" "user-token"
             (<["userId" := JNumber (Num 2)]> (<["role" := JStr "USER"]> ∅)));
      vm_compute; try reflexivity. discriminate.
Defined.

(** A header with the scheme [Basic] carries no bearer token, yet it is
    not answered 401: with a word that does not verify the answer is 403,
    and with a valid token the request is handed on as that user's. *)
Lemma C2_auth_status_counterexample :
  let garbage :=
    Reference.request_of [("authorization", "Basic garbage")] [] [] (∅ : obj) None in
  let bob :=
    Reference.request_of [("authorization", "Basic user-token")] [] [] (∅ : obj) None in
  answered (AuthJs.authToken garbage Reference.w0) = Some 403 /\
  answered (AuthJs.authToken garbage Reference.w0) <> Some 401 /\
  (user <$> passed_on (AuthJs.authToken bob Reference.w0))
    = Some (Some (<["id" := JNumber (Num 2)]>
                  (<["name" := JStr "Bob"]>
                  (<["email" := JStr "bob@x.com"]>
                  (<["role" := JStr "USER"]> ∅))))).
Proof. vm_compute. repeat split; try reflexivity. discriminate. Qed.

Section Principal.
Context `{Engine} `{Platform}.

(** Changing the role column of some user leaves the id, name and email
    of every user row as they were. *)
Lemma user_of_with_role (decoded : obj) (z : Z) (r : jsval) (w : world) :
  user_of decoded (with_role z r w) =
    (if decide (get decoded "userId" = JNumber (Num z))
     then insert "role" r else id) <$> user_of decoded w.
Proof.
  unfold user_of, with_role. simpl.
  destruct (get decoded "userId") as [| |b|[|s|z'|m k]|s|t|l|l];
    try (case_decide; done).
  case_decide as Hz.
  - injection Hz as ->. by rewrite lookup_alter_eq.
  - rewrite lookup_alter_ne by congruence. by destruct (users (store w) !! z').
Qed.

(** C3 (amended).  A request that the auth.js middleware lets through
    carries a principal whose id, name and email are those of the user
    row fetched from the store and whose role is the role claim of the
    verified token; the same principal is attached whatever role the
    store holds for any user at that moment. *)
Theorem C3_principal_role_from_token (req req' : request) (w : world) :
  passed_on (AuthJs.authToken req w) = Some req' ->
  exists token decoded u p,
    AuthJs.bearer_token req = Some token /\
    jwt_verify token = Some decoded /\
    user_of decoded w = Some u /\
    user req' = Some p /\
    get p "id" = get u "id" /\
    get p "name" = get u "name" /\
    get p "email" = get u "email" /\
    get p "role" = get decoded "role" /\
    forall z r, passed_on (AuthJs.authToken req (with_role z r w)) = Some req'.
Proof.
  intros Hpass.
  destruct (AuthJs.bearer_token req) as [token|] eqn:Ht;
    [|unfold AuthJs.authToken in Hpass; rewrite Ht in Hpass; discriminate].
  rewrite (authToken_run req w token Ht) in Hpass.
  destruct (jwt_verify token) as [d|] eqn:Hv; [|discriminate].
  destruct (user_of d w) as [u|] eqn:Hu; [|discriminate].
  injection Hpass as <-.
  eexists token, d, u, _. repeat (split; [done|]).
  intros z r. rewrite (authToken_run req _ token Ht), Hv.
  cbv zeta. rewrite user_of_with_role, Hu. simpl. unfold passed_on. simpl.
  case_decide; [|done].
  unfold get. by rewrite !lookup_insert_ne.
Qed.

End Principal.

(** Bob's token, issued with role USER, on the reference store. *)
Lemma C3_principal_role_from_token_witness :
  let req :=
    Reference.request_of [("authorization", "Bearer user-token")] [] [] (∅ : obj) None in
  exists p,
    (passed_on (AuthJs.authToken req Reference.w0) ≫= user) = Some p /\
    get p "role" = JStr "USER" /\ get p "name" = JStr "Bob".
Proof.
  intros req.
  destruct (C3_principal_role_from_token req
              (set_user req
                 (<["id" := JNumber (Num 2)]>
                  (<["name" := JStr "Bob"]>
                  (<["email" := JStr "bob@x.com"]>
                  (<["role" := JStr "USER"]> ∅)))))
              Reference.w0)
    as (token & d & u & p & _ & _ & _ & Hp & _).
  { vm_compute. reflexivity. }
  exists p. injection Hp as <-. vm_compute. auto.
Defined.

(** C3 as stated fails on the profile router: its own [authToken] attaches
    the fetched row itself, so after Bob's stored role has become ADMIN a
    token that still claims USER yields a principal with role ADMIN. *)
Lemma C3_counterexample :
  let req :=
    Reference.request_of [("authorization", "Bearer user-token")] [] [] (∅ : obj) None in
  let w := with_role 2 (JStr "ADMIN") Reference.w0 in
  ((fun d => get d "role") <$> jwt_verify "user-token") = Some (JStr "USER") /\
  ((fun p => get p "role") <$> (passed_on (ProfileJs.authToken req w) ≫= user))
    = Some (JStr "ADMIN").
Proof. vm_compute. split; reflexivity. Qed.

(** ** Updates merge *)

Lemma merge_lookup (data row : obj) (k : string) :
  merge data row !! k =
    match data !! k with
    | Some v => if decide (v = JUndef) then row !! k else Some v
    | None => row !! k
    end.
Proof.
  unfold merge. rewrite lookup_union, map_lookup_filter.
  destruct (data !! k) as [v|]; simpl.
  - case_guard; simpl in *; case_decide; try done.
    + by destruct (row !! k).
    + by rewrite (left_id_L None _).
  - by rewrite (left_id_L None _).
Qed.

Lemma merge_absent (data row : obj) (k : string) :
  data !! k = None -> merge data row !! k = row !! k.
Proof. intros Hk. by rewrite merge_lookup, Hk. Qed.

Lemma or_else_defined (a : jsval) (lit : string) :
  or_else a (JStr lit) <> JUndef.
Proof. unfold or_else. destruct a as [| |b|[|s|z|m2 k2]|s|t|l|l]; simpl; try done; by destruct (_ : bool). Qed.

Section RoleChange.
Context `{Engine} `{Platform}.

Lemma updateUserRole_forbidden (req : request) (p : obj) (w : world) :
  user req = Some p ->
  get p "role" <> JStr "ADMIN" ->
  Part003.updateUserRole req w
    = (Ok (mkRes 403 (Error "Only admins can update roles")), w).
Proof.
  intros Hu Hrole. apply is_str_false in Hrole.
  unfold Part003.updateUserRole. rewrite Hu, Hrole. reflexivity.
Qed.

Lemma updateUserRole_changes_only_for_admin (req : request) (w : world) :
  store (world_after (Part003.updateUserRole req w)) <> store w ->
  exists p, user req = Some p /\ get p "role" = JStr "ADMIN".
Proof.
  unfold Part003.updateUserRole, world_after.
  destruct (user req) as [p|]; [|done].
  destruct (is_str (get p "role") "ADMIN") eqn:Hrole; simpl; [|done].
  apply is_str_true in Hrole. eauto.
Qed.

Lemma updateUserRole_admin (req : request) (p row : obj) (z : Z) (w : world) :
  user req = Some p ->
  get p "role" = JStr "ADMIN" ->
  get p "id" = JNumber (Num z) ->
  users (store w) !! z = Some row ->
  valid_user_data {["role" := get (body req) "role"]} = true ->
  users (store (world_after (Part003.updateUserRole req w))) !! z
    = Some (merge {["role" := set_value (get (body req) "role")]}
              (<["updatedAt" := JDate (Some (stamp w))]> row)).
Proof.
  intros Hu Hrole Hid Hrow Hvalid. apply is_str_true in Hrole.
  rewrite <- (map_fmap_singleton set_value). fold (updated (stamp w)
    {["role" := get (body req) "role"]} row).
  unfold Part003.updateUserRole, Part003.try_report, user_update, clock, world_after.
  rewrite Hu, Hrole, Hid. run. rewrite Hrow, Hvalid. simpl.
  by rewrite lookup_insert_eq.
Qed.

Lemma register_role (req : request) (w w' : world) (token : string) :
  AuthJs.register req w = (Ok (mkRes 201 (Token token)), w') ->
  exists row,
    users (store w') !! user_seq (store w) = Some row /\
    get row "role" = or_else (get (body req) "role") (JStr "USER").
Proof.
  unfold AuthJs.register.
  destruct (_ || _); [discriminate|].
  unfold AuthJs.hash_password, user_create.
  destruct (get (body req) "password") as [| |b|n|s|t|l|l]; run; try discriminate.
  destruct (valid_user_data _); simpl; [|discriminate].
  destruct (email_taken _ _); simpl; [discriminate|].
  intros [= _ <-]. simpl. eexists. rewrite lookup_insert_eq. split; [done|].
  unfold get. rewrite lookup_insert_ne by done.
  rewrite merge_lookup. rewrite lookup_insert_ne by done.
  rewrite lookup_insert_ne by done. rewrite lookup_insert_ne by done.
  rewrite lookup_insert_eq.
  case_decide as Hundef; [|done]. by apply or_else_defined in Hundef.
Qed.

(** C4 (amended).  On the role endpoint a principal whose role is not
    ADMIN is answered 403 with the store and its log untouched, the store
    changes only for a principal whose role is ADMIN, and for an ADMIN
    principal the role of the request body is written into the
    principal's own row, which the update stamps with its time.  Registration, which has no principal, stores the role
    given in the body, and USER when the body gives none. *)
Theorem C4_role_change (req : request) (w : world) :
  (forall p, user req = Some p -> get p "role" <> JStr "ADMIN" ->
     Part003.updateUserRole req w
       = (Ok (mkRes 403 (Error "Only admins can update roles")), w)) /\
  (store (world_after (Part003.updateUserRole req w)) <> store w ->
     exists p, user req = Some p /\ get p "role" = JStr "ADMIN") /\
  (forall p row z, user req = Some p -> get p "role" = JStr "ADMIN" ->
     get p "id" = JNumber (Num z) ->
     users (store w) !! z = Some row ->
     valid_user_data {["role" := get (body req) "role"]} = true ->
     users (store (world_after (Part003.updateUserRole req w))) !! z
       = Some (merge {["role" := set_value (get (body req) "role")]}
                 (<["updatedAt" := JDate (Some (stamp w))]> row))) /\
  (forall w' token,
     AuthJs.register req w = (Ok (mkRes 201 (Token token)), w') ->
     exists row,
       users (store w') !! user_seq (store w) = Some row /\
       get row "role" = or_else (get (body req) "role") (JStr "USER")).
Proof.
  split; [|split; [|split]].
  - intros p. apply updateUserRole_forbidden.
  - apply updateUserRole_changes_only_for_admin.
  - intros p row z. apply updateUserRole_admin.
  - intros w' token. apply register_role.
Qed.

End RoleChange.

(** Bob (USER) asking for ADMIN is refused; Ann (ADMIN) stepping down to
    USER is stored, with the time of the update; a registration without a role is stored as USER. *)
Lemma C4_role_change_witness :
  let bob := Reference.user_row 2 "Bob" "bob@x.com" "USER" in
  let ann := Reference.user_row 1 "Ann" "ann@x.com" "ADMIN" in
  let to_admin := Reference.request_of [] [] [] {["role" := JStr "ADMIN"]} (Some bob) in
  let to_user := Reference.request_of [] [] [] {["role" := JStr "USER"]} (Some ann) in
  let signup :=
    Reference.request_of [] [] []
      (<["email" := JStr "c@x.com"]> (<["password" := JStr "p"]>
       (<["name" := JStr "C"]> ∅))) None in
  Part003.updateUserRole to_admin Reference.w0
    = (Ok (mkRes 403 (Error "Only admins can update roles")), Reference.w0) /\
  users (store (world_after (Part003.updateUserRole to_user Reference.w0))) !! 1
    = Some (<["updatedAt" := JDate (Some 1700000000000)]>
              (Reference.user_row 1 "Ann" "ann@x.com" "USER")) /\
  exists row,
    users (store (world_after (AuthJs.register signup Reference.w0))) !! 3 = Some row /\
    get row "role" = JStr "USER".
Proof.
  intros bob ann to_admin to_user signup. split; [|split].
  - apply (C4_role_change to_admin Reference.w0) with (p := bob).
    + reflexivity.
    + vm_compute. discriminate.
  - destruct (C4_role_change to_user Reference.w0) as (_ & _ & Hadmin & _).
    rewrite (Hadmin ann ann 1); vm_compute; reflexivity.
  - destruct (C4_role_change signup Reference.w0) as (_ & _ & _ & Hreg).
    apply (Hreg (world_after (AuthJs.register signup Reference.w0)) "signed").
    vm_compute. reflexivity.
Defined.

(** C4 as stated fails on registration: a request without any principal
    that supplies [role: "ADMIN"] is answered 201 and the new user is
    stored with role ADMIN. *)
Lemma C4_counterexample :
  let signup :=
    Reference.request_of [] [] []
      (<["email" := JStr "eve@x.com"]> (<["password" := JStr "p"]>
       (<["name" := JStr "Eve"]> (<["role" := JStr "ADMIN"]> ∅)))) None in
  user signup = None /\
  outcome_of (AuthJs.register signup Reference.w0) = Ok (mkRes 201 (Token "signed")) /\
  ((fun row => get row "role") <$>
     users (store (world_after (AuthJs.register signup Reference.w0))) !! 3)
    = Some (JStr "ADMIN").
Proof. vm_compute. repeat split; reflexivity. Qed.

(** ** The sort table *)

Lemma assoc_In (own : list (string * string)) (k v : string) :
  assoc own k = Some v -> In (k, v) own.
Proof.
  induction own as [|[k' v'] own IH]; simpl; [discriminate|].
  destruct (String.eqb k k') eqn:Hk.
  - apply String.eqb_eq in Hk as ->. intros [= ->]. by left.
  - intros Hv. right. by apply IH.
Qed.

Lemma assoc_None (own : list (string * string)) (k : string) :
  assoc own k = None <-> ~ In k (map fst own).
Proof.
  induction own as [|[k' v'] own IH]; simpl; [tauto|].
  destruct (String.eqb k k') eqn:Hk.
  - apply String.eqb_eq in Hk as ->. split; [discriminate|]. tauto.
  - apply String.eqb_neq in Hk. rewrite IH. split; [|tauto].
    intros Hn [->|Hin]; tauto.
Qed.

Lemma existsb_eqb_In (k : string) (l : list string) :
  existsb (String.eqb k) l = true <-> In k l.
Proof.
  rewrite existsb_exists. split.
  - intros (x & Hx & Heq). apply String.eqb_eq in Heq as ->. done.
  - intros Hin. exists k. split; [done|]. apply String.eqb_refl.
Qed.

Lemma sort_key_listed (own : list (string * string)) (s : string) :
  Forall (fun kv => kv.2 = kv.1 /\ kv.1 <> "") own -> In s (map fst own) ->
  sort_key own s = Column s.
Proof.
  intros Hid Hin. unfold sort_key, lookup_literal.
  destruct (assoc own s) as [v|] eqn:Ha; [|by apply assoc_None in Ha].
  apply assoc_In, list_elem_of_In in Ha. rewrite Forall_forall in Hid.
  destruct (Hid _ Ha) as [Hv Hne]. simpl in *. subst v.
  apply String.eqb_neq in Hne. by rewrite Hne.
Qed.

Lemma sort_key_fallback (own : list (string * string)) (s : string) :
  ~ In s (map fst own) -> ~ In s Object_prototype_members ->
  sort_key own s = Column "createdAt".
Proof.
  intros Hout Hproto. unfold sort_key, lookup_literal.
  apply assoc_None in Hout. rewrite Hout.
  destruct (existsb _ _) eqn:He; [|done].
  by apply existsb_eqb_In in He.
Qed.

Lemma sort_key_not_verbatim (own : list (string * string)) (s : string) :
  In "createdAt" (map fst own) -> ~ In s (map fst own) ->
  sort_key own s <> Column s.
Proof.
  intros Hc Hout. unfold sort_key, lookup_literal.
  pose proof Hout as Ha. apply assoc_None in Ha. rewrite Ha.
  destruct (existsb _ _); [done|].
  intros [= <-]. done.
Qed.

(** ** One run of a list handler *)

Section Listing.
Context `{Engine} `{Platform}.

Lemma list_block_run (q : find_args) (wc : where_) (page limit : jsnum) (w : world) :
  try_catch
    (tasks ← task_findMany q ;
     totalTasks ← task_count wc ;
     mret (mkRes 200 (TaskPage tasks (on_wire page)
                               (on_wire (ceil_div totalTasks limit)) totalTasks)))
    (mret (mkRes 500 (Error "Failed to fetch tasks"))) w
  = match selected q w with
    | None =>
        (Ok (mkRes 500 (Error "Failed to fetch tasks")),
         mkWorld (store w) (log w ++ [TaskFindMany q]))
    | Some l =>
        (match counted wc w with
         | None => Ok (mkRes 500 (Error "Failed to fetch tasks"))
         | Some n => Ok (mkRes 200 (TaskPage l (on_wire page) (on_wire (ceil_div n limit)) n))
         end,
         mkWorld (store w) (log w ++ [TaskFindMany q; TaskCount wc]))
    end.
Proof.
  unfold selected, counted, task_findMany, task_count. run.
  destruct (filter_sem (fa_where q)) as [p|]; simpl; [|done].
  destruct (page_sem _ _ _ _) as [l|]; simpl; [|done].
  rewrite <- app_assoc. simpl.
  destruct (filter_sem wc) as [pc|]; simpl; done.
Qed.

End Listing.

Section SortField.
Context `{Engine} `{Platform}.

Lemma sort_fields_block (q : find_args) (wc : where_) (page limit : jsnum) (w : world) :
  sort_fields
    (log (world_after
       (try_catch
          (tasks ← task_findMany q ;
           totalTasks ← task_count wc ;
           mret (mkRes 200 (TaskPage tasks (on_wire page)
                               (on_wire (ceil_div totalTasks limit)) totalTasks)))
          (mret (mkRes 500 (Error "Failed to fetch tasks"))) w)))
  = sort_fields (log w) ++ [(fa_orderBy q).1].
Proof.
  rewrite list_block_run. unfold world_after, sort_fields.
  destruct (selected q w); simpl; by rewrite omap_app.
Qed.

(** C5 (amended).  In the two list handlers that carry a sort table (six
    keys in part_006, the three keys dueDate, createdAt and status in
    tasks.js) the [orderBy] key of the query sent to the store is
    [sortBy] when the table lists it, [createdAt] when [sortBy] is absent
    or is any other string that names no member of [Object.prototype],
    and it is never an unlisted [sortBy] itself. *)
Theorem C5_sort_field (req : request) (w : world) :
  exists k6 k3,
    sort_fields (log (world_after (Part006.getAllTasks req w)))
      = sort_fields (log w) ++ [k6] /\
    sort_fields (log (world_after (TasksJs.getAllTasks req w)))
      = sort_fields (log w) ++ [k3] /\
    (forall s, query req !! "sortBy" = Some s ->
       (In s ["dueDate"; "createdAt"; "status"; "userId"; "recurring"; "priority"] ->
          k6 = Column s) /\
       (In s ["dueDate"; "createdAt"; "status"] -> k3 = Column s)) /\
    (query req !! "sortBy" = None ->
       k6 = Column "createdAt" /\ k3 = Column "createdAt") /\
    (forall s, query req !! "sortBy" = Some s ->
       ~ In s Object_prototype_members ->
       (~ In s ["dueDate"; "createdAt"; "status"; "userId"; "recurring"; "priority"] ->
          k6 = Column "createdAt") /\
       (~ In s ["dueDate"; "createdAt"; "status"] -> k3 = Column "createdAt")) /\
    (forall s, query req !! "sortBy" = Some s ->
       (~ In s ["dueDate"; "createdAt"; "status"; "userId"; "recurring"; "priority"] ->
          k6 <> Column s) /\
       (~ In s ["dueDate"; "createdAt"; "status"] -> k3 <> Column s)).
Proof.
  exists (sort_key Part006.orderOptions
            (default "createdAt" (query req !! "sortBy"))),
         (sort_key TasksJs.orderOptions
            (default "undefined" (query req !! "sortBy"))).
  assert (H6 : Forall (fun kv : string * string => kv.2 = kv.1 /\ kv.1 <> "")
                 Part006.orderOptions)
    by (repeat constructor; done).
  assert (H3 : Forall (fun kv : string * string => kv.2 = kv.1 /\ kv.1 <> "")
                 TasksJs.orderOptions)
    by (repeat constructor; done).
  split; [apply sort_fields_block|]. split; [apply sort_fields_block|].
  split; [|split; [|split]].
  - intros s ->. simpl. split; intros Hin.
    + by apply sort_key_listed.
    + by apply sort_key_listed.
  - intros ->. split; reflexivity.
  - intros s -> Hproto. simpl. split; intros Hout.
    + by apply sort_key_fallback.
    + by apply sort_key_fallback.
  - intros s ->. simpl. split; intros Hout.
    + apply sort_key_not_verbatim; [|done]. simpl. tauto.
    + apply sort_key_not_verbatim; [|done]. simpl. tauto.
Qed.

End SortField.

(** [sortBy=priority] is sent as it is, [sortBy=bogusField] becomes
    [createdAt]; the older table does not list [userId]. *)
Lemma C5_sort_field_witness :
  let by_priority := Reference.request_of [] [] [("sortBy", "priority")] (∅ : obj) None in
  let by_bogus := Reference.request_of [] [] [("sortBy", "bogusField")] (∅ : obj) None in
  let by_user := Reference.request_of [] [] [("sortBy", "userId")] (∅ : obj) None in
  sort_fields (log (world_after (Part006.getAllTasks by_priority Reference.w0)))
    = [Column "priority"] /\
  sort_fields (log (world_after (Part006.getAllTasks by_bogus Reference.w0)))
    = [Column "createdAt"] /\
  sort_fields (log (world_after (TasksJs.getAllTasks by_user Reference.w0)))
    = [Column "createdAt"].
Proof.
  intros by_priority by_bogus by_user. split; [|split].
  - destruct (C5_sort_field by_priority Reference.w0)
      as (k6 & k3 & -> & _ & Hlisted & _).
    destruct (Hlisted "priority" eq_refl) as [Hk _].
    rewrite Hk; [reflexivity|]. simpl. tauto.
  - destruct (C5_sort_field by_bogus Reference.w0)
      as (k6 & k3 & -> & _ & _ & _ & Hother & _).
    destruct (Hother "bogusField" eq_refl) as [Hk _].
    { vm_compute. intuition discriminate. }
    rewrite Hk; [reflexivity|]. vm_compute. intuition discriminate.
  - destruct (C5_sort_field by_user Reference.w0)
      as (k6 & k3 & _ & -> & _ & _ & Hother & _).
    destruct (Hother "userId" eq_refl) as [_ Hk].
    { vm_compute. intuition discriminate. }
    rewrite Hk; [reflexivity|]. vm_compute. intuition discriminate.
Defined.

(** C5 as stated fails in three places: the handler built on
    [buildFilterConditions] (part_005) sends [sortBy=bogusField] to the
    store as it is, the handler of tasks.js orders by [createdAt] when
    asked for [userId], and in part_006 [sortBy=constructor] finds the
    inherited [Object.prototype.constructor], whose string form becomes
    the key instead of [createdAt]. *)
Lemma C5_counterexample :
  let by_bogus := Reference.request_of [] [] [("sortBy", "bogusField")] (∅ : obj) None in
  let by_user := Reference.request_of [] [] [("sortBy", "userId")] (∅ : obj) None in
  let by_member := Reference.request_of [] [] [("sortBy", "constructor")] (∅ : obj) None in
  sort_fields (log (world_after (Part005.getAllTasks by_bogus Reference.w0)))
    = [Column "bogusField"] /\
  sort_fields (log (world_after (TasksJs.getAllTasks by_user Reference.w0)))
    = [Column "createdAt"] /\
  sort_fields (log (world_after (Part006.getAllTasks by_member Reference.w0)))
    = [MemberText "constructor"].
Proof. vm_compute. repeat split; reflexivity. Qed.

Section SearchFilter.
Context `{Engine} `{Platform}.

Lemma filters_block (q : find_args) (wc : where_) (page limit : jsnum) (w : world) :
  exists rest,
    filters
      (log (world_after
         (try_catch
            (tasks ← task_findMany q ;
             totalTasks ← task_count wc ;
             mret (mkRes 200 (TaskPage tasks (on_wire page)
                               (on_wire (ceil_div totalTasks limit)) totalTasks)))
            (mret (mkRes 500 (Error "Failed to fetch tasks"))) w)))
    = filters (log w) ++ fa_where q :: rest.
Proof.
  rewrite list_block_run. unfold world_after, filters.
  destruct (selected q w); simpl; rewrite omap_app; simpl; eauto.
Qed.

(** C6 (the code at a search that is not a number).  Whenever a
    non-empty [search] is given, the [OR] list that [buildFilterConditions]
    builds, and that [getAllTasks] sends to the store, holds the clause
    [userId equals Number(search)]; for a [search] that does not parse as
    a number this is [userId equals NaN], a clause the claim says is not
    there.  The inline filter of part_006 is the same. *)
Theorem C6_userId_clause_unguarded (req : request) (w : world) (search : string) :
  query req !! "search" = Some search ->
  search <> "" ->
  Number_ search = NaN ->
  exists clauses rest,
    w_OR (Part005.buildFilterConditions (query req)) = Some clauses /\
    In (EqualsNum "userId" NaN) clauses /\
    Part006.where_of (query req) = Part005.buildFilterConditions (query req) /\
    filters (log (world_after (Part005.getAllTasks req w)))
      = filters (log w) ++ Part005.buildFilterConditions (query req) :: rest.
Proof.
  intros Hs Hne Hnan.
  destruct (filters_block
              (mkFind (Part005.buildFilterConditions (query req))
                 (Column (default "createdAt" (query req !! "sortBy")),
                  default "asc" (query req !! "order"))
                 (mul_num (pred_num (from_option Number_ (Num 1) (query req !! "page")))
                    (from_option Number_ (Num 10) (query req !! "limit")))
                 (from_option Number_ (Num 10) (query req !! "limit")))
              (Part005.buildFilterConditions (query req))
              (from_option Number_ (Num 1) (query req !! "page"))
              (from_option Number_ (Num 10) (query req !! "limit")) w)
    as [rest Hrest].
  eexists _, rest. split; [|split; [|split; [reflexivity | exact Hrest]]].
  - unfold Part005.buildFilterConditions. rewrite Hs. simpl.
    apply String.eqb_neq in Hne. rewrite Hne. simpl. reflexivity.
  - rewrite Hnan. simpl. tauto.
Qed.

End SearchFilter.

(** [search=abc]: the filter sent carries [userId equals NaN]. *)
Lemma C6_userId_clause_unguarded_witness :
  let req := Reference.request_of [] [] [("search", "abc")] (∅ : obj) None in
  filters (log (world_after (Part005.getAllTasks req Reference.w0)))
  = [mkWhere None (Some [Contains "title" "abc"; Contains "description" "abc";
                         EqualsNum "userId" NaN; Contains "recurring" "abc";
                         Contains "priority" "abc"]);
     mkWhere None (Some [Contains "title" "abc"; Contains "description" "abc";
                         EqualsNum "userId" NaN; Contains "recurring" "abc";
                         Contains "priority" "abc"])].
Proof.
  intros req.
  destruct (C6_userId_clause_unguarded req Reference.w0 "abc")
    as (clauses & rest & _ & _ & _ & Hlog).
  - reflexivity.
  - discriminate.
  - reflexivity.
  - vm_compute. reflexivity.
Defined.

(** ** Pagination *)
(** ** Numbers: exact results on integers *)


Lemma reduce_shift (p : positive) (k : nat) :
  reduce (Pos.shiftl_nat p k) k = (p, 0%nat).
Proof.
  induction k as [|k IH]; simpl.
  - by destruct p.
  - exact IH.
Qed.

Lemma shiftl_nat_Z (p : positive) (k : nat) :
  Zpos (Pos.shiftl_nat p k) = Zpos p * 2 ^ Z.of_nat k.
Proof.
  induction k as [|k IH].
  - simpl. lia.
  - rewrite Nat2Z.inj_succ, Z.pow_succ_r by lia. simpl Pos.shiftl_nat.
    rewrite Pos2Z.inj_xO, IH. lia.
Qed.

Lemma dyadic_int (neg : bool) (a k : Z) :
  0 < a -> 0 <= k -> dyadic neg (a * 2 ^ k) k = Num (signed neg a).
Proof.
  intros Ha Hk. destruct a as [|p|p]; try lia.
  assert (Hz : Zpos p * 2 ^ k = Zpos (Pos.shiftl_nat p (Z.to_nat k))).
  { rewrite shiftl_nat_Z, Z2Nat.id by lia. reflexivity. }
  rewrite Hz. unfold dyadic. by rewrite reduce_shift.
Qed.

Lemma exponent_int (a : Z) : 0 < a -> exponent a 1 = Z.log2 a.
Proof.
  intros Ha. unfold exponent. simpl Z.log2. rewrite Z.sub_0_r.
  pose proof (Z.log2_nonneg a) as Hl.
  pose proof (Z.log2_spec a Ha) as [Hlo _].
  destruct (0 <=? Z.log2 a) eqn:H0; [|lia].
  destruct (1 * 2 ^ Z.log2 a <=? a) eqn:H1; [done|lia].
Qed.

(** Integers up to [2^53] are binary64 numbers. *)
Lemma round_rat_int (neg : bool) (a : Z) :
  0 <= a <= 2 ^ 53 -> round_rat neg a 1 = Num (signed neg a).
Proof.
  intros [Ha Hb]. unfold round_rat.
  destruct (a <=? 0) eqn:H0.
  { assert (a = 0) as -> by lia. by destruct neg. }
  assert (Hpos : 0 < a) by lia.
  rewrite exponent_int by done.
  pose proof (Z.log2_nonneg a) as Hl0.
  pose proof (Z.log2_spec a Hpos) as [Hlo Hhi].
  assert (Hl : Z.log2 a <= 53).
  { destruct (Z_le_gt_dec (Z.log2 a) 53) as [?|Hgt]; [done|].
    assert (2 ^ 54 <= 2 ^ Z.log2 a) by (apply Z.pow_le_mono_r; lia). lia. }
  rewrite Z.max_l by lia.
  destruct (0 <=? Z.log2 a - 52) eqn:Hq.
  - assert (Hcase : Z.log2 a = 52 \/ Z.log2 a = 53) by lia.
    destruct Hcase as [He|He]; rewrite He in *.
    + change (52 - 52) with 0. rewrite Z.pow_0_r, !Z.mul_1_r, Z.div_1_r, Z.mod_1_r.
      change ((2 * 0 <? 1) || (2 * 0 =? 1) && Z.even a) with true. cbv iota.
      destruct (2 ^ 1024 <=? a) eqn:Hov; [|done].
      assert (2 ^ 53 < 2 ^ 1024) by (apply Z.pow_lt_mono_r; lia). lia.
    + assert (a = 2 ^ 53) as -> by lia. vm_compute. by destruct neg.
  - assert (Hk : 0 < 52 - Z.log2 a) by lia.
    rewrite Z.div_1_r, Z.mod_1_r.
    change ((2 * 0 <? 1) || (2 * 0 =? 1) && Z.even (a * 2 ^ (- (Z.log2 a - 52)))) with true.
    cbv iota.
    replace (- (Z.log2 a - 52)) with (52 - Z.log2 a) by lia.
    apply dyadic_int; lia.
Qed.

Lemma pred_num_int (p : Z) :
  Z.abs (p - 1) <= 2 ^ 53 -> pred_num (Num p) = Num (p - 1).
Proof.
  intros Hp. unfold pred_num, parts. rewrite Z.pow_0_r.
  assert (Hs : signed (p <? 0) (Z.abs p) = p).
  { unfold signed. destruct (p <? 0) eqn:H0; lia. }
  rewrite Hs, round_rat_int by lia.
  unfold signed. destruct (p - 1 <? 0) eqn:H0; f_equal; lia.
Qed.

Lemma mul_num_int (a b : Z) :
  Z.abs (a * b) <= 2 ^ 53 -> mul_num (Num a) (Num b) = Num (a * b).
Proof.
  intros Hab. unfold mul_num, parts. rewrite Z.add_0_r, Z.pow_0_r.
  rewrite round_rat_int by (rewrite <- Z.abs_mul; lia).
  f_equal. unfold signed.
  destruct (a <? 0) eqn:Ha, (b <? 0) eqn:Hb; simpl; nia.
Qed.

Lemma pow2_pos (k : Z) : 0 <= k -> 0 < 2 ^ k.
Proof. intros. apply Z.pow_pos_nonneg; lia. Qed.

(** The exponent is at most the binary logarithm of the quotient. *)
Lemma exponent_lower (a d : Z) :
  0 < a -> 0 < d ->
  (0 <= exponent a d -> d * 2 ^ exponent a d <= a) /\
  (exponent a d < 0 -> d <= a * 2 ^ (- exponent a d)).
Proof.
  intros Ha Hd. unfold exponent.
  pose proof (Z.log2_spec a Ha) as [Hla Hla'].
  pose proof (Z.log2_spec d Hd) as [Hld Hld'].
  pose proof (Z.log2_nonneg a) as Ha0. pose proof (Z.log2_nonneg d) as Hd0.
  set (la := Z.log2 a) in *. set (ld := Z.log2 d) in *.
  rewrite <- Z.add_1_r in Hla', Hld'.
  destruct (0 <=? la - ld) eqn:He0.
  - destruct (d * 2 ^ (la - ld) <=? a) eqn:Ht.
    + split; [lia|lia].
    + split.
      * intros He. assert (Hsplit : 2 ^ la = 2 ^ (ld + 1) * 2 ^ (la - ld - 1)).
        { rewrite <- Z.pow_add_r by lia. f_equal. lia. }
        pose proof (pow2_pos (la - ld - 1) He) as Hp.
        assert (d * 2 ^ (la - ld - 1) < 2 ^ (ld + 1) * 2 ^ (la - ld - 1))
          by (apply Z.mul_lt_mono_pos_r; lia).
        lia.
      * intros He. assert (2 ^ la = 2 ^ ld) as Heq by (f_equal; lia).
        replace (- (la - ld - 1)) with 1 by lia.
        rewrite Z.pow_add_r, Z.pow_1_r in Hld' by lia. lia.
  - destruct (d <=? a * 2 ^ (- (la - ld))) eqn:Ht.
    + split; [lia|lia].
    + split; [lia|]. intros _.
      replace (- (la - ld - 1)) with (ld + 1 - la) by lia.
      assert (Hsplit : 2 ^ (ld + 1) = 2 ^ la * 2 ^ (ld + 1 - la)).
      { rewrite <- Z.pow_add_r by lia. f_equal. lia. }
      pose proof (pow2_pos (ld + 1 - la) ltac:(lia)) as Hp.
      assert (2 ^ la * 2 ^ (ld + 1 - la) <= a * 2 ^ (ld + 1 - la))
        by (apply Z.mul_le_mono_nonneg_r; lia).
      lia.
Qed.

Lemma exponent_bounds (a d : Z) :
  0 < a < 2 ^ 53 -> 0 < d < 2 ^ 53 -> -53 <= exponent a d <= 52.
Proof.
  intros [Ha Ha'] [Hd Hd']. unfold exponent.
  assert (Hla : Z.log2 a < 53) by (apply Z.log2_lt_pow2; lia).
  assert (Hld : Z.log2 d < 53) by (apply Z.log2_lt_pow2; lia).
  pose proof (Z.log2_nonneg a). pose proof (Z.log2_nonneg d).
  destruct (if 0 <=? _ then _ else _); lia.
Qed.

(** [Math.ceil] of a dyadic number. *)
Lemma ceil_dyadic (m k : Z) :
  0 < m -> 0 <= k -> ceil_num (dyadic false m k) = Num (- ((- m) / 2 ^ k)).
Proof.
  intros Hm Hk. destruct m as [|p|p]; try lia.
  unfold dyadic.
  assert (Hred : forall (n : nat) (q : positive),
    let (q', n') := reduce q n in
    Zpos q * 2 ^ Z.of_nat n' = Zpos q' * 2 ^ Z.of_nat n /\
    (n' <> 0%nat -> Z.odd (Zpos q') = true)).
  { induction n as [|n IH]; intros q.
    - destruct q; simpl; (split; [lia|done]).
    - destruct q as [q|q|]; cbn [reduce].
      + split; [lia|done].
      + specialize (IH q). destruct (reduce q n) as [q' n'].
        destruct IH as [IH1 IH2]. split; [|done].
        rewrite Nat2Z.inj_succ, Z.pow_succ_r by lia.
        rewrite Pos2Z.inj_xO. lia.
      + split; [lia|done]. }
  specialize (Hred (Z.to_nat k) p).
  destruct (reduce p (Z.to_nat k)) as [p' k'].
  destruct Hred as [Hval Hodd]. rewrite Z2Nat.id in Hval by lia.
  assert (H2k : 0 < 2 ^ k) by (by apply pow2_pos).
  destruct k' as [|k'].
  - simpl in Hval. rewrite Z.mul_1_r in Hval. rewrite Hval.
    cbn [ceil_num signed]. f_equal.
    rewrite <- Z.mul_opp_l, Z.div_mul by lia. lia.
  - cbn [ceil_num signed]. f_equal.
    assert (Hjz : Zpos (Pos.of_nat (S k')) = Z.of_nat (S k'))
      by (rewrite <- positive_nat_Z, Nat2Pos.id by done; reflexivity).
    rewrite Hjz. clear Hjz.
    set (j := Z.of_nat (S k')) in *.
    assert (Hj : 0 <= j) by lia.
    assert (H2j : 0 < 2 ^ j) by (by apply pow2_pos).
    (* both are the ceiling of the same rational *)
    assert (Hc : forall x y c, 0 < y -> (c - 1) * y < x <= c * y -> - ((- x) / y) = c).
    { intros x y c Hy Hx.
      assert ((- x) / y = - c) as ->; [|lia].
      symmetry. apply Z.div_unique with (r := c * y - x); lia. }
    set (c := - ((- Zpos p) / 2 ^ k)).
    assert (Hcs : (c - 1) * 2 ^ k < Zpos p <= c * 2 ^ k).
    { unfold c. pose proof (Z.div_mod (- Zpos p) (2 ^ k) ltac:(lia)) as Hdm.
      pose proof (Z.mod_pos_bound (- Zpos p) (2 ^ k) H2k). nia. }
    apply Hc; [done|]. nia.
Qed.

Lemma ceil_char (x y c : Z) :
  0 < y -> (c - 1) * y < x <= c * y -> - ((- x) / y) = c.
Proof.
  intros Hy Hx. assert ((- x) / y = - c) as ->; [|lia].
  symmetry. apply Z.div_unique with (r := c * y - x); lia.
Qed.

(** For a count below [2^53] and a positive integer limit below [2^53],
    [Math.ceil(t / l)] is the ceiling of the exact quotient: the rounding
    of the division never reaches the integer below. *)
Lemma ceil_div_int (t l : Z) :
  0 <= t < 2 ^ 53 -> 0 < l < 2 ^ 53 ->
  ceil_div t (Num l) = Num ((t + l - 1) / l).
Proof.
  intros [Ht Ht'] [Hl Hl'].
  unfold ceil_div, div_num.
  assert (Hz : is_zero (Num l) = false) by (destruct l; done || lia).
  rewrite Hz. cbn [parts].
  replace (t <? 0) with false by lia. replace (l <? 0) with false by lia.
  rewrite !Z.abs_eq, Z.pow_0_r, !Z.mul_1_r by lia. cbn [xorb].
  destruct (Z.eq_dec t 0) as [->|Ht0].
  { cbn [round_rat Z.leb Z.compare ceil_num]. f_equal.
    symmetry. apply Z.div_small. lia. }
  assert (Htp : 0 < t) by lia.
  unfold round_rat. replace (t <=? 0) with false by lia.
  pose proof (exponent_bounds t l ltac:(lia) ltac:(lia)) as [He He'].
  pose proof (exponent_lower t l Htp Hl) as [Hlo Hlo'].
  set (e := exponent t l) in *.
  rewrite Z.max_l by lia.
  pose proof (Z.div_mod t l ltac:(lia)) as Hdm.
  pose proof (Z.mod_pos_bound t l Hl) as Hrho.
  set (n := t / l) in *. set (rho := t mod l) in *.
  assert (Hn : 0 <= n) by (apply Z.div_pos; lia).
  assert (Hc : (t + l - 1) / l = if rho =? 0 then n else n + 1).
  { destruct (rho =? 0) eqn:Hr0.
    - symmetry. apply Z.div_unique with (r := l - 1); lia.
    - symmetry. apply Z.div_unique with (r := rho - 1); lia. }
  rewrite Hc. clear Hc.
  destruct (0 <=? e - 52) eqn:Hq.
  - (* the quotient is at least 2^52, so the limit is 1 *)
    assert (e = 52) as Heq by lia. rewrite Heq in *.
    specialize (Hlo ltac:(lia)).
    assert (l = 1).
    { assert (l * 2 ^ 52 < 2 * 2 ^ 52) by (change (2 * 2 ^ 52) with (2 ^ 53); lia).
      assert (l < 2) by (apply Z.mul_lt_mono_pos_r with (p := 2 ^ 52); lia). lia. }
    subst l. change (52 - 52) with 0. rewrite Z.pow_0_r, !Z.mul_1_r.
    fold n rho. assert (rho = 0) as -> by lia. assert (n = t) as -> by lia.
    change ((2 * 0 <? 1) || (2 * 0 =? 1) && Z.even t) with true. cbv iota.
    replace (2 ^ 1024 <=? t) with false; [done|].
    symmetry. apply Z.leb_gt.
    assert (2 ^ 53 < 2 ^ 1024) by (apply Z.pow_lt_mono_r; lia). lia.
  - set (k := 52 - e) in *.
    replace (- (e - 52)) with k by (unfold k; lia).
    assert (Hk : 0 < k) by (unfold k; lia).
    assert (H2k : 0 < 2 ^ k) by (apply pow2_pos; lia).
    (* the limit is below 2^(k+1) *)
    assert (Hlk : l < 2 * 2 ^ k).
    { destruct (Z_le_gt_dec 0 e) as [Hpos|Hneg].
      - specialize (Hlo Hpos).
        assert (H53 : 2 ^ 53 = 2 * 2 ^ k * 2 ^ e).
        { rewrite <- (Z.pow_1_r 2) at 2. rewrite <- !Z.pow_add_r by lia.
          f_equal. unfold k. lia. }
        assert (0 < 2 ^ e) by (apply pow2_pos; lia).
        apply Z.mul_lt_mono_pos_r with (p := 2 ^ e); lia.
      - specialize (Hlo' ltac:(lia)).
        assert (H53 : 2 * 2 ^ k = 2 ^ 53 * 2 ^ (- e)).
        { rewrite <- (Z.pow_1_r 2) at 1. rewrite <- !Z.pow_add_r by lia.
          f_equal. unfold k. lia. }
        assert (0 < 2 ^ (- e)) by (apply pow2_pos; lia).
        assert (t * 2 ^ (- e) < 2 ^ 53 * 2 ^ (- e))
          by (apply Z.mul_lt_mono_pos_r; lia).
        lia. }
    pose proof (Z.div_mod (t * 2 ^ k) l ltac:(lia)) as Hdm2.
    pose proof (Z.mod_pos_bound (t * 2 ^ k) l Hl) as Hr.
    set (m := t * 2 ^ k / l) in *. set (r := (t * 2 ^ k) mod l) in *.
    assert (Hm_lo : n * 2 ^ k <= m).
    { apply Z.div_le_lower_bound; [lia|]. nia. }
    assert (Hm_hi : m < (n + 1) * 2 ^ k).
    { apply Z.div_lt_upper_bound; [lia|]. nia. }
    set (m' := if (2 * r <? l) || (2 * r =? l) && Z.even m then m else m + 1).
    assert (Hm' : m <= m' <= m + 1) by (unfold m'; destruct (_ || _); lia).
    destruct (rho =? 0) eqn:Hr0.
    + assert (rho = 0) as Hrho0 by lia.
      assert (Hmn : m = n * 2 ^ k).
      { unfold m. replace (t * 2 ^ k) with (n * 2 ^ k * l) by nia.
        apply Z.div_mul. lia. }
      assert (r = 0) by nia.
      assert (m' = m) as -> by (unfold m'; replace (2 * r <? l) with true by lia; done).
      assert (0 < n) by nia.
      rewrite ceil_dyadic by nia.
      f_equal. apply ceil_char; nia.
    + assert (0 < rho) by lia.
      assert (n * 2 ^ k < m').
      { destruct (Z_lt_le_dec (n * 2 ^ k) m) as [?|Hle]; [lia|].
        assert (Hmn : m = n * 2 ^ k) by lia.
        assert (Hrr : r = rho * 2 ^ k) by nia.
        assert (l < 2 * r) by nia.
        unfold m'. replace (2 * r <? l) with false by lia.
        replace (2 * r =? l) with false by lia. cbn [orb andb]. lia. }
      rewrite ceil_dyadic by nia.
      f_equal. apply ceil_char; nia.
Qed.

(** Beyond the exact range the results are rounded to the nearest number
    there is, ties to the even one. *)
Lemma pred_num_rounds :
  pred_num (Num 9007199254740994) = Num 9007199254740992 /\
  mul_num (Num 9007199254740991) (Num 3) = Num 27021597764222972 /\
  div_num (Num 1) (Num 10) = Frac 3602879701896397 55 /\
  ceil_div 12 (Frac 5 1) = Num 5.
Proof. vm_compute. repeat split; reflexivity. Qed.

(** ** Pages *)

Section Pagination.
Context `{Engine} `{Platform}.

Lemma pages_block (q : find_args) (wc : where_) (page limit : jsnum) (w : world) :
  pages
    (log (world_after
       (try_catch
          (tasks ← task_findMany q ;
           totalTasks ← task_count wc ;
           mret (mkRes 200 (TaskPage tasks (on_wire page)
                               (on_wire (ceil_div totalTasks limit)) totalTasks)))
          (mret (mkRes 500 (Error "Failed to fetch tasks"))) w)))
  = pages (log w) ++ [(fa_skip q, fa_take q)].
Proof.
  rewrite list_block_run. unfold world_after, pages.
  destruct (selected q w); simpl; by rewrite omap_app.
Qed.

Lemma page_block (q : find_args) (wc : where_) (page limit : jsnum) (w : world)
    (tasks : list obj) (pg tp : jsval) (total : Z) :
  outcome_of
    (try_catch
       (tasks ← task_findMany q ;
        totalTasks ← task_count wc ;
        mret (mkRes 200 (TaskPage tasks (on_wire page)
                               (on_wire (ceil_div totalTasks limit)) totalTasks)))
       (mret (mkRes 500 (Error "Failed to fetch tasks"))) w)
    = Ok (mkRes 200 (TaskPage tasks pg tp total)) ->
  selected q w = Some tasks /\ counted wc w = Some total /\
  pg = on_wire page /\ tp = on_wire (ceil_div total limit) /\
  filters
    (log (world_after
       (try_catch
          (tasks ← task_findMany q ;
           totalTasks ← task_count wc ;
           mret (mkRes 200 (TaskPage tasks (on_wire page)
                               (on_wire (ceil_div totalTasks limit)) totalTasks)))
          (mret (mkRes 500 (Error "Failed to fetch tasks"))) w)))
    = filters (log w) ++ [fa_where q; wc].
Proof.
  rewrite list_block_run. unfold outcome_of, world_after, filters.
  destruct (selected q w) as [l|]; simpl; [|discriminate].
  destruct (counted wc w) as [n|]; simpl; [|discriminate].
  intros [= <- <- <- <-]. rewrite omap_app. done.
Qed.

Lemma counted_bounds (wc : where_) (w : world) (total : Z) :
  counted wc w = Some total -> 0 <= total.
Proof.
  unfold counted. destruct (filter_sem wc); [|discriminate].
  intros [= <-]. lia.
Qed.

(** C7 (amended).  With [page] and [limit] the numbers that the query
    parameters read as (1 and 10 when absent), the list query that each
    of the three handlers sends to the store has
    [skip = (page - 1) * limit], with no clamping of the page, and
    [take = limit].  On integers within the exact range of the numbers
    this is the integer [(p - 1) * l], which for [p >= 1] is
    [(max(p, 1) - 1) * l].  When the handler of part_006 or of part_005
    answers 200, [totalTasks] is the number of rows matching the very
    filter of the list query, [page] is the page number, and
    [totalPages] is [Math.ceil(totalTasks / limit)], each as it is
    written in JSON, where a number that is not finite is [null]; for an
    integer [limit > 0] that is [(totalTasks + limit - 1) / limit]. *)
Theorem C7_pagination (req : request) (w : world) (page limit : jsnum) :
  from_option Number_ (Num 1) (query req !! "page") = page ->
  from_option Number_ (Num 10) (query req !! "limit") = limit ->
  (query req !! "page" = None -> page = Num 1) /\
  (query req !! "limit" = None -> limit = Num 10) /\
  pages (log (world_after (Part006.getAllTasks req w)))
    = pages (log w) ++ [(mul_num (pred_num page) limit, limit)] /\
  pages (log (world_after (Part005.getAllTasks req w)))
    = pages (log w) ++ [(mul_num (pred_num page) limit, limit)] /\
  pages (log (world_after (TasksJs.getAllTasks req w)))
    = pages (log w) ++ [(mul_num (pred_num page) limit, limit)] /\
  (forall p l, page = Num p -> limit = Num l ->
     Z.abs (p - 1) <= 2 ^ 53 -> Z.abs ((p - 1) * l) <= 2 ^ 53 ->
     mul_num (pred_num page) limit = Num ((p - 1) * l) /\
     (1 <= p -> mul_num (pred_num page) limit = Num ((Z.max p 1 - 1) * l))) /\
  (forall tasks pg tp total,
     outcome_of (Part006.getAllTasks req w)
       = Ok (mkRes 200 (TaskPage tasks pg tp total)) ->
     filters (log (world_after (Part006.getAllTasks req w)))
       = filters (log w)
         ++ [Part006.where_of (query req); Part006.where_of (query req)] /\
     counted (Part006.where_of (query req)) w = Some total /\
     pg = on_wire page /\ tp = on_wire (ceil_div total limit) /\
     (forall l, limit = Num l -> 0 < l < 2 ^ 53 -> total < 2 ^ 53 ->
        tp = JNumber (Num ((total + l - 1) / l)))) /\
  (forall tasks pg tp total,
     outcome_of (Part005.getAllTasks req w)
       = Ok (mkRes 200 (TaskPage tasks pg tp total)) ->
     filters (log (world_after (Part005.getAllTasks req w)))
       = filters (log w)
         ++ [Part005.buildFilterConditions (query req);
             Part005.buildFilterConditions (query req)] /\
     counted (Part005.buildFilterConditions (query req)) w = Some total /\
     pg = on_wire page /\ tp = on_wire (ceil_div total limit) /\
     (forall l, limit = Num l -> 0 < l < 2 ^ 53 -> total < 2 ^ 53 ->
        tp = JNumber (Num ((total + l - 1) / l)))).
Proof.
  intros Hp Hl.
  split; [intros Hnone; by rewrite Hnone in Hp|].
  split; [intros Hnone; by rewrite Hnone in Hl|].
  unfold Part006.getAllTasks, Part005.getAllTasks, TasksJs.getAllTasks. cbv zeta.
  rewrite Hp, Hl, !pages_block. cbn [fa_skip fa_take].
  split; [done|]. split; [done|]. split; [done|].
  split.
  { intros p l -> -> Hp1 Hpl.
    assert (Hskip : mul_num (pred_num (Num p)) (Num l) = Num ((p - 1) * l))
      by (by rewrite pred_num_int, mul_num_int).
    split; [done|]. intros Hge. rewrite Hskip. do 2 f_equal. lia. }
  split.
  - intros tasks pg tp total Hok. apply page_block in Hok.
    destruct Hok as (_ & Hcount & -> & -> & Hlog). cbn [fa_where] in Hlog.
    split; [done|]. split; [done|]. split; [done|]. split; [done|].
    intros l -> Hpos Htotal. apply counted_bounds in Hcount.
    by rewrite ceil_div_int by lia.
  - intros tasks pg tp total Hok. apply page_block in Hok.
    destruct Hok as (_ & Hcount & -> & -> & Hlog). cbn [fa_where] in Hlog.
    split; [done|]. split; [done|]. split; [done|]. split; [done|].
    intros l -> Hpos Htotal. apply counted_bounds in Hcount.
    by rewrite ceil_div_int by lia.
Qed.

End Pagination.

(** [page=2&limit=5&status=pending] over twelve pending tasks (and one
    done): skip 5, take 5, twelve in total, three pages. *)
Lemma C7_pagination_witness :
  let req :=
    Reference.request_of [] []
      [("page", "2"); ("limit", "5"); ("status", "pending")] (∅ : obj) None in
  pages (log (world_after (Part005.getAllTasks req Reference.w12)))
    = [(Num 5, Num 5)] /\
  (forall tasks pg tp total,
     outcome_of (Part005.getAllTasks req Reference.w12)
       = Ok (mkRes 200 (TaskPage tasks pg tp total)) ->
     total = 12 /\ pg = JNumber (Num 2) /\ tp = JNumber (Num 3)) /\
  exists tasks,
    outcome_of (Part005.getAllTasks req Reference.w12)
      = Ok (mkRes 200 (TaskPage tasks (JNumber (Num 2)) (JNumber (Num 3)) 12)) /\
    length tasks = 5%nat.
Proof.
  intros req.
  destruct (C7_pagination req Reference.w12 (Num 2) (Num 5))
    as (_ & _ & _ & Hpages & _ & Hskip & _ & Hpage);
    [vm_compute; reflexivity | vm_compute; reflexivity |].
  split; [|split].
  - rewrite Hpages. destruct (Hskip 2 5) as [-> _]; try reflexivity.
    all: vm_compute; discriminate.
  - intros tasks pg tp total Hout.
    destruct (Hpage tasks pg tp total Hout) as (_ & Hcount & -> & _ & Hceil).
    vm_compute in Hcount. injection Hcount as <-.
    split; [reflexivity|]. split; [reflexivity|].
    apply (Hceil 5); [reflexivity | split; reflexivity | reflexivity].
  - vm_compute. eexists. split; reflexivity.
Defined.

(** C7 as stated fails at [page=0]: the handlers send [skip = -10],
    where [(max(0, 1) - 1) * 10] is [0].  It also fails in tasks.js for
    a filtered list: with [status=done] the list query filters on the
    status, the count does not, and over twelve pending tasks and one
    done [totalTasks] is 13.  And with [limit=0] the quotient is not
    finite, and the [totalPages] that is reported is [null]. *)
Lemma C7_counterexample :
  let req :=
    Reference.request_of [] [] [("page", "0"); ("limit", "10")] (∅ : obj) None in
  let only_done := Reference.request_of [] [] [("status", "done")] (∅ : obj) None in
  let none := Reference.request_of [] [] [("limit", "0")] (∅ : obj) None in
  pages (log (world_after (Part006.getAllTasks req Reference.w0)))
    = [(Num (-10), Num 10)] /\
  pages (log (world_after (Part005.getAllTasks req Reference.w0)))
    = [(Num (-10), Num 10)] /\
  (Z.max 0 1 - 1) * 10 = 0 /\
  filters (log (world_after (TasksJs.getAllTasks only_done Reference.w12)))
    = [mkWhere (Some "done") None; mkWhere None None] /\
  (exists tasks,
    outcome_of (TasksJs.getAllTasks only_done Reference.w12)
      = Ok (mkRes 200 (TaskPage tasks (JNumber (Num 1)) (JNumber (Num 2)) 13)) /\
    length tasks = 1%nat) /\
  outcome_of (Part005.getAllTasks none Reference.w12)
    = Ok (mkRes 200 (TaskPage [] (JNumber (Num 1)) JNull 13)).
Proof.
  vm_compute. repeat split; try reflexivity.
  eexists. split; reflexivity.
Qed.

(** ** Token round trip *)

Section Tokens.
Variable secret : string.
Variable sign_with : string -> TokenCodec.payload -> string.

(** C8.  A token issued for [(u, r)] at time [t0] verifies to exactly the
    claims [{userId: u, role: r}] at every time before [t0 + 3600]
    seconds, and fails with [Expired] at every time from [t0 + 3600] on. *)
Theorem C8_token_round_trip (t0 now : Z) (u r : jsval) :
  (now < t0 + 3600 ->
     TokenCodec.verify secret sign_with now (TokenCodec.issue secret sign_with t0 u r)
       = inl (TokenCodec.mkClaims u r)) /\
  (t0 + 3600 <= now ->
     TokenCodec.verify secret sign_with now (TokenCodec.issue secret sign_with t0 u r)
       = inr TokenCodec.Expired).
Proof.
  unfold TokenCodec.verify, TokenCodec.issue, TokenCodec.expiresIn. simpl.
  rewrite String.eqb_refl. simpl. split; intros Ht.
  - destruct (Z.leb_spec (t0 + 3600) now); [lia | reflexivity].
  - destruct (Z.leb_spec (t0 + 3600) now); [reflexivity | lia].
Qed.

End Tokens.

(** Issued at second 1000 for user 2 with role USER: good at 4599,
    expired at 4600. *)
Lemma C8_token_round_trip_witness :
  let mac := fun (key : string) (p : TokenCodec.payload) => key in
  let t := TokenCodec.issue "s3cret" mac 1000 (JNumber (Num 2)) (JStr "USER") in
  TokenCodec.verify "s3cret" mac 4599 t
    = inl (TokenCodec.mkClaims (JNumber (Num 2)) (JStr "USER")) /\
  TokenCodec.verify "s3cret" mac 4600 t = inr TokenCodec.Expired.
Proof.
  intros mac t. split.
  - apply (C8_token_round_trip "s3cret" mac 1000 4599). lia.
  - apply (C8_token_round_trip "s3cret" mac 1000 4600). lia.
Defined.

(** ** Partial update *)

Section PartialUpdate.
Context `{Engine} `{Platform}.

Lemma get_set_value (data : obj) (k : string) :
  get (set_value <$> data) k = set_value (get data k).
Proof. unfold get. rewrite lookup_fmap. by destruct (data !! k). Qed.

Lemma get_defined (o : obj) (k : string) :
  get o k <> JUndef -> Some (get o k) = o !! k.
Proof. unfold get. destruct (o !! k); simpl; congruence. Qed.

Lemma updated_absent (t : Z) (data row : obj) (k : string) :
  data !! k = None -> k <> "updatedAt" -> updated t data row !! k = row !! k.
Proof.
  intros Hk Hne. unfold updated.
  rewrite merge_absent by (by rewrite lookup_fmap, Hk).
  by rewrite lookup_insert_ne.
Qed.

(** One call of [prisma.task.update], with data that do not address the
    relation [user], on a row that exists. *)
Lemma task_update_run (z : Z) (data e : obj) (w : world) :
  get data "user" = JUndef ->
  tasks (store w) !! z = Some e ->
  store (task_update (Num z) data w).2 = store w \/
  exists z',
    task_update (Num z) data w
      = (Ok (updated (stamp w) data e),
         mkWorld (mkDb (users (store w))
                       (<[z' := updated (stamp w) data e]> (delete z (tasks (store w))))
                       (user_seq (store w)))
                 (log w ++ [TaskUpdate (Num z) data])) /\
    (get data "id" = JUndef -> z' = z).
Proof.
  intros Hu He. unfold task_update, link_user, clock. rewrite Hu.
  unfold mbind, M_bind, emit, peek, modify, throw, mret, M_ret. cbn [fst snd store log].
  destruct (as_id (Num z)) as [z0|] eqn:Hz; [|by left].
  apply as_id_Some in Hz as [= <-]. cbn [fst snd store log]. rewrite He.
  destruct (valid_task_data data); cbn [negb fst snd store log]; [|by left].
  rewrite get_set_value.
  destruct (set_value (get data "id")) as [| |b|n|s|t|l|l] eqn:Hid;
    cbn [fst snd store log]; try by left.
  - right. exists z. by rewrite insert_delete_eq.
  - destruct (as_id n) as [z'|]; cbn [fst snd store log]; [|by left].
    case_bool_decide; cbn [fst snd store log]; [by left|].
    right. exists z'. split; [done|]. intros Hundef. by rewrite Hundef in Hid.
Qed.

Lemma updateTask_005_keeps (req : request) (w : world) (k : string) :
  body req !! k = None -> k <> "updatedAt" ->
  body req !! "user" = None ->
  keeps_column k Part005.updateTask (Number_opt (params req !! "id")) req w.
Proof.
  intros Hk Hne Huser.
  unfold keeps_column, Part005.updateTask, world_after, outcome_of.
  unfold task_findUnique. run.
  destruct (as_id (Number_opt (params req !! "id"))) as [z|] eqn:Hz; [|by left].
  rewrite (as_id_Some _ _ Hz). simpl.
  destruct (tasks (store w) !! z) as [e|] eqn:He; simpl; [|by left].
  assert (Hu : get (body req) "user" = JUndef) by (unfold get; by rewrite Huser).
  destruct (task_update_run z (body req) e
              (mkWorld (store w) (log w ++ [TaskFindUnique (Num z)])) Hu He)
    as [Hsame|(z' & Hrun & Hid)].
  - left. simpl in Hsame. by destruct (task_update _ _ _) as [[?|?] ?].
  - right. rewrite Hrun. simpl. eexists z, z', e, _.
    repeat (split; [done|]). split.
    + intros Hnone. apply Hid. unfold get. by rewrite Hnone.
    + by apply updated_absent.
Qed.

Lemma updateTask_006_keeps (req : request) (w : world) (k : string) :
  body req !! k = None -> k <> "updatedAt" ->
  scalar_column k (tasks (store w)) ->
  keeps_column k Part006.updateTask (Number_opt (params req !! "id")) req w.
Proof.
  intros Hk Hne Hcol.
  unfold keeps_column, Part006.updateTask, world_after, outcome_of.
  unfold task_findUnique. run.
  destruct (as_id (Number_opt (params req !! "id"))) as [z|] eqn:Hz; [|by left].
  rewrite (as_id_Some _ _ Hz). simpl.
  destruct (tasks (store w) !! z) as [e|] eqn:He; simpl; [|by left].
  match goal with |- context [task_update (Num z) ?d ?w0] =>
    destruct (task_update_run z d e w0) as [Hsame|(z' & Hrun & Hid)];
    [by (unfold get; rewrite !lookup_insert_ne, lookup_empty) | exact He | |
     rewrite Hrun]
  end.
  - left. simpl in Hsame. by destruct (task_update _ _ _) as [[?|?] ?].
  - right. simpl. eexists z, z', e, _. repeat (split; [done|]). split.
    + intros _. apply Hid. unfold get.
      by rewrite !lookup_insert_ne, lookup_empty.
    + assert (Hb : get (body req) k = JUndef) by (unfold get; by rewrite Hk).
      assert (Hs : set_value (get e k) = get e k).
      { specialize (Hcol z e He). by destruct (get e k). }
      unfold updated. rewrite merge_lookup, lookup_fmap.
      rewrite (lookup_insert_ne e "updatedAt" k) by done.
      rewrite !lookup_insert, lookup_empty.
      unfold Part006.dueDate_or, or_else.
      repeat case_decide; subst; rewrite ?Hb; simpl; rewrite ?Hs; try done.
      all: case_decide as Hd; [done|].
      all: by apply get_defined.
Qed.

(** C9 (as amended).  A task update changes no column other than
    [updatedAt] that the request body does not carry: either the store
    is left as it was, or the task found under the route id is replaced
    by a row with the same value in every such column absent from the
    body.  This holds for the handler of part_006 over a table whose
    columns hold scalar values, and for the handler of part_005, whose
    update data are the body itself, when the body does not address the
    relation [user]. *)
Theorem C9_partial_update (req : request) (w : world) (k : string) :
  body req !! k = None -> k <> "updatedAt" ->
  (scalar_column k (tasks (store w)) ->
   keeps_column k Part006.updateTask (Number_opt (params req !! "id")) req w) /\
  (body req !! "user" = None ->
   keeps_column k Part005.updateTask (Number_opt (params req !! "id")) req w).
Proof.
  intros Hk Hne. split.
  - by apply updateTask_006_keeps.
  - by apply updateTask_005_keeps.
Qed.

End PartialUpdate.

Lemma scalar_column_check (k : string) (t : gmap Z obj) :
  forallb (fun row => scalar (get row k)) (rows_of t) = true ->
  scalar_column k t.
Proof.
  intros Hall z row Hrow. rewrite forallb_forall in Hall. apply Hall.
  apply list_elem_of_In. unfold rows_of. apply list_elem_of_fmap.
  exists (z, row). split; [done|]. by apply elem_of_map_to_list.
Qed.

(** [PUT /api/tasks/1] with the body [{status: "done"}]: title,
    description and priority of task 1 are kept by both handlers, and
    the stored row is the old one with the new status and the time of
    the update. *)
Lemma C9_partial_update_witness :
  let req :=
    Reference.request_of [] [("id", "1")] [] {["status" := JStr "done"]} None in
  (keeps_column "title" Part006.updateTask (Num 1) req Reference.w0 /\
   keeps_column "title" Part005.updateTask (Num 1) req Reference.w0) /\
  (keeps_column "description" Part006.updateTask (Num 1) req Reference.w0 /\
   keeps_column "description" Part005.updateTask (Num 1) req Reference.w0) /\
  (keeps_column "priority" Part006.updateTask (Num 1) req Reference.w0 /\
   keeps_column "priority" Part005.updateTask (Num 1) req Reference.w0) /\
  tasks (store (world_after (Part006.updateTask req Reference.w0))) !! 1
    = Some (<["updatedAt" := JDate (Some 1700000000001)]>
              (Reference.task_row 1 "T1" "done" 2)).
Proof.
  intros req.
  assert (Hid : Number_opt (params req !! "id") = Num 1) by (vm_compute; reflexivity).
  rewrite <- Hid. split; [|split; [|split]]; [| | |vm_compute; reflexivity].
  - destruct (C9_partial_update req Reference.w0 "title") as [H6 H5];
      [vm_compute; reflexivity | discriminate |].
    split; [apply H6, scalar_column_check | apply H5]; vm_compute; reflexivity.
  - destruct (C9_partial_update req Reference.w0 "description") as [H6 H5];
      [vm_compute; reflexivity | discriminate |].
    split; [apply H6, scalar_column_check | apply H5]; vm_compute; reflexivity.
  - destruct (C9_partial_update req Reference.w0 "priority") as [H6 H5];
      [vm_compute; reflexivity | discriminate |].
    split; [apply H6, scalar_column_check | apply H5]; vm_compute; reflexivity.
Defined.

(** C9 as stated fails on the column [updatedAt]: the body
    [{status: "done"}] does not carry it, and both handlers store task 1
    with the time of the update in it.  In part_005 it also fails on
    [userId]: the body [{user: {connect: {id: 1}}}] has no [userId], and
    task 1, which was user 2's, is stored as user 1's. *)
Lemma C9_partial_update_counterexample :
  let req :=
    Reference.request_of [] [("id", "1")] [] {["status" := JStr "done"]} None in
  let link :=
    Reference.request_of [] [("id", "1")] []
      {["user" := JObj [("connect", JObj [("id", JNumber (Num 1))])]]} None in
  body req !! "updatedAt" = None /\
  (Reference.some_tasks !! 1) ≫= (.!! "updatedAt") = Some (JDate (Some 1690000000000)) /\
  (tasks (store (world_after (Part006.updateTask req Reference.w0))) !! 1)
    ≫= (.!! "updatedAt") = Some (JDate (Some 1700000000001)) /\
  (tasks (store (world_after (Part005.updateTask req Reference.w0))) !! 1)
    ≫= (.!! "updatedAt") = Some (JDate (Some 1700000000001)) /\
  body link !! "userId" = None /\
  (Reference.some_tasks !! 1) ≫= (.!! "userId") = Some (JNumber (Num 2)) /\
  (tasks (store (world_after (Part005.updateTask link Reference.w0))) !! 1)
    ≫= (.!! "userId") = Some (JNumber (Num 1)).
Proof. vm_compute. repeat split; reflexivity. Qed.
(** * Further properties *)

Lemma merge_singleton (k : string) (v : jsval) (row : obj) :
  v <> JUndef -> merge {[k := v]} row = <[k := v]> row.
Proof.
  intros Hv. apply map_eq. intros j. rewrite merge_lookup.
  destruct (decide (k = j)) as [->|Hne].
  - rewrite lookup_singleton_eq, lookup_insert_eq. by case_decide.
  - by rewrite lookup_singleton_ne, lookup_insert_ne.
Qed.

Section TaskWrites.
Context `{Engine} `{Platform} `{Host} `{TaskTable}.

(** One call of [prisma.task.update] whose data carries neither an id
    nor a write on the relation [user]. *)
Lemma task_update_plain (z : Z) (data e : obj) (w : world) :
  as_id (Num z) = Some z ->
  tasks (store w) !! z = Some e ->
  get data "id" = JUndef ->
  get data "user" = JUndef ->
  task_update (Num z) data w =
    if valid_task_data data
    then (Ok (updated (stamp w) data e),
          mkWorld (mkDb (users (store w))
                        (<[z := updated (stamp w) data e]> (tasks (store w)))
                        (user_seq (store w)))
                  (log w ++ [TaskUpdate (Num z) data]))
    else (Throw "PrismaClientValidationError",
          mkWorld (store w) (log w ++ [TaskUpdate (Num z) data])).
Proof.
  intros Hz He Hid Hu. unfold task_update, link_user, clock. rewrite Hu, Hz.
  unfold mbind, M_bind, emit, peek, modify, throw, mret, M_ret.
  cbn [fst snd store log]. rewrite He.
  destruct (valid_task_data data); cbn [negb fst snd store log]; [|done].
  by rewrite get_set_value, Hid.
Qed.

Lemma updated_singleton (t : Z) (k : string) (v : jsval) (row : obj) :
  v <> JUndef -> set_value v = v ->
  updated t {[k := v]} row = <[k := v]> (<["updatedAt" := JDate (Some t)]> row).
Proof.
  intros Hv Hs. unfold updated. rewrite map_fmap_singleton, Hs.
  by apply merge_singleton.
Qed.

(** X1.  [PATCH /:id/complete] on a task that exists sets its status to
    ["completed"], stamps [updatedAt] with the time of the update, and
    does nothing else: the answer is 200 with the row, every other column
    of the row, every other task and every user are as before.  On an id
    of the id column without a task the answer is 404; on an id that is
    no integer of the id column the lookup is refused and the answer is
    500, for the handler does not check the id.  In both cases the store
    is as before. *)
Theorem markTaskAsCompleted_only_status (req : request) (w : world) :
  (forall z e, as_id (Number_opt (params req !! "id")) = Some z ->
     tasks (store w) !! z = Some e ->
     valid_task_data {["status" := JStr "completed"]} = true ->
     let row' :=
       <["status" := JStr "completed"]>
       (<["updatedAt" :=
            JDate (Some (stamp (mkWorld (store w)
                                  (log w ++ [TaskFindUnique (Num z)]))))]> e) in
     outcome_of (Part006Rest.markTaskAsCompleted req w)
       = Ok (mkRes 200 (Json row')) /\
     store (world_after (Part006Rest.markTaskAsCompleted req w))
       = mkDb (users (store w)) (<[z := row']> (tasks (store w)))
              (user_seq (store w))) /\
  (forall z, as_id (Number_opt (params req !! "id")) = Some z ->
     tasks (store w) !! z = None ->
     outcome_of (Part006Rest.markTaskAsCompleted req w)
       = Ok (mkRes 404 (Error "Task not found")) /\
     store (world_after (Part006Rest.markTaskAsCompleted req w)) = store w) /\
  (as_id (Number_opt (params req !! "id")) = None ->
     outcome_of (Part006Rest.markTaskAsCompleted req w)
       = Ok (mkRes 500 (Error "Failed to mark task as completed")) /\
     store (world_after (Part006Rest.markTaskAsCompleted req w)) = store w).
Proof.
  unfold Part006Rest.markTaskAsCompleted, outcome_of, world_after.
  unfold task_findUnique. split; [|split].
  - intros z e Hz He Hvalid. rewrite Hz, (as_id_Some _ _ Hz).
    rewrite (as_id_Some _ _ Hz) in Hz. run. rewrite He.
    rewrite (task_update_plain z _ e) by done. rewrite Hvalid. simpl.
    by rewrite updated_singleton.
  - intros z Hz Hnone. rewrite Hz, (as_id_Some _ _ Hz). run. by rewrite Hnone.
  - intros Hz. rewrite Hz. by run.
Qed.

Lemma same_but_refl (k : string) (o : obj) : same_but k o o.
Proof. by intros j _. Qed.

(** X2.  Completing a task twice: a second [PATCH /:id/complete] with
    the same request changes nothing in the store that the first one
    left but the [updatedAt] stamp of that task.  No user changes, no
    task comes or goes, and every task agrees with what it was on every
    other column. *)
Theorem markTaskAsCompleted_idempotent (req : request) (w : world) (z' : Z) :
  users (store (world_after (Part006Rest.markTaskAsCompleted req
           (world_after (Part006Rest.markTaskAsCompleted req w)))))
    = users (store (world_after (Part006Rest.markTaskAsCompleted req w))) /\
  user_seq (store (world_after (Part006Rest.markTaskAsCompleted req
           (world_after (Part006Rest.markTaskAsCompleted req w)))))
    = user_seq (store (world_after (Part006Rest.markTaskAsCompleted req w))) /\
  option_Forall2 (same_but "updatedAt")
    (tasks (store (world_after (Part006Rest.markTaskAsCompleted req
              (world_after (Part006Rest.markTaskAsCompleted req w))))) !! z')
    (tasks (store (world_after (Part006Rest.markTaskAsCompleted req w))) !! z').
Proof.
  assert (Hrefl : forall o : option obj, option_Forall2 (same_but "updatedAt") o o).
  { intros [o|]; constructor. apply same_but_refl. }
  unfold Part006Rest.markTaskAsCompleted, world_after.
  unfold task_findUnique.
  destruct (as_id (Number_opt (params req !! "id"))) as [z|] eqn:Hz;
    [|by run].
  assert (Hid := as_id_Some _ _ Hz). rewrite Hid in *.
  unfold mbind, M_bind, emit, peek, modify, throw, mret, M_ret, try_catch.
  cbn [fst snd store log].
  destruct (tasks (store w) !! z) as [e|] eqn:He; simpl.
  - rewrite (task_update_plain z _ e) by done.
    destruct (valid_task_data _) eqn:Hvalid; simpl.
    + rewrite lookup_insert_eq. simpl.
      erewrite (task_update_plain z) by (done || (simpl; by rewrite lookup_insert_eq)).
      rewrite Hvalid. simpl. split; [done|]. split; [done|].
      destruct (decide (z' = z)) as [->|Hne].
      * rewrite !lookup_insert_eq. constructor.
        rewrite !updated_singleton by done. intros j Hj.
        destruct (decide (j = "status")) as [->|Hs].
        { by rewrite !lookup_insert_eq. }
        by rewrite lookup_insert_ne, (lookup_insert_ne _ "updatedAt") by done.
      * rewrite !lookup_insert_ne by done. apply Hrefl.
    + rewrite He. simpl.
      rewrite (task_update_plain z _ e) by done. rewrite Hvalid. simpl.
      split; [done|]. split; [done|]. apply Hrefl.
  - rewrite He. simpl. split; [done|]. split; [done|]. apply Hrefl.
Qed.

(** X3.  A [DELETE /:id] that answers 200 has removed exactly the task
    under that id, and the deletion shows: a [GET /:id] with the same id
    is then answered 404, and so is a second [DELETE /:id]. *)
Theorem deleteTask_then_gone (req : request) (w : world) :
  nonempty (params req !! "id") = true ->
  outcome_of (Part006.deleteTask req w)
    = Ok (mkRes 200 (Message "Task deleted successfully")) ->
  exists z,
    Number_opt (params req !! "id") = Num z /\
    is_Some (tasks (store w) !! z) /\
    store (world_after (Part006.deleteTask req w))
      = mkDb (users (store w)) (delete z (tasks (store w))) (user_seq (store w)) /\
    outcome_of (Part006.getTaskById req (world_after (Part006.deleteTask req w)))
      = Ok (mkRes 404 (Error "Task not found")) /\
    outcome_of (Part006.deleteTask req (world_after (Part006.deleteTask req w)))
      = Ok (mkRes 404 (Error "Task not found")).
Proof.
  intros Hne. unfold Part006.deleteTask, Part006.getTaskById, outcome_of, world_after.
  rewrite Hne. unfold task_findUnique, task_delete.
  destruct (as_id (Number_opt (params req !! "id"))) as [z|] eqn:Hz;
    [|run; discriminate].
  assert (Hid := as_id_Some _ _ Hz). rewrite Hid in *. run.
  destruct (tasks (store w) !! z) as [e|] eqn:He; simpl; [|discriminate].
  intros _. exists z. rewrite He. simpl.
  rewrite lookup_delete_eq. simpl. eauto 10.
Qed.

End TaskWrites.

(** Completing task 1 of the reference store; completing a task that is
    not there; completing the task [abc]. *)
Lemma markTaskAsCompleted_only_status_witness :
  let req := Reference.request_of [] [("id", "1")] [] (∅ : obj) None in
  let gone := Reference.request_of [] [("id", "7")] [] (∅ : obj) None in
  let bad := Reference.request_of [] [("id", "abc")] [] (∅ : obj) None in
  let row' :=
    <["status" := JStr "completed"]>
    (<["updatedAt" := JDate (Some 1700000000001)]>
       (Reference.task_row 1 "T1" "pending" 2)) in
  (outcome_of (Part006Rest.markTaskAsCompleted req Reference.w0)
     = Ok (mkRes 200 (Json row')) /\
   store (world_after (Part006Rest.markTaskAsCompleted req Reference.w0))
     = mkDb (users (store Reference.w0))
            (<[1 := row']> (tasks (store Reference.w0)))
            (user_seq (store Reference.w0))) /\
  (outcome_of (Part006Rest.markTaskAsCompleted gone Reference.w0)
     = Ok (mkRes 404 (Error "Task not found")) /\
   store (world_after (Part006Rest.markTaskAsCompleted gone Reference.w0))
     = store Reference.w0) /\
  (outcome_of (Part006Rest.markTaskAsCompleted bad Reference.w0)
     = Ok (mkRes 500 (Error "Failed to mark task as completed")) /\
   store (world_after (Part006Rest.markTaskAsCompleted bad Reference.w0))
     = store Reference.w0).
Proof.
  intros req gone bad row'. split; [|split].
  - destruct (markTaskAsCompleted_only_status req Reference.w0) as [Hfound _].
    apply (Hfound 1 (Reference.task_row 1 "T1" "pending" 2)); vm_compute; reflexivity.
  - destruct (markTaskAsCompleted_only_status gone Reference.w0) as (_ & Hgone & _).
    apply (Hgone 7); vm_compute; reflexivity.
  - destruct (markTaskAsCompleted_only_status bad Reference.w0) as (_ & _ & Hbad).
    apply Hbad; vm_compute; reflexivity.
Defined.

(** Completing task 1 twice: the second run moves the stamp of task 1
    and nothing else. *)
Lemma markTaskAsCompleted_idempotent_witness :
  let req := Reference.request_of [] [("id", "1")] [] (∅ : obj) None in
  let once := world_after (Part006Rest.markTaskAsCompleted req Reference.w0) in
  let twice := world_after (Part006Rest.markTaskAsCompleted req once) in
  option_Forall2 (same_but "updatedAt")
    (tasks (store twice) !! 1) (tasks (store once) !! 1) /\
  (tasks (store once) !! 1) ≫= (.!! "updatedAt") = Some (JDate (Some 1700000000001)) /\
  (tasks (store twice) !! 1) ≫= (.!! "updatedAt") = Some (JDate (Some 1700000000003)).
Proof.
  intros req once twice. split; [|split; vm_compute; reflexivity].
  apply (markTaskAsCompleted_idempotent req Reference.w0 1).
Defined.

(** Deleting task 1 of the reference store, then asking for it. *)
Lemma deleteTask_then_gone_witness :
  let req := Reference.request_of [] [("id", "1")] [] (∅ : obj) None in
  exists z,
    Number_opt (params req !! "id") = Num z /\
    is_Some (tasks (store Reference.w0) !! z) /\
    store (world_after (Part006.deleteTask req Reference.w0))
      = mkDb (users (store Reference.w0)) (delete z (tasks (store Reference.w0)))
             (user_seq (store Reference.w0)) /\
    outcome_of (Part006.getTaskById req (world_after (Part006.deleteTask req Reference.w0)))
      = Ok (mkRes 404 (Error "Task not found")) /\
    outcome_of (Part006.deleteTask req (world_after (Part006.deleteTask req Reference.w0)))
      = Ok (mkRes 404 (Error "Task not found")).
Proof.
  intros req. apply (deleteTask_then_gone req Reference.w0); vm_compute; reflexivity.
Defined.

Section Guards.
Context `{Engine} `{Platform} `{Host} `{TaskTable}.

Lemma principal_role (a b c r : jsval) :
  get (<["id" := a]> (<["name" := b]> (<["email" := c]> (<["role" := r]> ∅)))) "role" = r.
Proof.
  unfold get. rewrite lookup_insert_ne, lookup_insert_ne, lookup_insert_ne by done.
  by rewrite lookup_insert_eq.
Qed.

Lemma delete_route_run (req : request) (w : world) (token : string) (decoded u : obj) :
  AuthJs.bearer_token req = Some token ->
  jwt_verify token = Some decoded ->
  user_of decoded w = Some u ->
  Part005Rest.delete_route req w =
    if is_str (get decoded "role") "ADMIN"
    then Part005Rest.deleteTask req
           (mkWorld (store w) (log w ++ [UserFindUnique (get decoded "userId")]))
    else (Ok (mkRes 403 (Error "Unauthorized")),
          mkWorld (store w) (log w ++ [UserFindUnique (get decoded "userId")])).
Proof.
  intros Ht Hv Hu. unfold Part005Rest.delete_route. unfold route at 1.
  unfold mbind, M_bind. rewrite (authToken_run req w token Ht), Hv. cbv zeta.
  rewrite Hu. unfold route, Part005Rest.checkAdmin, mbind, M_bind, mret, M_ret.
  cbn [user set_user]. rewrite principal_role.
  by destruct (is_str (get decoded "role") "ADMIN").
Qed.

(** X4.  Behind [router.use(authToken)] the delete route of part_005 is
    decided by the role claim of the token alone: without a token the
    answer is 401; with a verified token of an existing user whose role
    claim is not ADMIN the answer is 403 and no task is touched, whatever
    role the store holds for that user; with the role claim ADMIN the
    request reaches [deleteTask]. *)
Theorem delete_route_decided_by_token (req : request) (w : world) :
  (AuthJs.bearer_token req = None ->
     Part005Rest.delete_route req w = (Ok (mkRes 401 NoBody), w)) /\
  (forall token decoded u,
     AuthJs.bearer_token req = Some token ->
     jwt_verify token = Some decoded ->
     user_of decoded w = Some u ->
     (get decoded "role" <> JStr "ADMIN" ->
        Part005Rest.delete_route req w
          = (Ok (mkRes 403 (Error "Unauthorized")),
             mkWorld (store w) (log w ++ [UserFindUnique (get decoded "userId")]))) /\
     (get decoded "role" = JStr "ADMIN" ->
        Part005Rest.delete_route req w
          = Part005Rest.deleteTask req
              (mkWorld (store w) (log w ++ [UserFindUnique (get decoded "userId")])))).
Proof.
  split.
  - intros Ht. unfold Part005Rest.delete_route, route, AuthJs.authToken.
    rewrite Ht. reflexivity.
  - intros token decoded u Ht Hv Hu.
    rewrite (delete_route_run req w token decoded u Ht Hv Hu).
    split; intros Hrole.
    + apply is_str_false in Hrole. by rewrite Hrole.
    + apply is_str_true in Hrole. by rewrite Hrole.
Qed.

(** X5.  The two admin guards decide alike on a request with a
    principal: when the principal's role is the string [ADMIN], [isAdmin]
    of auth.js and [checkAdmin] of the tasks router both hand the request
    on as it is, and otherwise both answer 403, the one with
    [Admin Access Required], the other with [Unauthorized]; neither
    touches store or log.  They part on a request without principal,
    which [isAdmin] answers with 403 and on which [checkAdmin] throws. *)
Theorem isAdmin_and_checkAdmin (req : request) (w : world) :
  (forall p, user req = Some p -> get p "role" = JStr "ADMIN" ->
     AuthJsRest.isAdmin req w = (Ok (Next req), w) /\
     Part006.checkAdmin req w = (Ok (Next req), w)) /\
  (forall p, user req = Some p -> get p "role" <> JStr "ADMIN" ->
     AuthJsRest.isAdmin req w
       = (Ok (Respond (mkRes 403 (Error "Admin Access Required"))), w) /\
     Part006.checkAdmin req w
       = (Ok (Respond (mkRes 403 (Error "Unauthorized"))), w)) /\
  (user req = None ->
     AuthJsRest.isAdmin req w
       = (Ok (Respond (mkRes 403 (Error "Admin Access Required"))), w) /\
     Part006.checkAdmin req w = (Throw "TypeError", w)).
Proof.
  unfold AuthJsRest.isAdmin, Part006.checkAdmin.
  split; [|split].
  - intros p -> Hrole. apply is_str_true in Hrole. by rewrite Hrole.
  - intros p -> Hrole. apply is_str_false in Hrole. by rewrite Hrole.
  - intros ->. done.
Qed.

End Guards.

(** Bob's token is refused by the delete route after one user lookup. *)
Lemma delete_route_decided_by_token_witness :
  let req := Reference.request_of [("authorization", "Bearer user-token")]
               [("id", "1")] [] (∅ : obj) None in
  Part005Rest.delete_route req Reference.w0
    = (Ok (mkRes 403 (Error "Unauthorized")),
       mkWorld (store Reference.w0) [UserFindUnique (JNumber (Num 2))]).
Proof.
  intros req.
  destruct (delete_route_decided_by_token req Reference.w0) as [_ Htoken].
  destruct (Htoken "user-token"
              (<["userId" := JNumber (Num 2)]> (<["role" := JStr "USER"]> ∅))
              (Reference.user_row 2 "Bob" "bob@x.com" "USER")) as [Hdenied _];
    [vm_compute; reflexivity ..|].
  rewrite Hdenied; [vm_compute; reflexivity|]. vm_compute. discriminate.
Defined.

(** Bob as principal: both guards answer 403.  Ann as principal: both
    hand the request on. *)
Lemma isAdmin_and_checkAdmin_witness :
  let bob := Reference.user_row 2 "Bob" "bob@x.com" "USER" in
  let ann := Reference.user_row 1 "Ann" "ann@x.com" "ADMIN" in
  let req := Reference.request_of [] [] [] (∅ : obj) (Some bob) in
  let req' := Reference.request_of [] [] [] (∅ : obj) (Some ann) in
  (AuthJsRest.isAdmin req Reference.w0
     = (Ok (Respond (mkRes 403 (Error "Admin Access Required"))), Reference.w0) /\
   Part006.checkAdmin req Reference.w0
     = (Ok (Respond (mkRes 403 (Error "Unauthorized"))), Reference.w0)) /\
  (AuthJsRest.isAdmin req' Reference.w0 = (Ok (Next req'), Reference.w0) /\
   Part006.checkAdmin req' Reference.w0 = (Ok (Next req'), Reference.w0)).
Proof.
  intros bob ann req req'. split.
  - destruct (isAdmin_and_checkAdmin req Reference.w0) as (_ & Hno & _).
    apply (Hno bob); [reflexivity|]. vm_compute. discriminate.
  - destruct (isAdmin_and_checkAdmin req' Reference.w0) as (Hyes & _).
    apply (Hyes ann); vm_compute; reflexivity.
Defined.

Section UserWrites.
Context `{Engine} `{Platform} `{Host} `{TaskTable}.

(** One call of [prisma.user.update]. *)
Lemma user_update_run (id : jsval) (data : obj) (w : world) :
  store (user_update id data w).2 = store w \/
  exists z row,
    id = JNumber (Num z) /\
    users (store w) !! z = Some row /\
    user_update id data w
      = (Ok (updated (stamp w) data row),
         mkWorld (mkDb (<[z := updated (stamp w) data row]> (users (store w)))
                       (tasks (store w)) (user_seq (store w)))
                 (log w ++ [UserUpdate id data])).
Proof.
  unfold user_update, clock. run.
  destruct id as [| |b|[|s|z|m2 k2]|s|t|l|l]; simpl; try by left.
  destruct (users (store w) !! z) as [row|] eqn:Hrow; simpl; [|by left].
  destruct (valid_user_data data); simpl; [|by left].
  right. by exists z, row.
Qed.

(** The [updateData] object never touches the store, and holds at most a
    name, an email and a hashed password. *)
Lemma updateData_of_run (b : obj) (w : world) :
  (ProfileJsRest.updateData_of b w).2 = w /\
  forall data, (ProfileJsRest.updateData_of b w).1 = Ok data ->
    (forall k, k <> "name" -> k <> "email" -> k <> "password" -> data !! k = None) /\
    (data !! "name" = None \/ data !! "name" = Some (get b "name")) /\
    (data !! "email" = None \/ data !! "email" = Some (get b "email")) /\
    (data !! "password" = None \/
     exists s, get b "password" = JStr s /\
               data !! "password" = Some (JStr (bcrypt_hash s))).
Proof.
  unfold ProfileJsRest.updateData_of, AuthJs.hash_password.
  destruct (truthy (get b "name")), (truthy (get b "email")),
    (truthy (get b "password")) eqn:Hp;
    try (destruct (get b "password") as [| |?|?|s|?|?|?] eqn:Hpw; try discriminate Hp);
    run; (split; [done|]); intros data [= <-];
    (split; [intros k ???; by simplify_map_eq|]);
    simplify_map_eq; eauto 10.
Qed.

Lemma profile_update_frame_refl (b : obj) (d : db) : profile_update_frame b d d.
Proof.
  split; [done|]. split; [done|]. intros z.
  destruct (users d !! z) as [row|] eqn:Hrow; [|done].
  exists row. eauto 10.
Qed.

Lemma updated_lookup (t : Z) (data row : obj) (k : string) :
  updated t data row !! k =
    match data !! k with
    | Some v =>
        if decide (set_value v = JUndef)
        then <["updatedAt" := JDate (Some t)]> row !! k
        else Some (set_value v)
    | None => <["updatedAt" := JDate (Some t)]> row !! k
    end.
Proof.
  unfold updated. rewrite merge_lookup, lookup_fmap.
  by destruct (data !! k).
Qed.

Lemma profile_update_frame_updated (b data : obj) (d : db) (z t : Z) (row : obj) :
  users d !! z = Some row ->
  (forall k, k <> "name" -> k <> "email" -> k <> "password" -> data !! k = None) ->
  (data !! "name" = None \/ data !! "name" = Some (get b "name")) ->
  (data !! "email" = None \/ data !! "email" = Some (get b "email")) ->
  (data !! "password" = None \/
   exists s, get b "password" = JStr s /\
             data !! "password" = Some (JStr (bcrypt_hash s))) ->
  profile_update_frame b d
    (mkDb (<[z := updated t data row]> (users d)) (tasks d) (user_seq d)).
Proof.
  intros Hrow Hother Hname Hemail Hpass.
  split; [done|]. split; [done|]. intros z'. simpl.
  destruct (decide (z = z')) as [<-|Hne].
  - rewrite lookup_insert_eq. exists row. split; [done|].
    rewrite !updated_lookup. split; [|split; [|split; [|split]]].
    + intros k ????. rewrite updated_lookup, Hother by done.
      by rewrite lookup_insert_ne.
    + destruct Hname as [->| ->]; [left; by rewrite lookup_insert_ne|].
      case_decide as Hu; [left; by rewrite lookup_insert_ne|by right].
    + destruct Hemail as [->| ->]; [left; by rewrite lookup_insert_ne|].
      case_decide as Hu; [left; by rewrite lookup_insert_ne|by right].
    + destruct Hpass as [->|(s & Hs & ->)]; [left; by rewrite lookup_insert_ne|].
      simpl. try (case_decide; [done|]). right. eauto.
    + right. exists t. rewrite Hother by done.
      by rewrite lookup_insert_eq.
  - rewrite lookup_insert_ne by done.
    destruct (users d !! z') as [row'|] eqn:Hrow'; [|done].
    exists row'. eauto 10.
Qed.

(** X6.  A profile update (profile.js) and a user update (part_003)
    change nothing but the name, the email, the password and the
    [updatedAt] stamp of a user row: no task, no other column (the role
    and the id among them), no user added or removed; a row that changed
    carries a time in [updatedAt]; and a password is only ever stored as
    the bcrypt hash of the one in the body. *)
Theorem profile_update_only_profile_fields (req : request) (w : world) :
  profile_update_frame (body req) (store w)
    (store (world_after (ProfileJsRest.updateProfile req w))) /\
  profile_update_frame (body req) (store w)
    (store (world_after (Part003Rest.updateUser req w))).
Proof.
  unfold ProfileJsRest.updateProfile, Part003Rest.updateUser, world_after,
    Part003.try_report.
  destruct (updateData_of_run (body req) w) as [Hw Hdata].
  destruct (ProfileJsRest.updateData_of (body req) w) as [[data|err] w1] eqn:Hrun;
    simpl in Hw; subst w1.
  - destruct (Hdata data eq_refl) as (Hother & Hname & Hemail & Hpass).
    split.
    + destruct (user req) as [p|]; [|apply profile_update_frame_refl].
      run. rewrite Hrun.
      destruct (user_update_run (get p "id") data w) as [Hsame|(z & row & _ & Hrow & Hupd)].
      * destruct (user_update _ _ _) as [[?|?] ?]; simpl in *; rewrite Hsame;
          apply profile_update_frame_refl.
      * rewrite Hupd. simpl. by apply profile_update_frame_updated.
    + run. rewrite Hrun.
      destruct (user req) as [p|]; [|apply profile_update_frame_refl].
      destruct (user_update_run (get p "id") data w) as [Hsame|(z & row & _ & Hrow & Hupd)].
      * destruct (user_update _ _ _) as [[?|?] ?]; simpl in *; rewrite Hsame;
          apply profile_update_frame_refl.
      * rewrite Hupd. simpl. by apply profile_update_frame_updated.
  - split.
    + destruct (user req) as [p|]; [|apply profile_update_frame_refl].
      run. rewrite Hrun. apply profile_update_frame_refl.
    + run. rewrite Hrun. apply profile_update_frame_refl.
Qed.

End UserWrites.

Lemma get_insert_eq (o : obj) (k : string) (v : jsval) : get (<[k := v]> o) k = v.
Proof. unfold get. by rewrite lookup_insert_eq. Qed.

Lemma get_insert_ne (o : obj) (k j : string) (v : jsval) :
  k <> j -> get (<[k := v]> o) j = get o j.
Proof. intros Hne. unfold get. by rewrite lookup_insert_ne. Qed.

Lemma get_singleton (k : string) (v : jsval) : get {[k := v]} k = v.
Proof. unfold get. by rewrite lookup_singleton_eq. Qed.

Lemma get_empty (k : string) : get ∅ k = JUndef.
Proof. unfold get. by rewrite lookup_empty. Qed.

Lemma get_merge (data row : obj) (k : string) :
  get (merge data row) k = if decide (get data k = JUndef) then get row k else get data k.
Proof.
  unfold get. rewrite merge_lookup.
  destruct (data !! k) as [v|]; simpl; [by destruct (decide (v = JUndef))|].
  by destruct (decide (JUndef = JUndef)).
Qed.

Lemma truthy_defined (v : jsval) : truthy v = true -> v <> JUndef.
Proof. by destruct v. Qed.

Ltac getmap :=
  repeat first [rewrite get_insert_eq | rewrite get_insert_ne by done
               | rewrite get_singleton | rewrite get_empty | rewrite get_merge].

Section UserCreation.
Context `{Engine} `{Platform} `{Host} `{TaskTable}.

(** One call of [prisma.user.create]. *)
Lemma user_create_run (data : obj) (w : world) :
  user_create data w =
    if negb (valid_user_data data) || email_taken (get data "email") (store w)
    then (Throw (if negb (valid_user_data data)
                 then "PrismaClientValidationError" else "P2002"),
          mkWorld (store w) (log w ++ [UserCreate data]))
    else (Ok (<["id" := JNumber (Num (user_seq (store w)))]>
                (merge data (user_defaults w))),
          mkWorld (mkDb (<[user_seq (store w) :=
                            <["id" := JNumber (Num (user_seq (store w)))]>
                              (merge data (user_defaults w))]>
                          (users (store w)))
                        (tasks (store w)) (user_seq (store w) + 1))
                  (log w ++ [UserCreate data])).
Proof.
  unfold user_create, mbind, M_bind, emit, peek, modify, throw, mret, M_ret.
  destruct (valid_user_data data); cbn [negb orb store log]; [|reflexivity].
  by destruct (email_taken _ _).
Qed.

(** X7.  [POST /register] is all or nothing: every answer other than 201
    leaves the store as it was.  With 201 exactly one row has been added,
    under the next user id, with the email and the name of the body and
    the bcrypt hash of the password in place of the password itself; the
    email was not in use before, and the token is signed for that id and
    the stored role. *)
Theorem register_all_or_nothing (req : request) (w : world) :
  ((exists token, outcome_of (AuthJs.register req w) = Ok (mkRes 201 (Token token))) \/
   store (world_after (AuthJs.register req w)) = store w) /\
  (forall token,
     outcome_of (AuthJs.register req w) = Ok (mkRes 201 (Token token)) ->
     exists s row,
       get (body req) "password" = JStr s /\
       email_taken (get (body req) "email") (store w) = false /\
       store (world_after (AuthJs.register req w))
         = mkDb (<[user_seq (store w) := row]> (users (store w)))
                (tasks (store w)) (user_seq (store w) + 1) /\
       get row "id" = JNumber (Num (user_seq (store w))) /\
       get row "email" = get (body req) "email" /\
       get row "name" = get (body req) "name" /\
       get row "password" = JStr (bcrypt_hash s) /\
       token = jwt_sign (<["userId" := JNumber (Num (user_seq (store w)))]>
                         (<["role" := get row "role"]> ∅))).
Proof.
  unfold AuthJs.register, outcome_of, world_after.
  destruct (_ || _) eqn:Hreq; cbn [fst snd]; [split; [by right | discriminate]|].
  apply orb_false_elim in Hreq as [Hreq Hname].
  apply orb_false_elim in Hreq as [Hemail Hpass].
  apply negb_false_iff in Hname, Hemail, Hpass.
  apply truthy_defined in Hname, Hemail.
  unfold AuthJs.hash_password.
  destruct (get (body req) "password") as [| |b|n|s|t|l|l] eqn:Hpw.
  all: try (unfold try_catch, throw, mbind, M_bind; cbn [fst snd];
            split; [by right | discriminate]).
  unfold try_catch, mbind, M_bind, mret, M_ret. rewrite user_create_run.
  destruct (_ || _) eqn:Hbad; cbn [fst snd]; [split; [by right | discriminate]|].
  apply orb_false_elim in Hbad as [_ Htaken].
  rewrite get_insert_eq in Htaken.
  split; [left; eauto|]. intros token [= <-].
  eexists s, _. split; [done|]. split; [done|]. split; [reflexivity|].
  unfold user_defaults. getmap.
  rewrite (decide_False (P := get (body req) "email" = JUndef)) by done.
  rewrite (decide_False (P := get (body req) "name" = JUndef)) by done.
  rewrite (decide_False (P := JStr (bcrypt_hash s) = JUndef)) by done.
  repeat split; reflexivity.
Qed.

(** X8.  [POST /] of the user router is all or nothing as well, and it
    answers 201 with the very row it has stored, password hash included.
    Unlike [register] it passes the role of the body on as it is, so the
    row has the role of the body, or USER when the body has none. *)
Theorem createUser_all_or_nothing (req : request) (w : world) :
  ((exists row, outcome_of (Part003Rest.createUser req w) = Ok (mkRes 201 (Json row))) \/
   store (world_after (Part003Rest.createUser req w)) = store w) /\
  (forall row,
     outcome_of (Part003Rest.createUser req w) = Ok (mkRes 201 (Json row)) ->
     exists s,
       get (body req) "password" = JStr s /\
       email_taken (get (body req) "email") (store w) = false /\
       store (world_after (Part003Rest.createUser req w))
         = mkDb (<[user_seq (store w) := row]> (users (store w)))
                (tasks (store w)) (user_seq (store w) + 1) /\
       get row "id" = JNumber (Num (user_seq (store w))) /\
       get row "email" = get (body req) "email" /\
       get row "name" = get (body req) "name" /\
       get row "password" = JStr (bcrypt_hash s) /\
       get row "role" = (if decide (get (body req) "role" = JUndef)
                         then JStr "USER" else get (body req) "role")).
Proof.
  unfold Part003Rest.createUser, Part003.try_report, outcome_of, world_after.
  destruct (_ || _) eqn:Hreq; cbn [fst snd]; [split; [by right | discriminate]|].
  apply orb_false_elim in Hreq as [Hreq Hpass].
  apply orb_false_elim in Hreq as [Hname Hemail].
  apply negb_false_iff in Hname, Hemail, Hpass.
  apply truthy_defined in Hname, Hemail.
  unfold AuthJs.hash_password.
  destruct (get (body req) "password") as [| |b|n|s|t|l|l] eqn:Hpw.
  all: try (unfold throw, mbind, M_bind; cbn [fst snd];
            split; [by right | discriminate]).
  unfold mbind, M_bind, mret, M_ret. rewrite user_create_run.
  destruct (_ || _) eqn:Hbad; cbn [fst snd]; [split; [by right | discriminate]|].
  apply orb_false_elim in Hbad as [_ Htaken].
  rewrite get_insert_ne, get_insert_eq in Htaken by done.
  split; [left; eauto|]. intros row Hrow.
  apply (f_equal json_of) in Hrow. cbv beta iota delta [json_of] in Hrow.
  subst row.
  exists s. split; [done|]. split; [done|]. split; [reflexivity|].
  unfold user_defaults. getmap.
  rewrite (decide_False (P := get (body req) "email" = JUndef)) by done.
  rewrite (decide_False (P := get (body req) "name" = JUndef)) by done.
  rewrite (decide_False (P := JStr (bcrypt_hash s) = JUndef)) by done.
  repeat split; reflexivity.
Qed.

End UserCreation.

(** Cy registers on the reference store and gets the next id, 3. *)
Lemma register_all_or_nothing_witness :
  let req := Reference.request_of [] [] []
               (<["email" := JStr "cy@x.com"]>
                (<["password" := JStr "pw"]> (<["name" := JStr "Cy"]> ∅))) None in
  exists s row,
    get (body req) "password" = JStr s /\
    email_taken (get (body req) "email") (store Reference.w0) = false /\
    store (world_after (AuthJs.register req Reference.w0))
      = mkDb (<[user_seq (store Reference.w0) := row]> (users (store Reference.w0)))
             (tasks (store Reference.w0)) (user_seq (store Reference.w0) + 1) /\
    get row "id" = JNumber (Num (user_seq (store Reference.w0))) /\
    get row "email" = get (body req) "email" /\
    get row "name" = get (body req) "name" /\
    get row "password" = JStr (bcrypt_hash s) /\
    "signed" = jwt_sign (<["userId" := JNumber (Num (user_seq (store Reference.w0)))]>
                         (<["role" := get row "role"]> ∅)).
Proof.
  intros req.
  destruct (register_all_or_nothing req Reference.w0) as [_ Hcreated].
  apply (Hcreated "signed"). vm_compute. reflexivity.
Defined.

(** The same body sent to the user router: the answer is the stored row. *)
Lemma createUser_all_or_nothing_witness :
  let req := Reference.request_of [] [] []
               (<["email" := JStr "cy@x.com"]>
                (<["password" := JStr "pw"]> (<["name" := JStr "Cy"]> ∅))) None in
  let row := json_of (outcome_of (Part003Rest.createUser req Reference.w0)) in
  exists s,
    get (body req) "password" = JStr s /\
    email_taken (get (body req) "email") (store Reference.w0) = false /\
    store (world_after (Part003Rest.createUser req Reference.w0))
      = mkDb (<[user_seq (store Reference.w0) := row]> (users (store Reference.w0)))
             (tasks (store Reference.w0)) (user_seq (store Reference.w0) + 1) /\
    get row "id" = JNumber (Num (user_seq (store Reference.w0))) /\
    get row "email" = get (body req) "email" /\
    get row "name" = get (body req) "name" /\
    get row "password" = JStr (bcrypt_hash s) /\
    get row "role" = (if decide (get (body req) "role" = JUndef)
                      then JStr "USER" else get (body req) "role").
Proof.
  intros req row.
  destruct (createUser_all_or_nothing req Reference.w0) as [_ Hcreated].
  apply (Hcreated row). vm_compute. reflexivity.
Defined.

Section ProfileRoute.
Context `{Engine} `{Platform} `{Host} `{TaskTable}.

(** One run of the profile.js middleware on a request that carries a token. *)
Lemma profile_authToken_run (req : request) (w : world) (token : string) :
  AuthJs.bearer_token req = Some token ->
  ProfileJs.authToken req w =
    match jwt_verify token with
    | None => (Ok (Respond (mkRes 403 NoBody)), w)
    | Some decoded =>
        match user_of decoded w with
        | None =>
            (Ok (Respond (mkRes 403 NoBody)),
             mkWorld (store w) (log w ++ [UserFindUnique (get decoded "userId")]))
        | Some u =>
            (Ok (Next (set_user req u)),
             mkWorld (store w) (log w ++ [UserFindUnique (get decoded "userId")]))
        end
    end.
Proof.
  intros Ht. unfold ProfileJs.authToken, user_of. rewrite Ht.
  destruct (jwt_verify token) as [d|]; [|reflexivity].
  unfold user_findUnique. run.
  destruct (get d "userId") as [| |b|[|s|z|m2 k2]|s|t|l|l]; try reflexivity.
  simpl. destruct (users (store w) !! z); reflexivity.
Qed.

Lemma profile_route_run (req : request) (w : world) :
  ProfileJsRest.profile_route req w =
    match AuthJs.bearer_token req with
    | None => (Ok (mkRes 401 NoBody), w)
    | Some token =>
        match jwt_verify token with
        | None => (Ok (mkRes 403 NoBody), w)
        | Some decoded =>
            match user_of decoded w with
            | None =>
                (Ok (mkRes 403 NoBody),
                 mkWorld (store w) (log w ++ [UserFindUnique (get decoded "userId")]))
            | Some u =>
                ProfileJsRest.getProfile (set_user req u)
                  (mkWorld (store w) (log w ++ [UserFindUnique (get decoded "userId")]))
            end
        end
    end.
Proof.
  unfold ProfileJsRest.profile_route, route. unfold mbind at 1, M_bind at 1.
  destruct (AuthJs.bearer_token req) as [token|] eqn:Ht.
  - rewrite (profile_authToken_run req w token Ht).
    destruct (jwt_verify token) as [d|]; [|reflexivity].
    by destruct (user_of d w).
  - unfold ProfileJs.authToken. by rewrite Ht.
Qed.

Lemma getProfile_own_row (req : request) (w : world) (decoded u : obj) :
  well_keyed (users (store w)) ->
  user_of decoded w = Some u ->
  ProfileJsRest.getProfile (set_user req u) w
    = (Ok (mkRes 200 (Json u)),
       mkWorld (store w) (log w ++ [UserFindUnique (get u "id")])).
Proof.
  intros Hkeys. unfold user_of.
  destruct (get decoded "userId") as [| |b|[|s|z|m2 k2]|s|t|l|l]; try done.
  intros Hu. unfold ProfileJsRest.getProfile, user_findUnique. run.
  rewrite (Hkeys z u Hu). simpl. by rewrite Hu.
Qed.

(** X9.  On a store whose user rows sit under their own ids,
    [GET /profile] never answers 404 or 500: it answers 401 without a
    token, 403 with a token that does not verify or whose user is gone,
    and otherwise 200 with the stored row of the token's user, in full.
    The store contents are never changed. *)
Theorem profile_route_answers (req : request) (w : world) :
  well_keyed (users (store w)) ->
  store (world_after (ProfileJsRest.profile_route req w)) = store w /\
  (AuthJs.bearer_token req = None ->
     outcome_of (ProfileJsRest.profile_route req w) = Ok (mkRes 401 NoBody)) /\
  (forall token, AuthJs.bearer_token req = Some token ->
     match jwt_verify token with
     | None => outcome_of (ProfileJsRest.profile_route req w) = Ok (mkRes 403 NoBody)
     | Some decoded =>
         match user_of decoded w with
         | None =>
             outcome_of (ProfileJsRest.profile_route req w) = Ok (mkRes 403 NoBody)
         | Some u =>
             outcome_of (ProfileJsRest.profile_route req w) = Ok (mkRes 200 (Json u))
         end
     end).
Proof.
  intros Hkeys. rewrite !profile_route_run. unfold outcome_of, world_after.
  destruct (AuthJs.bearer_token req) as [token|].
  - destruct (jwt_verify token) as [d|] eqn:Hv.
    + destruct (user_of d w) as [u|] eqn:Hu.
      * rewrite (getProfile_own_row req _ d u) by done. cbn [fst snd store].
        split; [done|]. split; [done|]. intros ? [= <-]. by rewrite Hv, Hu.
      * cbn [fst snd store].
        split; [done|]. split; [done|]. intros ? [= <-]. by rewrite Hv, Hu.
    + cbn [fst snd store].
      split; [done|]. split; [done|]. intros ? [= <-]. by rewrite Hv.
  - cbn [fst snd]. split; [done|]. split; [done|]. discriminate.
Qed.

End ProfileRoute.

Lemma well_keyed_check (t : gmap Z obj) :
  forallb (fun zr => bool_decide (get zr.2 "id" = JNumber (Num zr.1))) (map_to_list t) = true ->
  well_keyed t.
Proof.
  intros Hall z row Hz. rewrite forallb_forall in Hall.
  apply elem_of_map_to_list, list_elem_of_In in Hz.
  apply Hall in Hz. by apply bool_decide_eq_true in Hz.
Qed.

(** Bob's token on the reference store: the profile route answers with
    Bob's row. *)
Lemma profile_route_answers_witness :
  let req := Reference.request_of [("authorization", "Bearer user-token")]
               [] [] (∅ : obj) None in
  store (world_after (ProfileJsRest.profile_route req Reference.w0))
    = store Reference.w0 /\
  outcome_of (ProfileJsRest.profile_route req Reference.w0)
    = Ok (mkRes 200 (Json (Reference.user_row 2 "Bob" "bob@x.com" "USER"))).
Proof.
  intros req.
  destruct (profile_route_answers req Reference.w0) as (Hstore & _ & Htoken);
    [apply well_keyed_check; vm_compute; reflexivity|].
  split; [exact Hstore|].
  exact (Htoken "user-token" eq_refl).
Defined.

Section TaskUpdates.
Context `{Engine} `{Platform} `{Host} `{TaskTable}.

Lemma scalar_set_value (v : jsval) : scalar v = true -> set_value v = v.
Proof. by destruct v. Qed.

Lemma kept_or_default (e : obj) (k : string) (v : jsval) :
  truthy v = false -> scalar (get e k) = true ->
  (if decide (set_value (or_else v (get e k)) = JUndef) then e !! k
   else Some (set_value (or_else v (get e k)))) = e !! k.
Proof.
  intros Hv Hs. unfold or_else. rewrite Hv, (scalar_set_value _ Hs). unfold get.
  destruct (e !! k) as [x|]; simpl; [|done].
  by destruct (decide (x = JUndef)); subst.
Qed.

Lemma kept_or_dueDate (e : obj) (v : jsval) :
  truthy v = false -> scalar (get e "dueDate") = true ->
  (if decide (set_value (Part006.dueDate_or v (get e "dueDate")) = JUndef)
   then e !! "dueDate"
   else Some (set_value (Part006.dueDate_or v (get e "dueDate")))) = e !! "dueDate".
Proof.
  intros Hv Hs. unfold Part006.dueDate_or. rewrite Hv, (scalar_set_value _ Hs).
  unfold get.
  destruct (e !! "dueDate") as [x|]; simpl; [|done].
  by destruct (decide (x = JUndef)); subst.
Qed.

(** X10.  [PUT /:id] of part_006 rewrites six columns and the
    [updatedAt] stamp at most, and none of the six from a falsy value: a
    column that is not one of title, description, dueDate, status,
    recurring, priority and updatedAt (the id, the owner and the creation
    time among them) keeps its value, and so does, in a table whose
    columns hold scalar values, a column whose value in the body is
    absent, empty, null, zero or false; and the row stays under its
    id. *)
Theorem updateTask_006_protects (req : request) (w : world) (k : string) :
  k <> "updatedAt" ->
  ~ In k ["title"; "description"; "dueDate"; "status"; "recurring"; "priority"]
  \/ (truthy (get (body req) k) = false /\ scalar_column k (tasks (store w))) ->
  column_kept k Part006.updateTask (Number_opt (params req !! "id")) req w.
Proof.
  intros Hne Hk. unfold column_kept, Part006.updateTask, world_after, outcome_of.
  unfold task_findUnique.
  destruct (as_id (Number_opt (params req !! "id"))) as [z|] eqn:Hz;
    [|run; by left].
  assert (Hid := as_id_Some _ _ Hz). rewrite Hid in *. run.
  destruct (tasks (store w) !! z) as [e|] eqn:He; simpl; [|by left].
  rewrite (task_update_plain z _ e) by (try done; unfold get; by rewrite !lookup_insert_ne).
  destruct (valid_task_data _); cbn [fst snd]; [|by left].
  right. eexists z, e, _. repeat (split; [done|]).
  rewrite updated_lookup, (lookup_insert_ne e "updatedAt" k) by done.
  rewrite !lookup_insert, lookup_empty.
  destruct Hk as [Hout|[Hfalsy Hcol]].
  - repeat case_decide; subst; try done; exfalso; apply Hout; simpl; tauto.
  - specialize (Hcol z e He).
    repeat (case_decide; subst; [first [by apply kept_or_default | by apply kept_or_dueDate]|]).
    done.
Qed.

(** X11.  The older [PUT /tasks/:id] of tasks.js rewrites four columns
    and the [updatedAt] stamp at most: priority and recurring, like every
    column other than title, description, dueDate, status and updatedAt,
    keep their value whatever the body holds, and so does, in a table
    whose columns hold scalar values, a column whose value in the body is
    falsy. *)
Theorem updateTask_js_protects (req : request) (w : world) (k : string) :
  k <> "updatedAt" ->
  ~ In k ["title"; "description"; "dueDate"; "status"]
  \/ (truthy (get (body req) k) = false /\ scalar_column k (tasks (store w))) ->
  column_kept k TasksJsRest.updateTask (Number_opt (params req !! "id")) req w.
Proof.
  intros Hne Hk. unfold column_kept, TasksJsRest.updateTask, world_after, outcome_of.
  unfold task_findUnique.
  destruct (as_id (Number_opt (params req !! "id"))) as [z|] eqn:Hz;
    [|run; by left].
  assert (Hid := as_id_Some _ _ Hz). rewrite Hid in *. run.
  destruct (tasks (store w) !! z) as [e|] eqn:He; simpl; [|by left].
  rewrite (task_update_plain z _ e) by (try done; unfold get; by rewrite !lookup_insert_ne).
  destruct (valid_task_data _); cbn [fst snd]; [|by left].
  right. eexists z, e, _. repeat (split; [done|]).
  rewrite updated_lookup, (lookup_insert_ne e "updatedAt" k) by done.
  rewrite !lookup_insert, lookup_empty.
  destruct Hk as [Hout|[Hfalsy Hcol]].
  - repeat case_decide; subst; try done; exfalso; apply Hout; simpl; tauto.
  - specialize (Hcol z e He).
    repeat (case_decide; subst; [first [by apply kept_or_default | by apply kept_or_dueDate]|]).
    done.
Qed.

(** X12.  What [PUT /:id] answers is what [GET /:id] then shows: after an
    update answered 200 with a row, reading the same id answers 200 with
    that row. *)
Theorem updateTask_then_get (req : request) (w : world) (row : obj) :
  nonempty (params req !! "id") = true ->
  outcome_of (Part006.updateTask req w) = Ok (mkRes 200 (Json row)) ->
  outcome_of (Part006.getTaskById req (world_after (Part006.updateTask req w)))
    = Ok (mkRes 200 (Json row)).
Proof.
  intros Hne. unfold Part006.getTaskById. rewrite Hne.
  unfold Part006.updateTask, world_after, outcome_of.
  unfold task_findUnique.
  destruct (as_id (Number_opt (params req !! "id"))) as [z|] eqn:Hz;
    [|run; discriminate].
  assert (Hid := as_id_Some _ _ Hz). rewrite Hid in *. run.
  destruct (tasks (store w) !! z) as [e|] eqn:He; simpl; [|discriminate].
  rewrite (task_update_plain z _ e) by (try done; unfold get; by rewrite !lookup_insert_ne).
  destruct (valid_task_data _); cbn [fst snd]; [|discriminate].
  intros Hrow. apply (f_equal json_of) in Hrow.
  cbv beta iota delta [json_of] in Hrow. subst row.
  cbn [store tasks]. by rewrite lookup_insert_eq.
Qed.

End TaskUpdates.

(** A body with a new status only: the title of task 1 is kept. *)
Lemma updateTask_006_protects_witness :
  let req :=
    Reference.request_of [] [("id", "1")] [] {["status" := JStr "done"]} None in
  column_kept "title" Part006.updateTask (Number_opt (params req !! "id"))
    req Reference.w0.
Proof.
  intros req. apply (updateTask_006_protects req Reference.w0 "title");
    [discriminate|].
  right. split; [|apply scalar_column_check]; vm_compute; reflexivity.
Defined.

(** The same request through tasks.js: the priority of task 1 is kept. *)
Lemma updateTask_js_protects_witness :
  let req :=
    Reference.request_of [] [("id", "1")] [] {["status" := JStr "done"]} None in
  column_kept "priority" TasksJsRest.updateTask (Number_opt (params req !! "id"))
    req Reference.w0.
Proof.
  intros req. apply (updateTask_js_protects req Reference.w0 "priority");
    [discriminate|].
  right. split; [|apply scalar_column_check]; vm_compute; reflexivity.
Defined.

(** Task 1 after the update is what the next read returns. *)
Lemma updateTask_then_get_witness :
  let req :=
    Reference.request_of [] [("id", "1")] [] {["status" := JStr "done"]} None in
  outcome_of (Part006.getTaskById req (world_after (Part006.updateTask req Reference.w0)))
    = Ok (mkRes 200 (Json (json_of (outcome_of (Part006.updateTask req Reference.w0))))).
Proof.
  intros req. apply (updateTask_then_get req Reference.w0); vm_compute; reflexivity.
Defined.

Section ListEdges.
Context `{Engine} `{Platform} `{Host} `{TaskTable}.

Lemma list_block_store (q : find_args) (wc : where_) (page limit : jsnum) (w : world) :
  store
    (world_after
       (try_catch
          (tasks ← task_findMany q ;
           totalTasks ← task_count wc ;
           mret (mkRes 200 (TaskPage tasks (on_wire page)
                               (on_wire (ceil_div totalTasks limit)) totalTasks)))
          (mret (mkRes 500 (Error "Failed to fetch tasks"))) w))
  = store w.
Proof.
  rewrite list_block_run. unfold world_after. by destruct (selected q w).
Qed.

Lemma orders_block (q : find_args) (wc : where_) (page limit : jsnum) (w : world) :
  orders
    (log (world_after
       (try_catch
          (tasks ← task_findMany q ;
           totalTasks ← task_count wc ;
           mret (mkRes 200 (TaskPage tasks (on_wire page)
                               (on_wire (ceil_div totalTasks limit)) totalTasks)))
          (mret (mkRes 500 (Error "Failed to fetch tasks"))) w)))
  = orders (log w) ++ [(fa_orderBy q).2].
Proof.
  rewrite list_block_run. unfold world_after, orders.
  destruct (selected q w); simpl; by rewrite omap_app.
Qed.

(** X13.  The reading handlers only read: the three list handlers, the
    per-user listing and [GET /:id] leave the store contents as they
    were, for every request and whatever the engine answers, a rejected
    query included. *)
Theorem readers_leave_store (req : request) (w : world) :
  store (world_after (Part006.getAllTasks req w)) = store w /\
  store (world_after (Part005.getAllTasks req w)) = store w /\
  store (world_after (TasksJs.getAllTasks req w)) = store w /\
  store (world_after (Part006Rest.getUserTask req w)) = store w /\
  store (world_after (Part006.getTaskById req w)) = store w.
Proof.
  unfold Part006.getAllTasks, Part005.getAllTasks, TasksJs.getAllTasks.
  cbv zeta. rewrite !list_block_store.
  split; [done|]. split; [done|]. split; [done|]. split.
  - unfold Part006Rest.getUserTask, task_findByUser, world_after. run.
    by destruct (owned_by _).
  - unfold Part006.getTaskById, task_findUnique, world_after.
    destruct (_ || _); [done|]. run.
    destruct (as_id _) as [z|]; [|done].
    simpl. by destruct (tasks (store w) !! z).
Qed.

(** X14.  The sort direction is not checked: whatever string the [order]
    parameter holds is the direction of the query sent to the store, and
    ["asc"] when the parameter is absent, in all three list handlers. *)
Theorem order_sent_as_given (req : request) (w : world) :
  orders (log (world_after (Part006.getAllTasks req w)))
    = orders (log w) ++ [default "asc" (query req !! "order")] /\
  orders (log (world_after (Part005.getAllTasks req w)))
    = orders (log w) ++ [default "asc" (query req !! "order")] /\
  orders (log (world_after (TasksJs.getAllTasks req w)))
    = orders (log w) ++ [default "asc" (query req !! "order")].
Proof.
  unfold Part006.getAllTasks, Part005.getAllTasks, TasksJs.getAllTasks.
  cbv zeta. rewrite !orders_block. done.
Qed.

Lemma ceil_div_degenerate (total : Z) (l : jsnum) :
  l = Num 0 \/ l = NaN -> on_wire (ceil_div total l) = JNull.
Proof.
  intros [-> | ->]; unfold ceil_div, div_num; [|done].
  by destruct total.
Qed.

(** X15.  A limit that is zero or not a number is not refused: whatever
    the [limit] parameter reads as is sent to the store as the [take] of
    the query, and when the answer is 200 for a limit that is zero or not
    a number, the [totalPages] it reports, which is infinite or not a
    number in the handler, is [null] in the answer, next to a total that
    is never negative. *)
Theorem degenerate_limit (req : request) (w : world) (l : jsnum) :
  from_option Number_ (Num 10) (query req !! "limit") = l ->
  (exists skip, pages (log (world_after (Part006.getAllTasks req w)))
                = pages (log w) ++ [(skip, l)]) /\
  (forall tasks pg tp total,
     outcome_of (Part006.getAllTasks req w)
       = Ok (mkRes 200 (TaskPage tasks pg tp total)) ->
     0 <= total /\ (l = Num 0 \/ l = NaN -> tp = JNull)).
Proof.
  intros Hlimit. unfold Part006.getAllTasks. cbv zeta.
  rewrite Hlimit, pages_block. cbn [fa_skip fa_take].
  split; [eauto|]. intros tasks pg tp total Hok. apply page_block in Hok.
  destruct Hok as (_ & Hcount & _ & -> & _).
  split; [by apply counted_bounds in Hcount|].
  apply ceil_div_degenerate.
Qed.

End ListEdges.

(** [?limit=0] on the reference store: the query takes no rows, and the
    answer has two tasks in total and no number of pages.  [?limit=abc]:
    the query asks for NaN rows, which the reference engine refuses. *)
Lemma degenerate_limit_witness :
  let req := Reference.request_of [] [] [("limit", "0")] (∅ : obj) None in
  let bad := Reference.request_of [] [] [("limit", "abc")] (∅ : obj) None in
  (exists skip, pages (log (world_after (Part006.getAllTasks req Reference.w0)))
                = pages (log Reference.w0) ++ [(skip, Num 0)]) /\
  (forall tasks pg tp total,
     outcome_of (Part006.getAllTasks req Reference.w0)
       = Ok (mkRes 200 (TaskPage tasks pg tp total)) ->
     0 <= total /\ tp = JNull) /\
  outcome_of (Part006.getAllTasks req Reference.w0)
    = Ok (mkRes 200 (TaskPage [] (JNumber (Num 1)) JNull 2)) /\
  (exists skip, pages (log (world_after (Part006.getAllTasks bad Reference.w0)))
                = pages (log Reference.w0) ++ [(skip, NaN)]) /\
  outcome_of (Part006.getAllTasks bad Reference.w0)
    = Ok (mkRes 500 (Error "Failed to fetch tasks")).
Proof.
  intros req bad.
  destruct (degenerate_limit req Reference.w0 (Num 0)) as [Htake Hnull];
    [vm_compute; reflexivity|].
  destruct (degenerate_limit bad Reference.w0 NaN) as [Htake' _];
    [vm_compute; reflexivity|].
  split; [exact Htake|]. split; [|split; [|split; [exact Htake'|]]].
  - intros tasks pg tp total Hout.
    destruct (Hnull tasks pg tp total Hout) as [Hpos Htp].
    split; [exact Hpos|]. apply Htp. left. reflexivity.
  - vm_compute. reflexivity.
  - vm_compute. reflexivity.
Defined.

Section Login.
Context `{Engine} `{Platform} `{Host} `{TaskTable}.

Lemma rows_of_In (t : gmap Z obj) (row : obj) :
  In row (rows_of t) <-> exists z, t !! z = Some row.
Proof.
  unfold rows_of. rewrite <- list_elem_of_In, list_elem_of_fmap. split.
  - intros ([z r] & -> & Hin). apply elem_of_map_to_list in Hin. eauto.
  - intros (z & Hz). exists (z, row). split; [done|]. by apply elem_of_map_to_list.
Qed.

(** [findUnique] by email finds a stored row with that email, and finds
    one whenever there is one. *)
Lemma user_findByEmail_run (e : string) (w : world) :
  exists found,
    user_findByEmail (JStr e) w = (Ok found, w) /\
    match found with
    | Some u => (exists z, users (store w) !! z = Some u) /\ get u "email" = JStr e
    | None => forall z u, users (store w) !! z = Some u -> get u "email" <> JStr e
    end.
Proof.
  unfold user_findByEmail, peek. eexists. split; [reflexivity|].
  destruct (List.find _ _) as [u|] eqn:Hfind.
  - apply find_some in Hfind as [Hin Heq]. apply rows_of_In in Hin.
    by apply bool_decide_eq_true in Heq.
  - intros z u Hu Hemail.
    assert (Hin : In u (rows_of (users (store w)))) by (apply rows_of_In; eauto).
    apply (find_none _ _ Hfind) in Hin. by apply bool_decide_eq_false in Hin.
Qed.

(** X16.  [POST /login] never changes the store or its log.  It answers
    an email that no user has, and a password that matches the hash of no
    user with that email, with the same 401 and the same message; and it
    answers 200 only for a stored user with the email of the body whose
    stored hash matches the password of the body, with a token signed for
    that user's id and stored role, and that role. *)
Theorem login_answers (req : request) (w : world) (e : string) :
  get (body req) "email" = JStr e ->
  world_after (AuthJsRest.login req w) = w /\
  ((forall z u, users (store w) !! z = Some u -> get u "email" <> JStr e) ->
     outcome_of (AuthJsRest.login req w)
       = Ok (mkRes 401 (Error "Invalid email or password"))) /\
  ((forall z u, users (store w) !! z = Some u -> get u "email" = JStr e ->
      exists p h, get (body req) "password" = JStr p /\ get u "password" = JStr h /\
                  bcrypt_compare p h = false) ->
     outcome_of (AuthJsRest.login req w)
       = Ok (mkRes 401 (Error "Invalid email or password"))) /\
  (forall o, outcome_of (AuthJsRest.login req w) = Ok (mkRes 200 (Json o)) ->
     exists z u p h,
       users (store w) !! z = Some u /\ get u "email" = JStr e /\
       get (body req) "password" = JStr p /\ get u "password" = JStr h /\
       bcrypt_compare p h = true /\
       o = <["token" := JStr (jwt_sign (<["userId" := get u "id"]>
                                        (<["role" := get u "role"]> ∅)))]>
             (<["role" := get u "role"]> ∅)).
Proof.
  intros He. unfold AuthJsRest.login, outcome_of, world_after.
  unfold try_catch, mbind, M_bind. rewrite He.
  destruct (user_findByEmail_run e w) as (found & -> & Hfound).
  destruct found as [u|].
  - destruct Hfound as [[z Hu] Hemail].
    unfold AuthJsRest.compare_password, mret, M_ret, throw.
    destruct (get (body req) "password") as [| |b|n|p|t|l|l] eqn:Hp;
      try (cbn [fst snd]; split; [done|]; split; [intros Hno; by destruct (Hno z u Hu)|];
           split; [intros Hw; destruct (Hw z u Hu Hemail) as (? & ? & ? & ? & _); congruence|];
           discriminate).
    destruct (get u "password") as [| |b|n|h|t|l|l] eqn:Hh;
      try (cbn [fst snd]; split; [done|]; split; [intros Hno; by destruct (Hno z u Hu)|];
           split; [intros Hw; destruct (Hw z u Hu Hemail) as (? & ? & ? & ? & _); congruence|];
           discriminate).
    destruct (bcrypt_compare p h) eqn:Hcmp; cbn [fst snd].
    + split; [done|]. split; [intros Hno; by destruct (Hno z u Hu)|].
      split.
      { intros Hw. destruct (Hw z u Hu Hemail) as (p' & h' & ? & ? & Hf).
        congruence. }
      intros o Ho. apply (f_equal json_of) in Ho.
      cbv beta iota delta [json_of] in Ho. subst o.
      exists z, u, p, h. done.
    + split; [done|]. split; [done|]. split; [done|]. discriminate.
  - cbn [fst snd]. unfold mret, M_ret.
    split; [done|]. split; [done|]. split; [done|]. discriminate.
Qed.

End Login.

(** Bob logs in with the password his stored hash belongs to. *)
Lemma login_answers_witness :
  let req := Reference.request_of [] [] []
               (<["email" := JStr "bob@x.com"]> (<["password" := JStr "x"]> ∅)) None in
  let o := json_of (outcome_of (AuthJsRest.login req Reference.w0)) in
  world_after (AuthJsRest.login req Reference.w0) = Reference.w0 /\
  exists z u p h,
    users (store Reference.w0) !! z = Some u /\ get u "email" = JStr "bob@x.com" /\
    get (body req) "password" = JStr p /\ get u "password" = JStr h /\
    bcrypt_compare p h = true /\
    o = <["token" := JStr (jwt_sign (<["userId" := get u "id"]>
                                     (<["role" := get u "role"]> ∅)))]>
          (<["role" := get u "role"]> ∅).
Proof.
  intros req o.
  destruct (login_answers req Reference.w0 "bob@x.com") as (Hworld & _ & _ & Hok);
    [vm_compute; reflexivity|].
  split; [exact Hworld|]. apply (Hok o). vm_compute. reflexivity.
Defined.

Section RoundTrip.
Context `{Engine} `{Platform} `{Host} `{TaskTable}.

Lemma email_free (email : jsval) (d : db) (z : Z) (u : obj) :
  email_taken email d = false -> users d !! z = Some u -> get u "email" <> email.
Proof.
  unfold email_taken. intros Hfree Hu Hemail.
  assert (Hin : In u (rows_of (users d))) by (apply rows_of_In; eauto).
  assert (Hex : existsb (fun r => bool_decide (get r "email" = email))
                        (rows_of (users d)) = true).
  { apply existsb_exists. exists u. split; [done|]. by apply bool_decide_eq_true. }
  congruence.
Qed.

(** The row that [register] stores for a body. *)
Lemma register_run (req : request) (w : world) (token : string) :
  outcome_of (AuthJs.register req w) = Ok (mkRes 201 (Token token)) ->
  exists s row,
    get (body req) "password" = JStr s /\
    email_taken (get (body req) "email") (store w) = false /\
    store (world_after (AuthJs.register req w))
      = mkDb (<[user_seq (store w) := row]> (users (store w)))
             (tasks (store w)) (user_seq (store w) + 1) /\
    get row "id" = JNumber (Num (user_seq (store w))) /\
    get row "email" = get (body req) "email" /\
    get row "password" = JStr (bcrypt_hash s) /\
    get row "role" = or_else (get (body req) "role") (JStr "USER").
Proof.
  unfold AuthJs.register, outcome_of, world_after.
  destruct (_ || _) eqn:Hreq; cbn [fst snd]; [discriminate|].
  apply orb_false_elim in Hreq as [Hreq Hname].
  apply orb_false_elim in Hreq as [Hemail Hpass].
  apply negb_false_iff in Hname, Hemail, Hpass.
  apply truthy_defined in Hemail.
  unfold AuthJs.hash_password.
  destruct (get (body req) "password") as [| |b|n|s|t|l|l] eqn:Hpw.
  all: try (unfold try_catch, throw, mbind, M_bind; cbn [fst snd]; discriminate).
  unfold try_catch, mbind, M_bind, mret, M_ret. rewrite user_create_run.
  destruct (_ || _) eqn:Hbad; cbn [fst snd]; [discriminate|].
  apply orb_false_elim in Hbad as [_ Htaken].
  rewrite get_insert_eq in Htaken.
  intros _. eexists s, _. split; [done|]. split; [done|]. split; [reflexivity|].
  assert (Hrole : or_else (get (body req) "role") (JStr "USER") <> JUndef).
  { unfold or_else. destruct (truthy (get (body req) "role")) eqn:Hr; [|done].
    by apply truthy_defined. }
  getmap.
  rewrite (decide_False (P := get (body req) "email" = JUndef)) by done.
  rewrite (decide_False (P := JStr (bcrypt_hash s) = JUndef)) by done.
  rewrite (decide_False (P := or_else _ _ = JUndef)) by done.
  repeat split; reflexivity.
Qed.

(** X17.  After [POST /register] has answered 201, [POST /login] with the
    email of that registration finds the row just stored, whatever else
    the request carries: it answers by the comparison of the password
    sent with the hash of the password registered, 200 with a token
    signed for the new id and the stored role when they match, and the
    401 of a failed login when they do not. *)
Theorem register_then_login (req req' : request) (w : world) (e s p token : string) :
  get (body req) "email" = JStr e ->
  get (body req) "password" = JStr s ->
  outcome_of (AuthJs.register req w) = Ok (mkRes 201 (Token token)) ->
  get (body req') "email" = JStr e ->
  get (body req') "password" = JStr p ->
  outcome_of (AuthJsRest.login req' (world_after (AuthJs.register req w)))
    = if bcrypt_compare p (bcrypt_hash s)
      then Ok (mkRes 200 (Json
             (<["token" := JStr (jwt_sign
                  (<["userId" := JNumber (Num (user_seq (store w)))]>
                   (<["role" := or_else (get (body req) "role") (JStr "USER")]> ∅)))]>
              (<["role" := or_else (get (body req) "role") (JStr "USER")]> ∅))))
      else Ok (mkRes 401 (Error "Invalid email or password")).
Proof.
  intros He Hs Hreg He' Hp.
  destruct (register_run req w token Hreg)
    as (s' & row & Hs' & Hfree & Hstore & Hid & Hemail & Hhash & Hrole).
  assert (s' = s) as -> by congruence.
  unfold AuthJsRest.login, outcome_of.
  unfold try_catch, mbind, M_bind. rewrite He'.
  destruct (user_findByEmail_run e (world_after (AuthJs.register req w)))
    as (found & -> & Hfound).
  rewrite Hstore in Hfound. cbn [users] in Hfound.
  destruct found as [u|].
  - destruct Hfound as [[z Hu] Hue].
    assert (u = row) as ->.
    { destruct (decide (z = user_seq (store w))) as [->|Hne].
      - rewrite lookup_insert_eq in Hu. congruence.
      - rewrite lookup_insert_ne in Hu by done.
        rewrite He in Hfree. by destruct (email_free _ _ _ _ Hfree Hu). }
    unfold AuthJsRest.compare_password, mret, M_ret. rewrite Hp, Hhash, Hid, Hrole.
    by destruct (bcrypt_compare p (bcrypt_hash s)).
  - exfalso. apply (Hfound (user_seq (store w)) row).
    + by rewrite lookup_insert_eq.
    + congruence.
Qed.

End RoundTrip.

(** Cy registers with the password pw and logs in with it. *)
Lemma register_then_login_witness :
  let req := Reference.request_of [] [] []
               (<["email" := JStr "cy@x.com"]>
                (<["password" := JStr "pw"]> (<["name" := JStr "Cy"]> ∅))) None in
  outcome_of (AuthJsRest.login req (world_after (AuthJs.register req Reference.w0)))
    = if bcrypt_compare "pw" (bcrypt_hash "pw")
      then Ok (mkRes 200 (Json
             (<["token" := JStr (jwt_sign
                  (<["userId" := JNumber (Num (user_seq (store Reference.w0)))]>
                   (<["role" := or_else (get (body req) "role") (JStr "USER")]> ∅)))]>
              (<["role" := or_else (get (body req) "role") (JStr "USER")]> ∅))))
      else Ok (mkRes 401 (Error "Invalid email or password")).
Proof.
  intros req.
  apply (register_then_login req req Reference.w0 "cy@x.com" "pw" "pw" "signed");
    vm_compute; reflexivity.
Defined.

Section TaskCreation.
Context `{Engine} `{Platform} `{Host} `{TaskTable}.

(** One call of [prisma.task.create] whose data carries no id. *)
Lemma task_create_run (data : obj) (w : world) :
  get data "id" = JUndef ->
  task_create data w =
    if negb (valid_new_task data) then (Throw "PrismaClientValidationError", w)
    else if bool_decide (is_Some (tasks (store w) !! next_task_id (tasks (store w))))
    then (Throw "P2002", w)
    else (Ok (<["id" := JNumber (Num (next_task_id (tasks (store w))))]>
                (merge data (task_defaults w))),
          mkWorld (mkDb (users (store w))
                        (<[next_task_id (tasks (store w)) :=
                            <["id" := JNumber (Num (next_task_id (tasks (store w))))]>
                              (merge data (task_defaults w))]> (tasks (store w)))
                        (user_seq (store w)))
                  (log w)).
Proof.
  intros Hid. unfold task_create. rewrite Hid.
  unfold mbind, M_bind, peek, modify, throw, mret, M_ret.
  destruct (valid_new_task data); cbn [negb fst snd]; [|reflexivity].
  by destruct (bool_decide _).
Qed.

Lemma parse_dueDate_defined (v : jsval) : parse_dueDate v <> JUndef.
Proof. unfold parse_dueDate. by destruct (truthy v). Qed.

Lemma parse_dueDate_valid (v : jsval) :
  bad_dueDate v = false -> parse_dueDate v <> JDate None.
Proof.
  unfold bad_dueDate, parse_dueDate. destruct (truthy v); [|done].
  cbn [andb]. intros Hd%bool_decide_eq_false. congruence.
Qed.

(** X18.  [POST /] of the tasks router (part_006) is all or nothing:
    every answer other than 201 leaves store and log as they were.  With
    201 the row of the answer has been stored under the next id of the
    sequence, which was free, whatever id the body may carry; the title
    is the truthy title of the body, the owner the number read from its
    [userId]; status, priority and recurrence are the ones of the body
    or, where the body has a falsy one, pending, low and none; and the
    due date is never an invalid date. *)
Theorem createTask_006_stores (req : request) (w : world) :
  ((exists row, outcome_of (Part006Rest.createTask req w) = Ok (mkRes 201 (Json row))) \/
   world_after (Part006Rest.createTask req w) = w) /\
  (forall row,
     outcome_of (Part006Rest.createTask req w) = Ok (mkRes 201 (Json row)) ->
     tasks (store w) !! next_task_id (tasks (store w)) = None /\
     store (world_after (Part006Rest.createTask req w))
       = mkDb (users (store w))
              (<[next_task_id (tasks (store w)) := row]> (tasks (store w)))
              (user_seq (store w)) /\
     get row "id" = JNumber (Num (next_task_id (tasks (store w)))) /\
     truthy (get (body req) "title") = true /\
     get row "title" = get (body req) "title" /\
     get row "userId" = JNumber (to_number (get (body req) "userId")) /\
     get row "status" = or_else (get (body req) "status") (JStr "pending") /\
     get row "priority" = or_else (get (body req) "priority") (JStr "low") /\
     get row "recurring" = or_else (get (body req) "recurring") (JStr "none") /\
     get row "dueDate" = parse_dueDate (get (body req) "dueDate") /\
     get row "dueDate" <> JDate None).
Proof.
  unfold Part006Rest.createTask, outcome_of, world_after.
  destruct (_ || _) eqn:Hreq; cbn [fst snd]; [split; [by right | discriminate]|].
  apply orb_false_elim in Hreq as [Htitle Huser].
  apply negb_false_iff in Htitle, Huser.
  destruct (bad_dueDate _) eqn:Hdue; cbn [fst snd]; [split; [by right | discriminate]|].
  unfold try_catch, today, mbind, M_bind, mret, M_ret. cbn [fst snd].
  rewrite task_create_run by (by getmap).
  destruct (negb (valid_new_task _)); cbn [fst snd];
    [split; [by right | discriminate]|].
  destruct (bool_decide _) eqn:Hfree; cbn [fst snd]; [split; [by right | discriminate]|].
  apply bool_decide_eq_false in Hfree.
  split; [left; eauto|]. intros row Hrow.
  apply (f_equal json_of) in Hrow. cbv beta iota delta [json_of] in Hrow. subst row.
  split; [by apply eq_None_not_Some|]. split; [reflexivity|].
  pose proof (truthy_defined _ Htitle) as Ht.
  pose proof (parse_dueDate_defined (get (body req) "dueDate")) as Hd.
  pose proof (parse_dueDate_valid _ Hdue) as Hv.
  pose proof (or_else_defined (get (body req) "status") "pending") as Hs.
  pose proof (or_else_defined (get (body req) "priority") "low") as Hp.
  pose proof (or_else_defined (get (body req) "recurring") "none") as Hr.
  getmap.
  rewrite (decide_False (P := get (body req) "title" = JUndef)) by done.
  rewrite (decide_False (P := JNumber _ = JUndef)) by done.
  rewrite (decide_False (P := or_else _ (JStr "pending") = JUndef)) by (by apply Hs).
  rewrite (decide_False (P := or_else _ (JStr "low") = JUndef)) by (by apply Hp).
  rewrite (decide_False (P := or_else _ (JStr "none") = JUndef)) by (by apply Hr).
  rewrite (decide_False (P := parse_dueDate _ = JUndef)) by done.
  repeat split; done.
Qed.

(** X19.  [POST /] of the tasks router (tasks.js) reads five
    properties of the body and no more: two requests whose bodies agree
    on title, description, dueDate, status and userId are answered alike
    and leave the same store, whatever else, a priority or a recurrence,
    they carry.  With 201 the row stored under the next id has, in every
    column other than the id and these five, what the table fills in by
    default; any other answer leaves store and log as they were. *)
Theorem createTask_js_ignores_priority (req req' : request) (w : world) :
  (forall k, In k ["title"; "description"; "dueDate"; "status"; "userId"] ->
     get (body req) k = get (body req') k) ->
  TasksJsRest.createTask req w = TasksJsRest.createTask req' w /\
  ((exists row, outcome_of (TasksJsRest.createTask req w) = Ok (mkRes 201 (Json row))) \/
   world_after (TasksJsRest.createTask req w) = w) /\
  (forall row,
     outcome_of (TasksJsRest.createTask req w) = Ok (mkRes 201 (Json row)) ->
     store (world_after (TasksJsRest.createTask req w))
       = mkDb (users (store w))
              (<[next_task_id (tasks (store w)) := row]> (tasks (store w)))
              (user_seq (store w)) /\
     (forall k, ~ In k ["id"; "title"; "description"; "dueDate"; "status"; "userId"] ->
        row !! k = task_defaults w !! k) /\
     get row "status" = or_else (get (body req) "status") (JStr "pending") /\
     get row "dueDate" <> JDate None).
Proof.
  intros Hagree. split.
  { unfold TasksJsRest.createTask. cbv zeta.
    rewrite <- (Hagree "title"), <- (Hagree "description"), <- (Hagree "dueDate"),
      <- (Hagree "status"), <- (Hagree "userId") by (simpl; tauto).
    reflexivity. }
  clear Hagree req'.
  unfold TasksJsRest.createTask, outcome_of, world_after, try_catch.
  destruct (negb (truthy (get (body req) "title")) || negb (truthy (get (body req) "userId")))
    eqn:Hreq; cbn [fst snd]; [split; [by right | discriminate]|].
  destruct (bad_dueDate _) eqn:Hdue; cbn [fst snd]; [split; [by right | discriminate]|].
  unfold mbind, M_bind, mret, M_ret.
  rewrite task_create_run by (by getmap).
  destruct (negb (valid_new_task _)); cbn [fst snd]; [split; [by right | discriminate]|].
  destruct (bool_decide _) eqn:Hfree; cbn [fst snd]; [split; [by right | discriminate]|].
  split; [left; eauto|]. intros row Hrow.
  apply (f_equal json_of) in Hrow. cbv beta iota delta [json_of] in Hrow. subst row.
  split; [reflexivity|].
  pose proof (parse_dueDate_defined (get (body req) "dueDate")) as Hd.
  pose proof (parse_dueDate_valid _ Hdue) as Hv.
  pose proof (or_else_defined (get (body req) "status") "pending") as Hs.
  split.
  { intros k Hk. rewrite lookup_insert_ne by (intros <-; apply Hk; simpl; tauto).
    rewrite merge_lookup.
    repeat (rewrite lookup_insert_ne by (intros <-; apply Hk; simpl; tauto)).
    by rewrite lookup_empty. }
  getmap.
  rewrite (decide_False (P := or_else _ (JStr "pending") = JUndef)) by (by apply Hs).
  rewrite (decide_False (P := parse_dueDate _ = JUndef)) by done.
  repeat split; done.
Qed.

(** One call of [prisma.task.create] whose data names the id. *)
Lemma task_create_at (data : obj) (w : world) (z : Z) :
  get data "id" = JNumber (Num z) ->
  task_create data w =
    if negb (valid_new_task data) then (Throw "PrismaClientValidationError", w)
    else if bool_decide (is_Some (tasks (store w) !! z))
    then (Throw "P2002", w)
    else (Ok (<["id" := JNumber (Num z)]> (merge data (task_defaults w))),
          mkWorld (mkDb (users (store w))
                        (<[z := <["id" := JNumber (Num z)]> (merge data (task_defaults w))]>
                           (tasks (store w)))
                        (user_seq (store w)))
                  (log w)).
Proof.
  intros Hid. unfold task_create. rewrite Hid.
  unfold mbind, M_bind, peek, modify, throw, mret, M_ret.
  destruct (valid_new_task data); cbn [negb fst snd]; [|reflexivity].
  by destruct (bool_decide _).
Qed.

(** X20.  [POST /] of the tasks router (part_005) hands the body itself
    to the create.  With 201 every property the body defines, other than
    the id, the due date and the creation time, is in the stored row as
    the body has it; a numeric id in the body is the id the row is stored
    under, and had to be free; and the due date is the date read from a
    truthy [dueDate], valid or not, and [null] otherwise. *)
Theorem createTask_005_spreads_body (req : request) (w : world) (row : obj) :
  outcome_of (Part005Rest.createTask req w) = Ok (mkRes 201 (Json row)) ->
  (forall k, k <> "id" -> k <> "dueDate" -> k <> "createdAt" ->
     get (body req) k <> JUndef -> get row k = get (body req) k) /\
  (forall z, get (body req) "id" = JNumber (Num z) ->
     tasks (store w) !! z = None /\
     store (world_after (Part005Rest.createTask req w))
       = mkDb (users (store w)) (<[z := row]> (tasks (store w))) (user_seq (store w)) /\
     get row "id" = JNumber (Num z)) /\
  get row "dueDate" = parse_dueDate (get (body req) "dueDate").
Proof.
  unfold Part005Rest.createTask, outcome_of, world_after.
  destruct (_ || _) eqn:Hreq; cbn [fst snd]; [discriminate|].
  unfold try_catch, today, mbind, M_bind, mret, M_ret. cbn [fst snd].
  pose proof (parse_dueDate_defined (get (body req) "dueDate")) as Hd.
  assert (Hdata : get (<["createdAt" := JDate (Some (Date_now w))]>
                        (<["dueDate" := parse_dueDate (get (body req) "dueDate")]>
                           (body req))) "id" = get (body req) "id") by (by getmap).
  destruct (get (body req) "id") as [| |b|[| |z|m2 k2]|s|t|l|l] eqn:Hid.
  all: try (unfold task_create; rewrite Hdata, ?Hid; unfold throw;
            destruct (negb (valid_new_task _)); cbn [fst snd]; discriminate).
  - rewrite task_create_run by done.
    destruct (negb (valid_new_task _)); cbn [fst snd]; [discriminate|].
    destruct (bool_decide _) eqn:Hfree; cbn [fst snd]; [discriminate|].
    intros Hrow.
    apply (f_equal json_of) in Hrow. cbv beta iota delta [json_of] in Hrow. subst row.
    split; [|split; [intros z; discriminate|]].
    + intros k Hk1 Hk2 Hk3 Hk. getmap. by rewrite decide_False.
    + getmap. by rewrite decide_False.
  - rewrite (task_create_at _ _ z) by done.
    destruct (negb (valid_new_task _)); cbn [fst snd]; [discriminate|].
    destruct (bool_decide _) eqn:Hfree; cbn [fst snd]; [discriminate|].
    apply bool_decide_eq_false in Hfree.
    intros Hrow.
    apply (f_equal json_of) in Hrow. cbv beta iota delta [json_of] in Hrow. subst row.
    split; [|split].
    + intros k Hk1 Hk2 Hk3 Hk. getmap. by rewrite decide_False.
    + intros z' [= <-]. split; [by apply eq_None_not_Some|].
      split; [reflexivity|]. by getmap.
    + getmap. by rewrite decide_False.
Qed.

End TaskCreation.

(** A task for Bob with a title and nothing else is stored under id 3. *)
Lemma createTask_006_stores_witness :
  let req := Reference.request_of [] [] []
               (<["title" := JStr "T3"]> (<["userId" := JNumber (Num 2)]> ∅)) None in
  let row := json_of (outcome_of (Part006Rest.createTask req Reference.w0)) in
  tasks (store Reference.w0) !! next_task_id (tasks (store Reference.w0)) = None /\
  store (world_after (Part006Rest.createTask req Reference.w0))
    = mkDb (users (store Reference.w0))
           (<[next_task_id (tasks (store Reference.w0)) := row]>
              (tasks (store Reference.w0)))
           (user_seq (store Reference.w0)) /\
  get row "id" = JNumber (Num (next_task_id (tasks (store Reference.w0)))) /\
  truthy (get (body req) "title") = true /\
  get row "title" = get (body req) "title" /\
  get row "userId" = JNumber (to_number (get (body req) "userId")) /\
  get row "status" = or_else (get (body req) "status") (JStr "pending") /\
  get row "priority" = or_else (get (body req) "priority") (JStr "low") /\
  get row "recurring" = or_else (get (body req) "recurring") (JStr "none") /\
  get row "dueDate" = parse_dueDate (get (body req) "dueDate") /\
  get row "dueDate" <> JDate None.
Proof.
  intros req row.
  destruct (createTask_006_stores req Reference.w0) as [_ Hcreated].
  apply (Hcreated row). vm_compute. reflexivity.
Defined.

(** A body that asks for priority high is treated by tasks.js as the
    same body without it, and gets the priority of the table, low. *)
Lemma createTask_js_ignores_priority_witness :
  let req := Reference.request_of [] [] []
               (<["title" := JStr "T3"]>
                (<["userId" := JNumber (Num 2)]>
                (<["priority" := JStr "high"]> ∅))) None in
  let req' := Reference.request_of [] [] []
               (<["title" := JStr "T3"]> (<["userId" := JNumber (Num 2)]> ∅)) None in
  let row := json_of (outcome_of (TasksJsRest.createTask req Reference.w0)) in
  TasksJsRest.createTask req Reference.w0 = TasksJsRest.createTask req' Reference.w0 /\
  store (world_after (TasksJsRest.createTask req Reference.w0))
    = mkDb (users (store Reference.w0))
           (<[next_task_id (tasks (store Reference.w0)) := row]>
              (tasks (store Reference.w0)))
           (user_seq (store Reference.w0)) /\
  row !! "priority" = Some (JStr "low") /\
  get row "status" = JStr "pending".
Proof.
  intros req req' row.
  destruct (createTask_js_ignores_priority req req' Reference.w0)
    as (Hsame & _ & Hcreated).
  { intros k Hk. simpl in Hk.
    destruct Hk as [<-|[<-|[<-|[<-|[<-|[]]]]]]; vm_compute; reflexivity. }
  split; [exact Hsame|].
  destruct (Hcreated row) as (Hstore & Hdefault & Hstatus & _);
    [vm_compute; reflexivity|].
  split; [exact Hstore|]. split; [|exact Hstatus].
  rewrite Hdefault; [vm_compute; reflexivity|].
  simpl. intros [|[|[|[|[|[|[]]]]]]]; discriminate.
Defined.

(** A body that names id 7 has its task stored under 7 by part_005. *)
Lemma createTask_005_spreads_body_witness :
  let req := Reference.request_of [] [] []
               (<["title" := JStr "T7"]>
                (<["userId" := JNumber (Num 2)]>
                (<["id" := JNumber (Num 7)]> ∅))) None in
  let row := json_of (outcome_of (Part005Rest.createTask req Reference.w0)) in
  tasks (store Reference.w0) !! 7 = None /\
  store (world_after (Part005Rest.createTask req Reference.w0))
    = mkDb (users (store Reference.w0)) (<[7 := row]> (tasks (store Reference.w0)))
           (user_seq (store Reference.w0)) /\
  get row "id" = JNumber (Num 7).
Proof.
  intros req row.
  destruct (createTask_005_spreads_body req Reference.w0 row) as (_ & Hid & _);
    [vm_compute; reflexivity|].
  apply (Hid 7). vm_compute. reflexivity.
Defined.

Section Keys.
Context `{Engine} `{Platform} `{Host} `{TaskTable}.

Lemma well_keyed_insert (t : gmap Z obj) (z : Z) (row : obj) :
  well_keyed t -> get row "id" = JNumber (Num z) -> well_keyed (<[z := row]> t).
Proof.
  intros Ht Hrow z' row'. destruct (decide (z = z')) as [<-|Hne].
  - rewrite lookup_insert_eq. congruence.
  - rewrite lookup_insert_ne by done. apply Ht.
Qed.

Lemma user_create_keyed (data : obj) (w : world) :
  well_keyed (users (store w)) ->
  well_keyed (users (store (user_create data w).2)).
Proof.
  intros Hk. rewrite user_create_run.
  destruct (_ || _); cbn [snd store users]; [done|].
  apply well_keyed_insert; [done|]. by rewrite get_insert_eq.
Qed.

Lemma user_update_keyed (id : jsval) (data : obj) (w : world) :
  data !! "id" = None ->
  well_keyed (users (store w)) ->
  well_keyed (users (store (user_update id data w).2)).
Proof.
  intros Hid Hk.
  destruct (user_update_run id data w) as [->|(z & row & _ & Hrow & ->)]; [done|].
  cbn [snd store users]. apply well_keyed_insert; [done|].
  unfold get. rewrite updated_lookup, Hid, lookup_insert_ne by done.
  by apply Hk.
Qed.

(** The world a caught call leaves is the world the call leaves. *)
Lemma try_report_world (m : M response) (w : world) :
  (Part003.try_report m w).2 = (m w).2.
Proof. unfold Part003.try_report. by destruct (m w) as [[?|?] ?]. Qed.

Lemma bind_ret_world {A} (m : M A) (f : A -> response) (w : world) :
  ((a ← m ; mret (f a)) w).2 = (m w).2.
Proof. unfold mbind, M_bind, mret, M_ret. by destruct (m w) as [[?|?] ?]. Qed.

(** X22.  Every handler that writes user rows keeps the users table keyed
    by id: if each row is stored under the id it carries before the
    request, so it is after it, whatever the request and its answer. *)
Theorem user_writers_keep_keys (h : handler) (req : request) (w : world) :
  In h user_writers ->
  well_keyed (users (store w)) ->
  well_keyed (users (store (world_after (h req w)))).
Proof.
  unfold world_after.
  intros [<-|[<-|[<-|[<-|[<-|[]]]]]] Hk.
  - unfold AuthJs.register.
    destruct (_ || _); [done|].
    unfold AuthJs.hash_password.
    destruct (get (body req) "password") as [| |b|n|s|t|l|l]; try done.
    unfold try_catch, mbind, M_bind, mret, M_ret.
    pose proof (user_create_keyed
      (<["email" := get (body req) "email"]>
       (<["password" := JStr (bcrypt_hash s)]>
       (<["name" := get (body req) "name"]>
       (<["role" := or_else (get (body req) "role") (JStr "USER")]> ∅)))) w Hk) as Hk'.
    by destruct (user_create _ _) as [[?|?] ?].
  - unfold Part003Rest.createUser.
    destruct (_ || _); [done|].
    rewrite try_report_world.
    unfold AuthJs.hash_password.
    destruct (get (body req) "password") as [| |b|n|s|t|l|l]; try done.
    unfold mbind, M_bind, mret, M_ret.
    pose proof (user_create_keyed
      (<["name" := get (body req) "name"]>
       (<["email" := get (body req) "email"]>
       (<["password" := JStr (bcrypt_hash s)]>
       (<["role" := get (body req) "role"]> ∅)))) w Hk) as Hk'.
    by destruct (user_create _ _) as [[?|?] ?].
  - unfold ProfileJsRest.updateProfile.
    destruct (user req) as [p|]; [|done].
    destruct (updateData_of_run (body req) w) as [Hw Hdata].
    unfold mbind at 1, M_bind at 1.
    destruct (ProfileJsRest.updateData_of (body req) w) as [[data|err] w1];
      cbn [snd] in Hw; subst w1; [|done].
    destruct (Hdata data eq_refl) as (Hother & _).
    rewrite try_report_world, bind_ret_world.
    apply user_update_keyed; [by apply Hother|done].
  - unfold Part003Rest.updateUser.
    destruct (updateData_of_run (body req) w) as [Hw Hdata].
    unfold mbind at 1, M_bind at 1.
    destruct (ProfileJsRest.updateData_of (body req) w) as [[data|err] w1];
      cbn [snd] in Hw; subst w1; [|done].
    destruct (Hdata data eq_refl) as (Hother & _).
    rewrite try_report_world.
    destruct (user req) as [p|]; [|done].
    rewrite bind_ret_world.
    apply user_update_keyed; [by apply Hother|done].
  - unfold Part003.updateUserRole.
    destruct (user req) as [u|]; [|done].
    destruct (negb _); [done|].
    rewrite try_report_world, bind_ret_world.
    apply user_update_keyed; [|done]. by rewrite lookup_singleton_ne.
Qed.

End Keys.

(** The reference users are keyed by id, and still are once Cy has
    registered. *)
Lemma user_writers_keep_keys_witness :
  let req := Reference.request_of [] [] []
               (<["email" := JStr "cy@x.com"]>
                (<["password" := JStr "pw"]> (<["name" := JStr "Cy"]> ∅))) None in
  well_keyed (users (store Reference.w0)) /\
  well_keyed (users (store (world_after (AuthJs.register req Reference.w0)))).
Proof.
  intros req.
  assert (Hkeyed : well_keyed (users (store Reference.w0)))
    by (apply well_keyed_check; vm_compute; reflexivity).
  split; [exact Hkeyed|].
  apply (user_writers_keep_keys AuthJs.register req Reference.w0); [|exact Hkeyed].
  left. reflexivity.
Defined.
